(** * Arrêtés sécheresse : a model of [app.py]

    The script downloads the layer of drought-restriction zones and the
    archive of restriction orders ("arrêtés"), filters them, counts
    departments per severity level and hands the result to Streamlit and
    Folium.  This file embeds the tabular part of the script and the
    control flow of [main], and proves what the specification says about
    them.

    Conventions.
    - A dataframe is the list of its rows; a row is a record with the
      columns that the script reads.  A text cell is [Some s], a missing
      cell (NaN / None) is [None].  The archive also holds the dtype of
      its two date columns: pandas compares a date string with an
      [object] column, and raises on a [float64] column.  The cells are
      the values that pandas holds once the file is read: [Some s] is a
      Python [str], so that a text of the file that [pd.read_csv]
      converts (a number, a boolean) is not a text cell, and a date
      column holds texts and missing cells only.
    - A Python exception is a value [Raise e] of the type [res]; code that
      may raise lives in the [res] monad.
    - Library functions whose code is not part of the repository
      ([ast.literal_eval], [json.loads]) are parameters of the functions
      that call them.  [literal_eval_archive] and [json_get_plat] are
      instances on which the examples are run.
    - [dt.date.today()] is an input ([today]).  It is a date of the system
      clock, so the year before it is still a valid year of [datetime];
      the lower bound of [datetime] is not modelled. *)

From Stdlib Require Import ZArith String Ascii List Lia.
From stdpp Require Import base option list gmap strings sorting pretty.

Open Scope string_scope.
Open Scope list_scope.

(** ** Exceptions and results *)

(** The exception classes that occur; all of them derive from
    [Exception], hence are caught by [except Exception]. *)
Inductive exn : Type :=
  | ValueError
  | SyntaxError
  | TypeError
  | KeyError
  | ConnectionError
  | OtherError (nom : string).

Inductive res (A : Type) : Type :=
  | Ok (a : A)
  | Raise (e : exn).

Arguments Ok {A} a.
Arguments Raise {A} e.

#[global] Instance res_ret : MRet res := λ A a, Ok a.

#[global] Instance res_bind : MBind res :=
  λ A B f m, match m with Ok a => f a | Raise e => Raise e end.

#[global] Instance res_fmap : FMap res :=
  λ A B f m, match m with Ok a => Ok (f a) | Raise e => Raise e end.

Definition est_ok {A} (m : res A) : bool :=
  match m with Ok _ => true | Raise _ => false end.

(** ** Python values met in the archive columns *)

(** A cell of a text column read by [pd.read_csv]. *)
Abbreviation cell := (option string).

(** Hashable scalars. *)
Inductive atom : Type :=
  | AStr (s : string)
  | ANaN
  | ANone
  | ABool (b : bool)
  | AInt (z : Z).

(** List-like containers as [pandas.api.types.is_list_like] sees them;
    [items] is what [list(v)] returns (for a dict, its keys). *)
Inductive conteneur : Type := KList | KTuple | KSet | KDict.

(** The value of a literal: a scalar or a flat container of scalars.
    Nested containers are outside the model. *)
Inductive pyval : Type :=
  | PAtom (a : atom)
  | PSeq (k : conteneur) (items : list atom).

#[global] Instance exn_eq_dec : EqDecision exn.
Proof. solve_decision. Defined.

#[global] Instance atom_eq_dec : EqDecision atom.
Proof. solve_decision. Defined.

#[global] Instance conteneur_eq_dec : EqDecision conteneur.
Proof. solve_decision. Defined.

#[global] Instance pyval_eq_dec : EqDecision pyval.
Proof. solve_decision. Defined.

Definition is_list (v : pyval) : bool :=
  match v with PSeq KList _ => true | _ => false end.

(** ** [safe_literal_eval] *)

(** [try: return ast.literal_eval(value)
     except (ValueError, SyntaxError): return [value]] *)
Definition safe_literal_eval (literal_eval : atom → res pyval)
    (value : atom) : res pyval :=
  match literal_eval value with
  | Ok v => Ok v
  | Raise ValueError | Raise SyntaxError => Ok (PSeq KList [value])
  | Raise e => Raise e
  end.

(** ** The archive of arrêtés *)

(** A row of the archive.  The two list columns have type [N] and [T]:
    [atom] as read from the CSV and again after the explosion, [pyval]
    once [safe_literal_eval] has been applied. *)
Record ligne_arrete (N T : Type) : Type := LigneArrete {
  departement : cell;
  date_debut : cell;
  date_fin : cell;
  zones_alerte_niveau_gravite : N;
  zones_alerte_type : T
}.

Arguments LigneArrete {N T} _ _ _ _ _.
Arguments departement {N T} _.
Arguments date_debut {N T} _.
Arguments date_fin {N T} _.
Arguments zones_alerte_niveau_gravite {N T} _.
Arguments zones_alerte_type {N T} _.

Abbreviation arrete := (ligne_arrete atom atom).

(** [df.empty] *)
Definition empty_df {A} (df : list A) : bool :=
  match df with [] => true | _ => false end.

(** The dtype of a column of texts.  [pd.read_csv] gives [object] to a
    column in which it keeps a text and to every column of a file
    without rows, and [float64] to a column whose cells are all missing.
    A selection of rows ([df[mask]], [dropna]) keeps the dtype of each
    column. *)
Inductive dtype : Type := dt_object | dt_float64.

(** The archive as a dataframe: its rows and the dtype of its two date
    columns. *)
Record archive : Type := Archive {
  dtype_date_debut : dtype;
  dtype_date_fin : dtype;
  lignes_arretes : list arrete
}.

(** [serie < date] and [serie > date], for a date given as a text.  The
    comparison is made on an [object] column, cell by cell ([cell_lt],
    [cell_gt]): a missing cell compares false, a text cell compares as
    Python strings do.  On a [float64] column pandas raises TypeError
    (invalid comparison between dtype=float64 and str), whatever the
    number of rows. *)
Definition comparer_texte (dt : dtype) : res unit :=
  match dt with
  | dt_object => Ok tt
  | dt_float64 => Raise TypeError
  end.

Definition cell_lt (c : cell) (d : string) : bool :=
  match c with Some s => String.ltb s d | None => false end.

Definition cell_gt (c : cell) (d : string) : bool :=
  match c with Some s => String.ltb d s | None => false end.

(** [df[col] = df[col].apply(f)] for each of the two list columns. *)
Definition apply_niveau_gravite {N N' T} (f : N → res N')
    (df : list (ligne_arrete N T)) : res (list (ligne_arrete N' T)) :=
  mapM (λ r, v ← f (zones_alerte_niveau_gravite r);
             mret (LigneArrete (departement r) (date_debut r) (date_fin r)
                               v (zones_alerte_type r))) df.

Definition apply_type {N T T'} (f : T → res T')
    (df : list (ligne_arrete N T)) : res (list (ligne_arrete N T')) :=
  mapM (λ r, v ← f (zones_alerte_type r);
             mret (LigneArrete (departement r) (date_debut r) (date_fin r)
                               (zones_alerte_niveau_gravite r) v)) df.

(** [DataFrame.explode] on several columns.  [mylen] is the function of
    that name in pandas: a non-empty list-like counts its elements,
    anything else counts one. *)
Definition mylen (v : pyval) : nat :=
  match v with
  | PSeq _ (x :: l) => S (length l)
  | _ => 1
  end.

(** [Series.explode] of one cell: a scalar stays, an empty list-like
    becomes NaN, a list-like gives its elements. *)
Definition elements (v : pyval) : list atom :=
  match v with
  | PAtom a => [a]
  | PSeq _ [] => [ANaN]
  | PSeq _ l => l
  end.

Definition explode_ligne (r : ligne_arrete pyval pyval) : list arrete :=
  zip_with (λ n t, LigneArrete (departement r) (date_debut r) (date_fin r) n t)
           (elements (zones_alerte_niveau_gravite r))
           (elements (zones_alerte_type r)).

Definition counts_match (r : ligne_arrete pyval pyval) : bool :=
  Nat.eqb (mylen (zones_alerte_niveau_gravite r)) (mylen (zones_alerte_type r)).

(** [df.explode(['zones_alerte.niveau_gravite','zones_alerte.type'])]:
    ValueError("columns must have matching element counts") unless every
    row has as many elements in one column as in the other. *)
Definition explode (df : list (ligne_arrete pyval pyval)) : res (list arrete) :=
  if forallb counts_match df then Ok (df ≫= explode_ligne)
  else Raise ValueError.

(** [serie == 'SUP'] and [serie.isin(niveaux)] on exploded cells. *)
Definition est_sup (r : arrete) : bool :=
  bool_decide (zones_alerte_type r = AStr "SUP").

Definition isin (a : atom) (niveaux : list string) : bool :=
  match a with
  | AStr s => bool_decide (s ∈ niveaux)
  | _ => false
  end.

(** [calculer_dept_arretes_date], statement by statement.  [unique()]
    is modelled by [remove_dups]: only the number of values is used. *)
Definition calculer_dept_arretes_date (literal_eval : atom → res pyval)
    (df_arretes : archive) (date_compar : string)
    (niveaux : list string) : res Z :=
  let resultat := 0%Z in
  _ ← comparer_texte (dtype_date_debut df_arretes);
  let loc_df_arretes :=
    filter (λ r, cell_lt (date_debut r) date_compar) (lignes_arretes df_arretes) in
  loc_df_arretes ←
    (if empty_df loc_df_arretes then Ok loc_df_arretes
     else
       _ ← comparer_texte (dtype_date_fin df_arretes);
       Ok (filter (λ r, cell_gt (date_fin r) date_compar) loc_df_arretes));
  loc_df_arretes ←
    (if empty_df loc_df_arretes then Ok loc_df_arretes
     else
       df1 ← apply_niveau_gravite (safe_literal_eval literal_eval) loc_df_arretes;
       df2 ← apply_type (safe_literal_eval literal_eval) df1;
       explode df2);
  let loc_df_arretes :=
    if empty_df loc_df_arretes then loc_df_arretes
    else filter (λ r, est_sup r) loc_df_arretes in
  if empty_df loc_df_arretes then mret resultat
  else
    let df_arretes_non_vigi :=
      filter (λ r, isin (zones_alerte_niveau_gravite r) niveaux) loc_df_arretes in
    if empty_df df_arretes_non_vigi then mret resultat
    else mret (Z.of_nat (length (remove_dups (departement <$> df_arretes_non_vigi)))).

(** The function in four parts, named for the statements below.
    [comparer_dates] is the two comparisons of the dates, for the
    exception they may raise: the second one is made only when a row
    passes the first. *)
Definition comparer_dates (df_arretes : archive) (date_compar : string) : res unit :=
  _ ← comparer_texte (dtype_date_debut df_arretes);
  if empty_df (filter (λ r, cell_lt (date_debut r) date_compar)
                      (lignes_arretes df_arretes))
  then Ok tt
  else comparer_texte (dtype_date_fin df_arretes).

(** [exploser] is the dataframe reached after the parsing and the
    explosion (the value of [loc_df_arretes] at line 390 of the
    script), from the rows of an archive whose dates are compared
    without exception. *)
Definition exploser (literal_eval : atom → res pyval)
    (df_arretes : list arrete) (date_compar : string) : res (list arrete) :=
  let loc_df_arretes := filter (λ r, cell_lt (date_debut r) date_compar) df_arretes in
  let loc_df_arretes :=
    if empty_df loc_df_arretes then loc_df_arretes
    else filter (λ r, cell_gt (date_fin r) date_compar) loc_df_arretes in
  if empty_df loc_df_arretes then Ok loc_df_arretes
  else
    df1 ← apply_niveau_gravite (safe_literal_eval literal_eval) loc_df_arretes;
    df2 ← apply_type (safe_literal_eval literal_eval) df1;
    explode df2.

(** The rows that are counted (the value of [df_arretes_non_vigi], or the
    empty frame when the script does not reach it). *)
Definition retenir (loc_df_arretes : list arrete) (niveaux : list string) : list arrete :=
  let loc_df_arretes :=
    if empty_df loc_df_arretes then loc_df_arretes
    else filter (λ r, est_sup r) loc_df_arretes in
  if empty_df loc_df_arretes then []
  else filter (λ r, isin (zones_alerte_niveau_gravite r) niveaux) loc_df_arretes.

(** [len(df['departement'].unique())], guarded by [if not df.empty]. *)
Definition compter_departements (df_arretes_non_vigi : list arrete) : Z :=
  if empty_df df_arretes_non_vigi then 0%Z
  else Z.of_nat (length (remove_dups (departement <$> df_arretes_non_vigi))).

(** ** An instance of [ast.literal_eval]

    [literal_eval_archive] follows CPython on the fragment of the literal
    syntax found in the archive:
    - a value that is not a [str] is no literal: ValueError;
    - a list display accepted by [lire_liste]: between the brackets,
      string literals separated by one comma each (no comma after the
      last), each literal opened and closed by ['] or by the double quote
      and holding no backslash and no control character; blanks and tabs
      are allowed before the opening bracket, around the elements and
      after the closing bracket: the list of these strings;
    - a bare name made of ASCII letters, digits and [_], other than a
      keyword: ValueError (malformed node), the constants [True], [False]
      and [None] giving their value.
    Every other string is answered by SyntaxError.  CPython may answer
    otherwise there (numbers, lone or adjacent or triple-quoted strings,
    tuples, a comma after the last element, a name followed by blanks);
    the examples use no such string. *)

Definition est_blanc (c : ascii) : bool :=
  Ascii.eqb c " "%char || Ascii.eqb c "009"%char.

Fixpoint lstrip (s : string) : string :=
  match s with
  | String c r => if est_blanc c then lstrip r else s
  | EmptyString => EmptyString
  end.

Definition est_guillemet (c : ascii) : bool :=
  Ascii.eqb c "'"%char || Ascii.eqb c "034"%char.

(** Reads the body of a string literal up to the closing quote [q]. *)
Fixpoint lire_chaine (q : ascii) (s : string) : option (string * string) :=
  match s with
  | EmptyString => None
  | String c r =>
      if Ascii.eqb c q then Some (EmptyString, r)
      else if Ascii.eqb c "092"%char || (nat_of_ascii c <? 32)%nat then None
      else '(corps, reste) ← lire_chaine q r; Some (String c corps, reste)
  end.

(** Reads [elt , elt , ... ]] ; [n] bounds the number of elements. *)
Fixpoint lire_elements (n : nat) (s : string) : option (list atom) :=
  match n with
  | O => None
  | S n =>
      match lstrip s with
      | String q r =>
          if est_guillemet q then
            '(corps, reste) ← lire_chaine q r;
            match lstrip reste with
            | String c r' =>
                if Ascii.eqb c ","%char then
                  items ← lire_elements n r'; Some (AStr corps :: items)
                else if Ascii.eqb c "]"%char then
                  match lstrip r' with
                  | EmptyString => Some [AStr corps]
                  | _ => None
                  end
                else None
            | EmptyString => None
            end
          else None
      | EmptyString => None
      end
  end.

Definition lire_liste (s : string) : option (list atom) :=
  match lstrip s with
  | String c r =>
      if Ascii.eqb c "["%char then
        match lstrip r with
        | String c' r' =>
            if Ascii.eqb c' "]"%char then
              match lstrip r' with EmptyString => Some [] | _ => None end
            else lire_elements (String.length r) r
        | EmptyString => None
        end
      else None
  | EmptyString => None
  end.

Definition est_lettre (c : ascii) : bool :=
  let n := nat_of_ascii c in
  ((65 <=? n) && (n <=? 90) || (97 <=? n) && (n <=? 122) || (n =? 95))%nat.

Definition est_chiffre (c : ascii) : bool :=
  let n := nat_of_ascii c in ((48 <=? n) && (n <=? 57))%nat.

Fixpoint suite_de_nom (s : string) : bool :=
  match s with
  | EmptyString => true
  | String c r => (est_lettre c || est_chiffre c) && suite_de_nom r
  end.

Definition est_nom (s : string) : bool :=
  match s with
  | String c r => est_lettre c && suite_de_nom r
  | EmptyString => false
  end.

Definition mots_cles : list string :=
  ["and"; "as"; "assert"; "async"; "await"; "break"; "class"; "continue";
   "def"; "del"; "elif"; "else"; "except"; "finally"; "for"; "from";
   "global"; "if"; "import"; "in"; "is"; "lambda"; "nonlocal"; "not"; "or";
   "pass"; "raise"; "return"; "try"; "while"; "with"; "yield"].

Definition literal_eval_archive (value : atom) : res pyval :=
  match value with
  | AStr s =>
      match lire_liste s with
      | Some items => Ok (PSeq KList items)
      | None =>
          let nom := lstrip s in
          if bool_decide (nom = "True") then Ok (PAtom (ABool true))
          else if bool_decide (nom = "False") then Ok (PAtom (ABool false))
          else if bool_decide (nom = "None") then Ok (PAtom ANone)
          else if est_nom nom && negb (bool_decide (nom ∈ mots_cles))
               then Raise ValueError
          else Raise SyntaxError
      end
  | _ => Raise ValueError
  end.

(** ** Dates *)

Record date : Type := Date { year : Z; month : Z; day : Z }.

(** [str(n).zfill(w)] for a number that is not negative. *)
Definition zfill (w : nat) (n : Z) : string :=
  let s := pretty n in
  String.concat "" (replicate (w - String.length s) "0") +:+ s.

(** [d.isoformat()] : yyyy-mm-dd *)
Definition isoformat (d : date) : string :=
  zfill 4 (year d) +:+ "-" +:+ zfill 2 (month d) +:+ "-" +:+ zfill 2 (day d).

(** [dt.date(date_today.year - 1, date_today.month, 1)] *)
Definition date_an_passe (date_today : date) : date :=
  Date (year date_today - 1) (month date_today) 1.

(** [today + relativedelta(months=-1, day=1)] : the month is decreased,
    wrapping to December of the year before, and the day is set to 1. *)
Definition date_mois_precedent (date_today : date) : date :=
  if (month date_today - 1 <? 1)%Z
  then Date (year date_today - 1) (month date_today - 1 + 12) 1
  else Date (year date_today) (month date_today - 1) 1.

Definition calculer_dept_arretes_an_passe (literal_eval : atom → res pyval)
    (today : date) (df_arretes : archive) : res Z :=
  let date_today := today in
  let an_moins_1 := (year date_today - 1)%Z in
  let date_compar := isoformat (Date an_moins_1 (month date_today) 1) in
  let niveaux := ["alerte"; "alerte renforcée"; "crise"] in
  calculer_dept_arretes_date literal_eval df_arretes date_compar niveaux.

(** ** The layer of zones *)

(** A row of the layer as [gpd.read_file] gives it: the columns that the
    script reads.  The geometry is only handed to the map. *)
Record zone_brute : Type := ZoneBrute {
  zb_id : option Z;
  zb_type : cell;
  zb_departement : cell;
  zb_arreteRestriction : cell;
  zb_niveauGravite : cell
}.

(** A row of the layer returned by [get_zones_secheresse]: the columns
    read, and the two columns added. *)
Record zone : Type := Zone {
  z_id : option Z;
  z_type : cell;
  z_departement : cell;
  z_arreteRestriction : cell;
  niveauGravite : cell;
  insee_dept : cell;
  chemin_fichier : cell
}.

(** [groupby(...).first()] on one column: the first value that is not
    missing. *)
Definition first_non_null (l : list cell) : cell :=
  head (omap id l).

(** [zones.dissolve(by='id', aggfunc='first')]: one row per value of [id]
    (rows without [id] are dropped, the groups come sorted by [id]), each
    column holding the first value of its group that is not missing. *)
Definition dissolve (df : list zone_brute) : list zone_brute :=
  (λ k, let groupe := filter (λ r, zb_id r = Some k) df in
        ZoneBrute (Some k)
                  (first_non_null (zb_type <$> groupe))
                  (first_non_null (zb_departement <$> groupe))
                  (first_non_null (zb_arreteRestriction <$> groupe))
                  (first_non_null (zb_niveauGravite <$> groupe)))
  <$> merge_sort Z.le (remove_dups (omap zb_id df)).

(** [len(x) < 3] on the department code: [len(None)] is a TypeError.
    [String.length] counts bytes, that is characters for the codes of
    departments, which are ASCII. *)
Definition code_court (code : cell) : res bool :=
  match code with
  | Some s => Ok (String.length s <? 3)%nat
  | None => Raise TypeError
  end.

(** The part of [get_zones_secheresse] that follows the reading of the
    layer.  [json_get x k] stands for [json.loads(x)[k]].

    The column [id] is kept as it was read.  This is what the script does
    when the tiles are merged ([id] is then the index, which
    [DataFrame.where] leaves alone) and, for an uploaded file, as long as
    float64 holds every [id] exactly (absolute value at most 2^53): when
    a row is masked, [where] turns an integer column into float64, and
    an [id] beyond that bound would be rounded.  The statements that
    speak of [z_id] for an uploaded file assume the bound
    ([ids_exacts]). *)
Definition filtrer_zones (json_get : cell → string → res cell)
    (zones_arretes : list zone_brute) (traiter_pmtiles : bool) : res (list zone) :=
  let zones_arretes := filter (λ r, zb_type r = Some "SUP") zones_arretes in
  let zones_arretes := if traiter_pmtiles then dissolve zones_arretes else zones_arretes in
  avec_code ← mapM (λ r, code ← json_get (zb_departement r) "code"; mret (r, code))
                   zones_arretes;
  gardes ← mapM (λ rc, b ← code_court rc.2; mret (rc, b)) avec_code;
  let zones_arretes := fst <$> filter (λ rcb, rcb.2 = true) gardes in
  let zones_arretes := filter (λ rc, is_Some rc.2) zones_arretes in
  mapM (λ rc, fichier ← json_get (zb_arreteRestriction rc.1) "fichier";
              mret (Zone (zb_id rc.1) (zb_type rc.1) (zb_departement rc.1)
                         (zb_arreteRestriction rc.1) (zb_niveauGravite rc.1)
                         rc.2 fichier))
       zones_arretes.

(** The layer on which the codes are read: the rows of type 'SUP',
    merged by [id] when the tiles are merged. *)
Definition zones_sup (zones_arretes : list zone_brute) (traiter_pmtiles : bool)
    : list zone_brute :=
  let zones_arretes := filter (λ r, zb_type r = Some "SUP") zones_arretes in
  if traiter_pmtiles then dissolve zones_arretes else zones_arretes.

(** [get_zones_secheresse]: the layer is read from the uploaded file when
    there is one, else requested from the stable URL; only in the second
    case are the tiles merged. *)
Definition get_zones_secheresse (json_get : cell → string → res cell)
    (lire_geopandas : string → res (list zone_brute))
    (requete_zones : res (list zone_brute))
    (uploaded_file : option string) : res (list zone) :=
  '(zones_arretes, traiter_pmtiles) ←
     match uploaded_file with
     | Some name => zones ← lire_geopandas name; mret (zones, false)
     | None => zones ← requete_zones; mret (zones, true)
     end;
  filtrer_zones json_get zones_arretes traiter_pmtiles.

(** ** Counts on the current layer *)

(** A department of the VNF network (layer [departements_itineraires]). *)
Record dept : Type := Dept { insee_dep : cell; nom : string }.

(** [serie != texte] and [serie == texte] on a text column. *)
Definition cell_ne (c : cell) (s : string) : bool :=
  match c with Some s' => negb (bool_decide (s' = s)) | None => true end.

Definition cell_eq (c : cell) (s : string) : bool :=
  match c with Some s' => bool_decide (s' = s) | None => false end.

Definition calculer_dept_zone_restrict (zones_arretes : list zone) : Z :=
  let resultat := 0%Z in
  let zones_non_vigilance := filter (λ z, cell_ne (niveauGravite z) "vigilance") zones_arretes in
  if empty_df zones_non_vigilance then resultat
  else
    let dept_res := remove_dups (insee_dept <$> zones_non_vigilance) in
    Z.of_nat (length dept_res).

Definition calculer_dept_zone_vnf_niveau (zones_arretes : list zone)
    (dept_iti : list dept) (niveau : string) : Z * string :=
  let resultat := (0%Z, "") in
  let zones_filtres := filter (λ z, cell_eq (niveauGravite z) niveau) zones_arretes in
  if empty_df zones_filtres then resultat
  else
    let dept_filtre := remove_dups (insee_dept <$> zones_filtres) in
    let dept_resultat := filter (λ d, insee_dep d ∈ dept_filtre) dept_iti in
    if empty_df dept_resultat then resultat
    else (Z.of_nat (length dept_resultat), String.concat ", " (nom <$> dept_resultat)).

(** ** The table of indicators *)

Inductive valeur : Type := VInt (z : Z) | VStr (s : string).

(** A dataframe with named rows: its columns, and its rows by label. *)
Record dataframe : Type := DataFrame {
  columns : list string;
  lignes : gmap string (list valeur)
}.

(** [df.loc[label] = ligne]: the row is added (or replaced); pandas
    refuses a list that has not one value per column. *)
Definition set_loc (label : string) (ligne : list valeur) (df : dataframe)
    : res dataframe :=
  if (length ligne =? length (columns df))%nat
  then Ok (DataFrame (columns df) (<[label := ligne]> (lignes df)))
  else Raise ValueError.

(** [df.loc[label][colonne]] *)
Definition valeur_de (df : dataframe) (label colonne : string) : res valeur :=
  match lignes df !! label with
  | None => Raise KeyError
  | Some ligne =>
      match list_find (λ c, c = colonne) (columns df) with
      | None => Raise KeyError
      | Some (i, _) =>
          match ligne !! i with
          | Some v => Ok v
          | None => Raise KeyError
          end
      end
  end.

Definition colonnes_indic : list string :=
  ["dept_fr";
   "dept_vnf_crise_code"; "dept_vnf_crise_nom";
   "dept_vnf_ar_code"; "dept_vnf_ar_nom";
   "dept_vnf_a_code"; "dept_vnf_a_nom";
   "dept_vnf_vg_code"; "dept_vnf_vg_nom"].

Definition construire_table_indic (literal_eval : atom → res pyval)
    (today : date) (df_arretes : archive) (zones_arretes : list zone)
    (dept_iti : list dept) : res dataframe :=
  let df_resultat := DataFrame colonnes_indic ∅ in
  (* Année courante *)
  let nb_dept_r_z := calculer_dept_zone_restrict zones_arretes in
  let nb_dept_vnf_crise := calculer_dept_zone_vnf_niveau zones_arretes dept_iti "crise" in
  let nb_dept_vnf_ar := calculer_dept_zone_vnf_niveau zones_arretes dept_iti "alerte_renforcee" in
  let nb_dept_vnf_a := calculer_dept_zone_vnf_niveau zones_arretes dept_iti "alerte" in
  let nb_dept_vnf_vg := calculer_dept_zone_vnf_niveau zones_arretes dept_iti "vigilance" in
  df_resultat ← set_loc "annee_courante"
    [VInt nb_dept_r_z;
     VInt nb_dept_vnf_crise.1; VStr nb_dept_vnf_crise.2;
     VInt nb_dept_vnf_ar.1; VStr nb_dept_vnf_ar.2;
     VInt nb_dept_vnf_a.1; VStr nb_dept_vnf_a.2;
     VInt nb_dept_vnf_vg.1; VStr nb_dept_vnf_vg.2] df_resultat;
  (* Année précédente *)
  nb_dept_an_passe ← calculer_dept_arretes_an_passe literal_eval today df_arretes;
  df_resultat ← set_loc "annee_precedente"
    [VInt nb_dept_an_passe;
     VInt 0; VStr ""; VInt 0; VStr ""; VInt 0; VStr ""; VInt 0; VStr ""] df_resultat;
  (* 1er jour du mois précédent *)
  let date_compar := date_mois_precedent today in
  let niveaux := ["alerte"; "alerte_renforcee"; "crise"] in
  nb_dept_r_z_mois_prec ←
    calculer_dept_arretes_date literal_eval df_arretes (isoformat date_compar) niveaux;
  let niveaux := ["crise"] in
  nb_dept_vnf_crise_mois_prec ←
    calculer_dept_arretes_date literal_eval df_arretes (isoformat date_compar) niveaux;
  let niveaux := ["alerte_renforcee"] in
  nb_dept_vnf_ar_mois_prec ←
    calculer_dept_arretes_date literal_eval df_arretes (isoformat date_compar) niveaux;
  let niveaux := ["alerte"] in
  nb_dept_vnf_a_mois_prec ←
    calculer_dept_arretes_date literal_eval df_arretes (isoformat date_compar) niveaux;
  let niveaux := ["vigilance"] in
  nb_dept_vnf_vg_mois_prec ←
    calculer_dept_arretes_date literal_eval df_arretes (isoformat date_compar) niveaux;
  df_resultat ← set_loc "mois_precedent"
    [VInt nb_dept_r_z_mois_prec;
     VInt nb_dept_vnf_crise_mois_prec; VStr "";
     VInt nb_dept_vnf_ar_mois_prec; VStr "";
     VInt nb_dept_vnf_a_mois_prec; VStr "";
     VInt nb_dept_vnf_vg_mois_prec; VStr ""] df_resultat;
  mret df_resultat.

(** The three rows of the table, given the six counts on the archive. *)
Definition table_de (zones_arretes : list zone) (dept_iti : list dept)
    (n m0 m1 m2 m3 m4 : Z) : dataframe :=
  let crise := calculer_dept_zone_vnf_niveau zones_arretes dept_iti "crise" in
  let ar := calculer_dept_zone_vnf_niveau zones_arretes dept_iti "alerte_renforcee" in
  let a := calculer_dept_zone_vnf_niveau zones_arretes dept_iti "alerte" in
  let vg := calculer_dept_zone_vnf_niveau zones_arretes dept_iti "vigilance" in
  DataFrame colonnes_indic
    (<["mois_precedent" :=
         [VInt m0; VInt m1; VStr ""; VInt m2; VStr ""; VInt m3; VStr ""; VInt m4; VStr ""]]>
     (<["annee_precedente" :=
         [VInt n; VInt 0; VStr ""; VInt 0; VStr ""; VInt 0; VStr ""; VInt 0; VStr ""]]>
      (<["annee_courante" :=
         [VInt (calculer_dept_zone_restrict zones_arretes);
          VInt crise.1; VStr crise.2; VInt ar.1; VStr ar.2;
          VInt a.1; VStr a.2; VInt vg.1; VStr vg.2]]> ∅))).

(** ** The display of the indicators *)

(** The Streamlit columns in which [inserer_indic_dept] writes. *)
Inductive case : Type :=
  | Ligne1 (i : nat)
  | LigneVnf (i : nat)
  | Ligne2 (i : nat)
  | Ligne3 (i : nat)
  | Ligne4 (i : nat).

(** [case.write(texte)] *)
Definition ecriture : Type := (case * string)%type.

Definition _signe_devant (valeur : Z) : string :=
  let signe := "" in
  let signe := if (0 <? valeur)%Z then "\+ " else signe in
  let signe := if (valeur <? 0)%Z then "\- " else signe in
  signe.

(** [f"{v}"] *)
Definition format_valeur (v : valeur) : string :=
  match v with VInt z => pretty z | VStr s => s end.

(** [a - b] and [a > 0] on cells of the table: defined on numbers. *)
Definition soustraire (a b : valeur) : res Z :=
  match a, b with
  | VInt x, VInt y => Ok (x - y)%Z
  | _, _ => Raise TypeError
  end.

Definition positif (a : valeur) : res bool :=
  match a with
  | VInt x => Ok (0 <? x)%Z
  | VStr _ => Raise TypeError
  end.

(** The lines written for one difference with the month before. *)
Definition ecrire_ecart (c : case) (diff_indic_mois : Z) (libelle : string)
    : list ecriture :=
  let signe := _signe_devant diff_indic_mois in
  if bool_decide (signe = "")
  then [(c, "nombre de départements identique par rapport au mois dernier")]
  else [(c, "# " +:+ signe +:+ pretty (Z.abs diff_indic_mois)); (c, libelle)].

(** [liste_dept = ''] then, if the count is positive, the names. *)
Definition liste_dept (table_indic : dataframe) (code nom : string) : res string :=
  n ← valeur_de table_indic "annee_courante" code;
  pos ← positif n;
  if (pos : bool) then format_valeur <$> valeur_de table_indic "annee_courante" nom
  else Ok "".

Definition saut_de_ligne : string := String "010"%char EmptyString.

(** [inserer_indic_dept]: the texts written, in order, when every cell
    read has the type expected; the first cell that is missing or is no
    number where one is needed raises, and what was written before it is
    not kept here. *)
Definition inserer_indic_dept (table_indic : dataframe) : res (list ecriture) :=
  let courante := valeur_de table_indic "annee_courante" in
  let prec := valeur_de table_indic "annee_precedente" in
  let mois := valeur_de table_indic "mois_precedent" in
  (* ligne1 : national *)
  fr ← courante "dept_fr";
  fr_mois ← mois "dept_fr";
  diff_fr ← soustraire fr fr_mois;
  fr_prec ← prec "dept_fr";
  (* ligne2 *)
  vg ← courante "dept_vnf_vg_code";
  a ← courante "dept_vnf_a_code";
  ar ← courante "dept_vnf_ar_code";
  crise ← courante "dept_vnf_crise_code";
  (* ligne3 *)
  vg_mois ← mois "dept_vnf_vg_code";
  diff_vg ← soustraire vg vg_mois;
  a_mois ← mois "dept_vnf_a_code";
  diff_a ← soustraire a a_mois;
  ar_mois ← mois "dept_vnf_ar_code";
  diff_ar ← soustraire ar ar_mois;
  crise_mois ← mois "dept_vnf_crise_code";
  diff_crise ← soustraire crise crise_mois;
  (* ligne4 *)
  a_nom ← liste_dept table_indic "dept_vnf_a_code" "dept_vnf_a_nom";
  ar_nom ← liste_dept table_indic "dept_vnf_ar_code" "dept_vnf_ar_nom";
  crise_nom ← liste_dept table_indic "dept_vnf_crise_code" "dept_vnf_crise_nom";
  mret (
    [(Ligne1 0, "# :grey-background[" +:+ format_valeur fr +:+ "]");
     (Ligne1 0, ":grey-background[départements en France avec des mesures"
                +:+ "                     de restrictions " +:+ saut_de_ligne
                +:+ "des usages au-delà de la vigilance]")]
    ++ ecrire_ecart (Ligne1 0) diff_fr "départements en arrêté par rapport au mois dernier"
    ++ [(Ligne1 0, ":grey-background[" +:+ format_valeur fr_prec +:+ " en 2024]");
        (LigneVnf 0, "Sur le réseau VNF uniquement :");
        (Ligne2 0, "# " +:+ format_valeur vg);
        (Ligne2 0, "départements en vigilance]");
        (Ligne2 1, "# " +:+ format_valeur a);
        (Ligne2 1, "départements en alerte]");
        (Ligne2 2, "# " +:+ format_valeur ar);
        (Ligne2 2, "départements en alerte renforcée]");
        (Ligne2 3, "# :red-background[" +:+ format_valeur crise +:+ "]");
        (Ligne2 3, ":red-background[départements en crise]")]
    ++ ecrire_ecart (Ligne3 0) diff_vg "départements en arrêté par rapport au mois dernier"
    ++ ecrire_ecart (Ligne3 1) diff_a "départements en arrêté par rapport au mois dernier"
    ++ ecrire_ecart (Ligne3 2) diff_ar "départements en arrêté par rapport au mois dernier"
    ++ ecrire_ecart (Ligne3 3) diff_crise "départements en arrêté par rapport au mois dernier"
    ++ [(Ligne4 1, a_nom);
        (Ligne4 2, ar_nom);
        (Ligne4 3, ":red-background[" +:+ crise_nom +:+ "]")])%list.

(** ** An instance of [json.loads(x)[k]]

    [json_get_plat] follows [json.loads] on the objects accepted by
    [lire_objet]: members separated by one comma each, whose names and
    values are strings without backslash or control character, a value
    being also allowed to be [null], with blanks and tabs allowed between
    the tokens; the member named last wins.  A value that is not text is
    a TypeError, a key that is absent a KeyError.  Every other text is
    answered by ValueError (the class of JSONDecodeError).  [json.loads]
    may answer otherwise there (numbers, nested values, escapes, line
    breaks between the tokens); the examples use no such text. *)

Definition lire_valeur (s : string) : option (cell * string) :=
  match s with
  | String c r =>
      if Ascii.eqb c "034"%char then
        '(texte, reste) ← lire_chaine "034"%char r; Some (Some texte, reste)
      else
        match s with
        | String "n" (String "u" (String "l" (String "l" reste))) => Some (None, reste)
        | _ => None
        end
  | EmptyString => None
  end.

Fixpoint lire_membres (n : nat) (s : string) : option (list (string * cell)) :=
  match n with
  | O => None
  | S n =>
      match lstrip s with
      | String q r =>
          if Ascii.eqb q "034"%char then
            '(cle, reste) ← lire_chaine "034"%char r;
            match lstrip reste with
            | String c r1 =>
                if Ascii.eqb c ":"%char then
                  '(v, reste2) ← lire_valeur (lstrip r1);
                  match lstrip reste2 with
                  | String c' r3 =>
                      if Ascii.eqb c' ","%char then
                        ms ← lire_membres n r3; Some ((cle, v) :: ms)
                      else if Ascii.eqb c' "}"%char then
                        match lstrip r3 with
                        | EmptyString => Some [(cle, v)]
                        | _ => None
                        end
                      else None
                  | EmptyString => None
                  end
                else None
            | EmptyString => None
            end
          else None
      | EmptyString => None
      end
  end.

Definition lire_objet (s : string) : option (list (string * cell)) :=
  match lstrip s with
  | String c r =>
      if Ascii.eqb c "{"%char then
        match lstrip r with
        | String c' r' =>
            if Ascii.eqb c' "}"%char then
              match lstrip r' with EmptyString => Some [] | _ => None end
            else lire_membres (String.length r) r
        | EmptyString => None
        end
      else None
  | EmptyString => None
  end.

Definition json_get_plat (x : cell) (k : string) : res cell :=
  match x with
  | None => Raise TypeError
  | Some s =>
      match lire_objet s with
      | None => Raise ValueError
      | Some membres =>
          match list_find (λ m, m.1 = k) (reverse membres) with
          | Some (_, m) => Ok m.2
          | None => Raise KeyError
          end
      end
  end.

(** ** The map *)

(** [niveauGravite.map(dict(zip(codes_niveau, couleurs)))] *)
Definition couleur (niveau : cell) : cell :=
  match niveau with
  | Some n =>
      if bool_decide (n = "vigilance") then Some "#ffeda0"
      else if bool_decide (n = "alerte") then Some "#feb24c"
      else if bool_decide (n = "alerte_renforcee") then Some "#fc4e2a"
      else if bool_decide (n = "crise") then Some "#b10026"
      else None
  | None => None
  end.

(** What [construire_carte] hands to Folium: the layer of the
    departments, the layer of the zones with the column [couleur] that
    the script adds to it, the layer of the itineraries and the date of
    the title.  This is not the map: the drawing is the work of
    [GeoDataFrame.explore] and of Folium, which colour the zones from
    the column [niveauGravite] with the categories and the colours given
    to [explore], and do not read the column [couleur]; their calls are
    taken not to raise.  [Itineraire] is the layer of the itineraries, of
    which the script reads nothing but the bounds. *)
Record carte (Itineraire : Type) : Type := Carte {
  c_dept_iti : list dept;
  c_zones : list (zone * cell);
  c_itineraire : Itineraire;
  c_date_titre : option date
}.

Arguments Carte {Itineraire} _ _ _ _.
Arguments c_dept_iti {Itineraire} _.
Arguments c_zones {Itineraire} _.
Arguments c_itineraire {Itineraire} _.
Arguments c_date_titre {Itineraire} _.

Definition construire_carte {Itineraire : Type} (today : date)
    (itineraire : Itineraire) (zones_arrete : list zone) (dept_iti : list dept)
    (uploaded_file : option string) : carte Itineraire :=
  let czones_arrete := (λ z, (z, couleur (niveauGravite z))) <$> zones_arrete in
  Carte dept_iti czones_arrete itineraire
        (match uploaded_file with None => Some today | Some _ => None end).

(** ** The archive request *)

(** The dtype that [pd.read_csv] gives to a column, from the values
    it holds once read (texts that were kept as texts, and missing
    cells). *)
Definition dtype_de (colonne : list cell) : dtype :=
  match colonne with
  | [] => dt_object
  | _ => if forallb (λ c, bool_decide (c = None)) colonne then dt_float64
         else dt_object
  end.

(** The dataframe that [pd.read_csv] builds: the rows read, and the
    dtype of the two date columns. *)
Definition read_csv (lignes : list arrete) : archive :=
  Archive (dtype_de (date_debut <$> lignes)) (dtype_de (date_fin <$> lignes)) lignes.

(** [df.dropna(axis=0, how='any', subset='date_fin')] *)
Definition dropna_date_fin (df : archive) : archive :=
  Archive (dtype_date_debut df) (dtype_date_fin df)
          (filter (λ r, is_Some (date_fin r)) (lignes_arretes df)).

(** [get_arretes]: the CSV is requested and read, then the rows without
    [date_fin] are dropped.  [requete_arretes] is the outcome of
    [requests.get] and the rows of the file that [pd.read_csv] reads. *)
Definition get_arretes (requete_arretes : res (list arrete)) : res archive :=
  lignes ← requete_arretes;
  let df_arretes := read_csv lignes in
  mret (dropna_date_fin df_arretes).

(** [pd.DataFrame()] *)
Definition DataFrame_vide : archive := Archive dt_object dt_object [].

(** ** [main] : one run of the script *)

(** The block in which a call is made: the page, or one of the two tabs
    entered by [with tab1:] and [with tab2:]. *)
Inductive bloc : Type := Principal | Tab1 | Tab2.

(** The two sources of data that are requested. *)
Inductive source : Type := Zones | Arretes.

(** What a run does, in order.  [EvGetZones] and [EvGetArretes] are the
    calls of the two loading functions; inside each call, [EvCharger] is
    the request and the reading of the source, [EvFiltrer] the selection
    of rows that follows. *)
Inductive event (Itineraire : Type) : Type :=
  | EvUI (appel : string)
  | EvStatus (b : bloc) (texte : string)
  | EvLire (fichier : string)
  | EvGetZones
  | EvGetArretes
  | EvCharger (s : source)
  | EvFiltrer (s : source)
  | EvPrint (e : exn)
  | EvTableIndic
  | EvConstruireCarte
  | EvFolium (b : bloc) (c : carte Itineraire)
  | EvIndic (b : bloc) (textes : list ecriture).

Arguments EvUI {Itineraire} _.
Arguments EvStatus {Itineraire} _ _.
Arguments EvLire {Itineraire} _.
Arguments EvGetZones {Itineraire}.
Arguments EvGetArretes {Itineraire}.
Arguments EvCharger {Itineraire} _.
Arguments EvFiltrer {Itineraire} _.
Arguments EvPrint {Itineraire} _.
Arguments EvTableIndic {Itineraire}.
Arguments EvConstruireCarte {Itineraire}.
Arguments EvFolium {Itineraire} _ _.
Arguments EvIndic {Itineraire} _ _.

(** What a run finds: the clock, the widgets, the files and the network. *)
Record monde (Itineraire : Type) : Type := Monde {
  today : date;
  uploaded_file : option string;
  lire_itineraire : res Itineraire;
  lire_dept_iti : res (list dept);
  lire_zones : string → res (list zone_brute);
  requete_zones : res (list zone_brute);
  requete_arretes : res (list arrete)
}.

Arguments Monde {Itineraire} _ _ _ _ _ _ _.
Arguments today {Itineraire} _.
Arguments uploaded_file {Itineraire} _.
Arguments lire_itineraire {Itineraire} _.
Arguments lire_dept_iti {Itineraire} _.
Arguments lire_zones {Itineraire} _ _.
Arguments requete_zones {Itineraire} _.
Arguments requete_arretes {Itineraire} _.

(** The state of a run: [st.session_state.construire_carte] ([None] when
    the key is absent, [Some None] when it holds [None]) and the journal
    of the events so far. *)
Record etat (Itineraire : Type) : Type := Etat {
  session_construire_carte : option (option bool);
  journal : list (event Itineraire)
}.

Arguments Etat {Itineraire} _ _.
Arguments session_construire_carte {Itineraire} _.
Arguments journal {Itineraire} _.

(** Computations of a run: they read and write the state, and return or
    raise. *)
Definition M (Itineraire A : Type) : Type :=
  etat Itineraire → etat Itineraire * res A.

#[global] Instance M_ret {I} : MRet (M I) := λ A a s, (s, Ok a).

#[global] Instance M_bind {I} : MBind (M I) :=
  λ A B f m s,
    match m s with
    | (s', Ok a) => f a s'
    | (s', Raise e) => (s', Raise e)
    end.

#[global] Instance M_fmap {I} : FMap (M I) :=
  λ A B f m s,
    match m s with
    | (s', Ok a) => (s', Ok (f a))
    | (s', Raise e) => (s', Raise e)
    end.

(** A computation that does not touch the state. *)
Definition lift_res {I A} (r : res A) : M I A := λ s, (s, r).

Definition emit {I} (ev : event I) : M I unit :=
  λ s, (Etat (session_construire_carte s) (journal s ++ [ev]), Ok tt).

(** A call that is journalled, then returns or raises. *)
Definition appel {I A} (ev : event I) (r : res A) : M I A :=
  λ s, (Etat (session_construire_carte s) (journal s ++ [ev]), r).

(** [try: m  except Exception as e: h e] *)
Definition essayer {I A} (m : M I A) (h : exn → M I A) : M I A :=
  λ s, match m s with
       | (s', Ok a) => (s', Ok a)
       | (s', Raise e) => h e s'
       end.

Definition lire_session {I} : M I (option (option bool)) :=
  λ s, (s, Ok (session_construire_carte s)).

Definition ecrire_session {I} (v : option bool) : M I unit :=
  λ s, (Etat (Some v) (journal s), Ok tt).

(** [data_load_state.text(texte)] *)
Definition status {I} (b : bloc) (texte : string) : M I unit :=
  emit (EvStatus b texte).

(** The truth value of [st.session_state.construire_carte]. *)
Definition vrai (v : option (option bool)) : bool :=
  match v with Some (Some true) => true | _ => false end.

(** The first part of [get_zones_secheresse]: the layer as it is read,
    and whether the tiles are to be merged. *)
Definition charger_zones (lire_geopandas : string → res (list zone_brute))
    (requete_zones : res (list zone_brute))
    (uploaded_file : option string) : res (list zone_brute * bool) :=
  match uploaded_file with
  | Some name => zones ← lire_geopandas name; mret (zones, false)
  | None => zones ← requete_zones; mret (zones, true)
  end.

(** [get_zones_secheresse] and [get_arretes] as a run makes them: the
    functions above, with their two steps in the journal. *)
Definition get_zones_secheresse_journal {I} (json_get : cell → string → res cell)
    (lire_geopandas : string → res (list zone_brute))
    (requete_zones : res (list zone_brute))
    (uploaded_file : option string) : M I (list zone) :=
  '(zones_arretes, traiter_pmtiles) ←
     appel (EvCharger Zones) (charger_zones lire_geopandas requete_zones uploaded_file);
  appel (EvFiltrer Zones) (filtrer_zones json_get zones_arretes traiter_pmtiles).

Definition get_arretes_journal {I} (requete_arretes : res (list arrete))
    : M I archive :=
  lignes ← appel (EvCharger Arretes) requete_arretes;
  let df_arretes := read_csv lignes in
  emit (EvFiltrer Arretes);;
  mret (dropna_date_fin df_arretes).

(** [main], for one run in which the functions under [st.cache_data]
    ([lire_geopandas], [get_arretes]) are evaluated: in a later run of
    the session the cache may answer in their place.  The reprojections
    ([to_crs]) touch the geometries only and are left out, as are the
    captions that [get_zones_secheresse] writes in the sidebar; the
    widgets, the construction of the map and its display are journalled
    and taken not to raise. *)
Definition main {I : Type} (literal_eval : atom → res pyval)
    (json_get : cell → string → res cell) (w : monde I) : M I unit :=
  emit (EvUI "st.set_page_config");;
  emit (EvUI "st.title");;
  emit (EvUI "st.sidebar.info");;
  emit (EvUI "st.sidebar.file_uploader");;
  let uploaded_file := uploaded_file w in
  session ← lire_session;
  (if session is None then ecrire_session None else mret tt : M I unit);;
  emit (EvUI "st.sidebar.button");;
  emit (EvUI "st.tabs");;
  status Principal "Chargement des données...";;
  (* itinéraires COP, départements réseau VNF *)
  itineraire ← appel (EvLire "./donnees/Export_Itineraire_COP.gpkg") (lire_itineraire w);
  dept_iti ← appel (EvLire "./donnees/departements_itineraires.gpkg") (lire_dept_iti w);
  (* zones des arrêtés *)
  zones_arretes ←
    (emit EvGetZones;;
     get_zones_secheresse_journal json_get (lire_zones w) (requete_zones w) uploaded_file);
  (* arrêtés archivés dans le temps *)
  df_arretes ← essayer (emit EvGetArretes;; get_arretes_journal (requete_arretes w))
    (λ e, emit (EvPrint e);;
          status Principal "Echec du téléchargement des données des arrêtés";;
          mret DataFrame_vide);
  status Principal "Chargement des données...Terminé !";;
  (* construction de la table des indicateurs à afficher *)
  table_indic ←
    (if negb (empty_df (lignes_arretes df_arretes))
     then Some <$> appel EvTableIndic
            (construire_table_indic literal_eval (today w) df_arretes zones_arretes dept_iti)
     else mret None : M I (option dataframe));
  session ← lire_session;
  if vrai session then
    status Principal "Construction carte...";;
    emit EvConstruireCarte;;
    let carte := construire_carte (today w) itineraire zones_arretes dept_iti uploaded_file in
    status Principal "Construction carte...Terminé !";;
    (* with tab1 *)
    status Tab1 "Visualisation carte...";;
    emit (EvFolium Tab1 carte);;
    status Tab1 "Visualisation carte...Terminé !";;
    (* with tab2 *)
    (if negb (empty_df (lignes_arretes df_arretes)) then
       status Tab2 "Visualisation indicateurs...";;
       (match table_indic with
        | Some table_indic =>
            textes ← lift_res (inserer_indic_dept table_indic);
            emit (EvIndic Tab2 textes)
        | None => lift_res (Raise (OtherError "NameError"))
        end : M I unit);;
       status Tab2 ""
     else status Tab2 "Echec du téléchargement des données des arrêtés");;
    ecrire_session (Some false)
  else (mret tt : M I unit).

(** A run starts with an empty journal. *)
Definition run {I : Type} (literal_eval : atom → res pyval)
    (json_get : cell → string → res cell) (w : monde I)
    (session : option (option bool)) : etat I * res unit :=
  main literal_eval json_get w (Etat session []).







(** The journal of a run up to the request of the archive, and the
    journal of the construction and of the display of the map. *)
Definition journal_chargement {I} : list (event I) :=
  [EvUI "st.set_page_config"; EvUI "st.title"; EvUI "st.sidebar.info";
   EvUI "st.sidebar.file_uploader"; EvUI "st.sidebar.button"; EvUI "st.tabs";
   EvStatus Principal "Chargement des données...";
   EvLire "./donnees/Export_Itineraire_COP.gpkg";
   EvLire "./donnees/departements_itineraires.gpkg";
   EvGetZones; EvCharger Zones; EvFiltrer Zones;
   EvGetArretes; EvCharger Arretes].

Definition journal_carte {I} (c : carte I) : list (event I) :=
  [EvStatus Principal "Construction carte...";
   EvConstruireCarte;
   EvStatus Principal "Construction carte...Terminé !";
   EvStatus Tab1 "Visualisation carte...";
   EvFolium Tab1 c;
   EvStatus Tab1 "Visualisation carte...Terminé !"].

(** The same run, the request of the archive having returned [df]. *)
Definition avec_archive {I} (w : monde I) (df : list arrete) : monde I :=
  Monde (today w) (uploaded_file w) (lire_itineraire w) (lire_dept_iti w)
        (lire_zones w) (requete_zones w) (Ok df).

(** The events that build and show the map. *)
Definition est_carte {I} (ev : event I) : bool :=
  match ev with
  | EvConstruireCarte | EvFolium _ _ => true
  | _ => false
  end.

(** The events made inside [with tab2:]. *)
Definition dans_tab2 {I} (ev : event I) : bool :=
  match ev with
  | EvStatus Tab2 _ | EvFolium Tab2 _ | EvIndic Tab2 _ => true
  | _ => false
  end.

(** ** What the counts are meant to be

    The definitions of this section follow the words of the
    specification; the theorems compare them with the functions above. *)

(** An arrêté is valid at a date when it begins before and ends after. *)
Definition valide_a (date_compar : string) (r : arrete) : Prop :=
  cell_lt (date_debut r) date_compar ∧ cell_gt (date_fin r) date_compar.

(** [n] and [t] are the level and the type of one zone of the arrêté:
    they stand at the same rank in its two lists. *)
Definition paire (literal_eval : atom → res pyval) (r : arrete) (n t : atom) : Prop :=
  ∃ vn vt i,
    safe_literal_eval literal_eval (zones_alerte_niveau_gravite r) = Ok vn
    ∧ safe_literal_eval literal_eval (zones_alerte_type r) = Ok vt
    ∧ elements vn !! i = Some n ∧ elements vt !! i = Some t.

(** The department [dep] has an arrêté valid at the date, with a zone of
    type 'SUP' whose level is one of [niveaux]. *)
Definition departement_compte (literal_eval : atom → res pyval)
    (df_arretes : list arrete) (date_compar : string) (niveaux : list string)
    (dep : cell) : Prop :=
  ∃ r s,
    r ∈ df_arretes ∧ valide_a date_compar r ∧ departement r = dep
    ∧ paire literal_eval r (AStr s) (AStr "SUP") ∧ s ∈ niveaux.


(** The dates of the archive can be compared with the date: the column
    [date_debut] is a column of texts, and so is the column [date_fin]
    unless no row begins before the date. *)
Definition dates_comparables (df_arretes : archive) (date_compar : string) : Prop :=
  dtype_date_debut df_arretes = dt_object
  ∧ ((∃ r, r ∈ lignes_arretes df_arretes ∧ cell_lt (date_debut r) date_compar) →
     dtype_date_fin df_arretes = dt_object).


(** The arrêtés valid at the date can be exploded: their two list columns
    are read without an exception, and have as many elements. *)
Definition bien_apparie (literal_eval : atom → res pyval)
    (df_arretes : list arrete) (date_compar : string) : Prop :=
  ∀ r, r ∈ df_arretes → valide_a date_compar r →
    ∃ vn vt,
      safe_literal_eval literal_eval (zones_alerte_niveau_gravite r) = Ok vn
      ∧ safe_literal_eval literal_eval (zones_alerte_type r) = Ok vt
      ∧ mylen vn = mylen vt.

(** The count can be made on the archive at the date: the dates can be
    compared and the arrêtés valid at the date can be exploded. *)
Definition calculable (literal_eval : atom → res pyval)
    (df_arretes : archive) (date_compar : string) : Prop :=
  dates_comparables df_arretes date_compar
  ∧ bien_apparie literal_eval (lignes_arretes df_arretes) date_compar.

(** The row [p] is the row [r] once its two list columns are read. *)
Definition lu (literal_eval : atom → res pyval) (r : arrete)
    (p : ligne_arrete pyval pyval) : Prop :=
  safe_literal_eval literal_eval (zones_alerte_niveau_gravite r)
    = Ok (zones_alerte_niveau_gravite p)
  ∧ safe_literal_eval literal_eval (zones_alerte_type r) = Ok (zones_alerte_type p)
  ∧ departement p = departement r
  ∧ date_debut p = date_debut r
  ∧ date_fin p = date_fin r.

(** ** Data for the examples *)

Definition guillemet : string := String "034"%char EmptyString.

(** A JSON object as [json.dumps] writes it. *)
Definition json_membre (m : string * cell) : string :=
  guillemet +:+ m.1 +:+ guillemet +:+ ": " +:+
  match m.2 with
  | Some s => guillemet +:+ s +:+ guillemet
  | None => "null"
  end.

Definition json_objet (membres : list (string * cell)) : string :=
  "{" +:+ String.concat ", " (json_membre <$> membres) +:+ "}".

Definition ex_today : date := Date 2025 7 15.

(** Two arrêtés: one in force in June 2025 in the department 13 (a zone
    of surface water in crisis, a zone of ground water in alert), one in
    force in July 2024 in the department 59. *)
Definition ex_arrete_13 : arrete :=
  LigneArrete (Some "13") (Some "2025-05-01") (Some "2025-09-30")
              (AStr "['crise', 'alerte']") (AStr "['SUP', 'SOU']").

Definition ex_arrete_59 : arrete :=
  LigneArrete (Some "59") (Some "2024-06-15") (Some "2024-08-30")
              (AStr "['crise']") (AStr "['SUP']").

Definition ex_arretes : list arrete := [ex_arrete_13; ex_arrete_59].

(** An arrêté in force at both dates of comparison, with two levels for
    one type. *)
Definition ex_arretes_mal_apparie : list arrete :=
  [LigneArrete (Some "13") (Some "2024-05-01") (Some "2025-09-30")
               (AStr "['crise', 'alerte']") (AStr "['SUP']")].


(** Two arrêtés whose zones are all of ground water ('SOU'), in force
    in June 2025: one with two levels for one type, one with a level for
    its type. *)
Definition ex_arrete_sou : arrete :=
  LigneArrete (Some "62") (Some "2025-01-01") (Some "2025-12-31")
              (AStr "['alerte', 'crise']") (AStr "['SOU']").

Definition ex_arrete_sou_apparie : arrete :=
  LigneArrete (Some "62") (Some "2025-01-01") (Some "2025-12-31")
              (AStr "['crise']") (AStr "['SOU']").

Definition ex_zones_brutes : list zone_brute :=
  [ZoneBrute (Some 7%Z) (Some "SUP")
             (Some (json_objet [("code", Some "59"); ("nom", Some "Nord")]))
             (Some (json_objet [("fichier", Some "arrete_59.pdf")])) (Some "crise");
   ZoneBrute (Some 7%Z) (Some "SUP")
             (Some (json_objet [("code", Some "59"); ("nom", Some "Nord")]))
             (Some (json_objet [("fichier", Some "arrete_59.pdf")])) (Some "crise");
   ZoneBrute (Some 3%Z) (Some "SOU")
             (Some (json_objet [("code", Some "62"); ("nom", Some "Pas-de-Calais")]))
             (Some (json_objet [("fichier", None)])) (Some "alerte");
   ZoneBrute (Some 2%Z) (Some "SUP")
             (Some (json_objet [("code", Some "971"); ("nom", Some "Guadeloupe")]))
             (Some (json_objet [("fichier", None)])) (Some "alerte");
   ZoneBrute (Some 1%Z) (Some "SUP")
             (Some (json_objet [("code", Some "2A"); ("nom", Some "Corse-du-Sud")]))
             (Some (json_objet [("fichier", None)])) (Some "vigilance")].

Definition ex_dept_iti : list dept :=
  [Dept (Some "59") "Nord"; Dept (Some "62") "Pas-de-Calais"].

(** A run in which both requests succeed, and one in which the request
    of the archive fails. *)
Definition ex_monde : monde unit :=
  Monde ex_today None (Ok tt) (Ok ex_dept_iti) (λ _, Raise (OtherError "FileNotFoundError"))
        (Ok ex_zones_brutes) (Ok ex_arretes).

Definition ex_monde_echec : monde unit :=
  Monde ex_today None (Ok tt) (Ok ex_dept_iti) (λ _, Raise (OtherError "FileNotFoundError"))
        (Ok ex_zones_brutes) (Raise ConnectionError).

(** ** Descriptions used by the further properties *)

Definition ex_arrete_sans_fin : arrete :=
  LigneArrete (Some "75") (Some "2025-01-01") None (AStr "['crise']") (AStr "[").

Definition ex_arrete_ar : arrete :=
  LigneArrete (Some "31") (Some "2024-06-01") (Some "2024-09-30")
              (AStr "['alerte_renforcee']") (AStr "['SUP']").

(** What [get_zones_secheresse] does of one row of the layer of type
    'SUP': the code is read and measured; a row with a short code is
    kept, with the file read in its second JSON column. *)
Definition zone_de (json_get : cell → string → res cell) (r : zone_brute)
    : res (option zone) :=
  code ← json_get (zb_departement r) "code";
  court ← code_court code;
  if (court : bool) then
    fichier ← json_get (zb_arreteRestriction r) "fichier";
    mret (Some (Zone (zb_id r) (zb_type r) (zb_departement r) (zb_arreteRestriction r)
                     (zb_niveauGravite r) code fichier))
  else mret None.

(** Float64 holds every [id] of the layer exactly. *)
Definition ids_exacts (zones_arretes : list zone_brute) : Prop :=
  ∀ r k, r ∈ zones_arretes → zb_id r = Some k → (Z.abs k ≤ 2 ^ 53)%Z.

(** The JSON columns of a row can be read: the code is a string, and
    when it is short the file is there. *)
Definition code_lisible (json_get : cell → string → res cell) (r : zone_brute) : Prop :=
  ∃ s, json_get (zb_departement r) "code" = Ok (Some s)
       ∧ ((String.length s < 3)%nat →
          ∃ fichier, json_get (zb_arreteRestriction r) "fichier" = Ok fichier).

(** A table of indicators with any cells. *)
Definition table_indic_de (courante precedente mois : list valeur) : dataframe :=
  DataFrame colonnes_indic
    (<["mois_precedent" := mois]>
     (<["annee_precedente" := precedente]> (<["annee_courante" := courante]> ∅))).

(** The texts that [inserer_indic_dept] writes, given the cells read. *)
Definition textes_indic (fr crise ar a vg : Z) (crise_nom ar_nom a_nom : string)
    (fr_prec : valeur) (fr_mois crise_mois ar_mois a_mois vg_mois : Z) : list ecriture :=
  [(Ligne1 0, "# :grey-background[" +:+ pretty fr +:+ "]");
   (Ligne1 0, ":grey-background[départements en France avec des mesures"
              +:+ "                     de restrictions " +:+ saut_de_ligne
              +:+ "des usages au-delà de la vigilance]")]
  ++ ecrire_ecart (Ligne1 0) (fr - fr_mois)
       "départements en arrêté par rapport au mois dernier"
  ++ [(Ligne1 0, ":grey-background[" +:+ format_valeur fr_prec +:+ " en 2024]");
      (LigneVnf 0, "Sur le réseau VNF uniquement :");
      (Ligne2 0, "# " +:+ pretty vg);
      (Ligne2 0, "départements en vigilance]");
      (Ligne2 1, "# " +:+ pretty a);
      (Ligne2 1, "départements en alerte]");
      (Ligne2 2, "# " +:+ pretty ar);
      (Ligne2 2, "départements en alerte renforcée]");
      (Ligne2 3, "# :red-background[" +:+ pretty crise +:+ "]");
      (Ligne2 3, ":red-background[départements en crise]")]
  ++ ecrire_ecart (Ligne3 0) (vg - vg_mois)
       "départements en arrêté par rapport au mois dernier"
  ++ ecrire_ecart (Ligne3 1) (a - a_mois)
       "départements en arrêté par rapport au mois dernier"
  ++ ecrire_ecart (Ligne3 2) (ar - ar_mois)
       "départements en arrêté par rapport au mois dernier"
  ++ ecrire_ecart (Ligne3 3) (crise - crise_mois)
       "départements en arrêté par rapport au mois dernier"
  ++ [(Ligne4 1, if (0 <? a)%Z then a_nom else "");
      (Ligne4 2, if (0 <? ar)%Z then ar_nom else "");
      (Ligne4 3, ":red-background[" +:+ (if (0 <? crise)%Z then crise_nom else "") +:+ "]")].

(** What is written for a count [x] against the count [y] of the month before. *)
Definition ecart_affiche (c : case) (x y : Z) (textes : list ecriture) : Prop :=
  (x = y → (c, "nombre de départements identique par rapport au mois dernier") ∈ textes)
  ∧ ((y < x)%Z → (c, "# \+ " +:+ pretty (x - y)%Z) ∈ textes)
  ∧ ((x < y)%Z → (c, "# \- " +:+ pretty (y - x)%Z) ∈ textes).

(** The cases of the display and the column each one compares. *)
Definition cases_ecart : list (case * string) :=
  [(Ligne1 0, "dept_fr"); (Ligne3 0, "dept_vnf_vg_code"); (Ligne3 1, "dept_vnf_a_code");
   (Ligne3 2, "dept_vnf_ar_code"); (Ligne3 3, "dept_vnf_crise_code")].

(** The session after a run that returns. *)
Definition session_apres (session : option (option bool)) : option (option bool) :=
  if vrai session then Some (Some false)
  else match session with None => Some None | Some v => Some v end.

(** The session once the key is there. *)
Definition session_initiale (session : option (option bool)) : option (option bool) :=
  match session with None => Some None | Some v => Some v end.


(** * Proofs *)

(** ** The [res] monad and [mapM] *)

Section mapM_res.
Context {A B : Type} (f : A → res B).

Lemma mapM_res_nil : mapM f [] = Ok [].
Proof. reflexivity. Qed.

Lemma mapM_res_cons x l :
  mapM f (x :: l) = (y ← f x; k ← mapM f l; mret (y :: k)).
Proof. reflexivity. Qed.

Lemma mapM_res_Ok l k :
  mapM f l = Ok k ↔ Forall2 (λ x y, f x = Ok y) l k.
Proof.
  revert k. induction l as [|x l IH]; intros k.
  - rewrite mapM_res_nil. split.
    + intros [= <-]. constructor.
    + intros H. inversion H. reflexivity.
  - rewrite mapM_res_cons. split.
    + destruct (f x) as [y|e] eqn:Hx; simpl; [|discriminate].
      destruct (mapM f l) as [k'|e] eqn:Hl; simpl; [|discriminate].
      intros [= <-]. constructor; [assumption|]. by apply IH.
    + intros H. inversion H as [|? y ? k' Hx Hl]; subst.
      rewrite Hx. simpl. apply IH in Hl. rewrite Hl. reflexivity.
Qed.

Lemma mapM_res_total l :
  (∀ x, x ∈ l → ∃ y, f x = Ok y) → ∃ k, mapM f l = Ok k.
Proof.
  induction l as [|x l IH]; intros H.
  - exists []. reflexivity.
  - destruct (H x) as [y Hy]; [left|].
    destruct IH as [k Hk]; [intros z Hz; apply H; by right|].
    exists (y :: k). rewrite mapM_res_cons, Hy. simpl. rewrite Hk. reflexivity.
Qed.
End mapM_res.

(** ** Guards on empty frames *)

Lemma garde_filter {A} (P : A → Prop) `{!∀ x, Decision (P x)} (l : list A) :
  (if empty_df l then l else filter P l) = filter P l.
Proof. destruct l; reflexivity. Qed.

Lemma empty_df_nil {A} (l : list A) : empty_df l = true ↔ l = [].
Proof. destruct l; simpl; split; congruence. Qed.

(** ** [safe_literal_eval] *)

Lemma safe_literal_eval_cases literal_eval value v :
  safe_literal_eval literal_eval value = Ok v →
  literal_eval value = Ok v ∨ v = PSeq KList [value].
Proof.
  unfold safe_literal_eval.
  destruct (literal_eval value) as [v'|[]]; intros [= <-]; auto.
Qed.

(** C10. Whatever [ast.literal_eval] is: when it raises ValueError or
    SyntaxError on a string, [safe_literal_eval] raises nothing and
    returns the list whose only element is that string; when it returns a
    literal, [safe_literal_eval] returns this literal, which is a list
    exactly when the string denotes a list. *)
Theorem C10_safe_literal_eval_guard (literal_eval : atom → res pyval) (s : string) :
  ((literal_eval (AStr s) = Raise ValueError
    ∨ literal_eval (AStr s) = Raise SyntaxError) →
   safe_literal_eval literal_eval (AStr s) = Ok (PSeq KList [AStr s]))
  ∧ (∀ v, literal_eval (AStr s) = Ok v →
       safe_literal_eval literal_eval (AStr s) = Ok v
       ∧ (is_list v = true ↔
          ∃ items, literal_eval (AStr s) = Ok (PSeq KList items))).
Proof.
  split.
  - intros [H|H]; unfold safe_literal_eval; rewrite H; reflexivity.
  - intros v H. split.
    + unfold safe_literal_eval. rewrite H. reflexivity.
    + rewrite H. split.
      * destruct v as [a|[] items]; simpl; try discriminate. eauto.
      * intros [items [= ->]]. reflexivity.
Qed.

Lemma C10_safe_literal_eval_guard_witness :
  safe_literal_eval literal_eval_archive (AStr "SUP") = Ok (PSeq KList [AStr "SUP"])
  ∧ safe_literal_eval literal_eval_archive (AStr "['crise', 'alerte']")
    = Ok (PSeq KList [AStr "crise"; AStr "alerte"]).
Proof.
  split.
  - apply (proj1 (C10_safe_literal_eval_guard literal_eval_archive "SUP")).
    left. reflexivity.
  - apply (proj2 (C10_safe_literal_eval_guard literal_eval_archive "['crise', 'alerte']")).
    reflexivity.
Defined.

(** ** The explosion of the archive *)

Lemma Forall2_elem_of_l {A B} (R : A → B → Prop) l k x :
  Forall2 R l k → x ∈ l → ∃ y, y ∈ k ∧ R x y.
Proof.
  induction 1 as [|a b l k Hab _ IH]; intros Hx.
  - by apply elem_of_nil in Hx.
  - apply elem_of_cons in Hx as [->|Hx].
    + exists b. split; [left|assumption].
    + destruct (IH Hx) as (y & Hy & HR). exists y. split; [by right|assumption].
Qed.

Lemma Forall2_elem_of_r {A B} (R : A → B → Prop) l k y :
  Forall2 R l k → y ∈ k → ∃ x, x ∈ l ∧ R x y.
Proof.
  induction 1 as [|a b l k Hab _ IH]; intros Hy.
  - by apply elem_of_nil in Hy.
  - apply elem_of_cons in Hy as [->|Hy].
    + exists a. split; [left|assumption].
    + destruct (IH Hy) as (x & Hx & HR). exists x. split; [by right|assumption].
Qed.

Lemma Forall2_exists {A B} (R : A → B → Prop) (Q : B → Prop) l :
  (∀ x, x ∈ l → ∃ y, R x y ∧ Q y) → ∃ k, Forall2 R l k ∧ Forall Q k.
Proof.
  induction l as [|x l IH]; intros H.
  - exists []. split; constructor.
  - destruct (H x) as (y & Hy & HQ); [left|].
    destruct IH as (k & Hk & HQk); [intros z Hz; apply H; by right|].
    exists (y :: k). split; constructor; assumption.
Qed.

Section explosion.
Context (literal_eval : atom → res pyval).

Local Abbreviation lire := (safe_literal_eval literal_eval).

Lemma apply_niveau_gravite_Ok (l : list arrete) k :
  apply_niveau_gravite lire l = Ok k ↔
  Forall2 (λ r p, ∃ v, lire (zones_alerte_niveau_gravite r) = Ok v
                       ∧ p = LigneArrete (departement r) (date_debut r) (date_fin r)
                                         v (zones_alerte_type r)) l k.
Proof.
  unfold apply_niveau_gravite. rewrite mapM_res_Ok.
  split; intros HF; eapply Forall2_impl; try exact HF; simpl; intros r p.
  - destruct (lire _) as [v|e]; simpl; [|discriminate].
    intros [= <-]. eauto.
  - intros (v & -> & ->). reflexivity.
Qed.

Lemma apply_type_Ok (l : list (ligne_arrete pyval atom)) k :
  apply_type lire l = Ok k ↔
  Forall2 (λ r p, ∃ v, lire (zones_alerte_type r) = Ok v
                       ∧ p = LigneArrete (departement r) (date_debut r) (date_fin r)
                                         (zones_alerte_niveau_gravite r) v) l k.
Proof.
  unfold apply_type. rewrite mapM_res_Ok.
  split; intros HF; eapply Forall2_impl; try exact HF; simpl; intros r p.
  - destruct (lire _) as [v|e]; simpl; [|discriminate].
    intros [= <-]. eauto.
  - intros (v & -> & ->). reflexivity.
Qed.

(** Reading both columns, one after the other. *)
Lemma lecture_Ok (l : list arrete) k :
  (df1 ← apply_niveau_gravite lire l; apply_type lire df1) = Ok k ↔
  Forall2 (lu literal_eval) l k.
Proof.
  split.
  - destruct (apply_niveau_gravite lire l) as [df1|e] eqn:H1; simpl; [|discriminate].
    intros H2. apply apply_niveau_gravite_Ok in H1. apply apply_type_Ok in H2.
    revert k H2. induction H1 as [|r q l df1 (v & Hv & ->) _ IH]; intros k H2.
    + inversion H2. constructor.
    + inversion H2 as [|? p ? k' (v' & Hv' & ->) Hk]; subst.
      constructor; [|by apply IH].
      repeat split; assumption.
  - induction 1 as [|r p l k (Hn & Ht & Hd & Hb & Hf) _ IH].
    + reflexivity.
    + destruct (apply_niveau_gravite lire l) as [df1|e] eqn:H1; simpl in IH; [|discriminate].
      unfold apply_niveau_gravite in *. rewrite mapM_res_cons, Hn. simpl.
      rewrite H1. simpl. unfold apply_type in *.
      rewrite Ht. simpl. rewrite IH. simpl.
      destruct p; simpl in *; subst. reflexivity.
Qed.

Lemma explode_Ok df E :
  explode df = Ok E ↔ Forall (λ p, counts_match p) df ∧ E = df ≫= explode_ligne.
Proof.
  unfold explode. destruct (forallb counts_match df) eqn:H.
  - split.
    + intros [= <-]. split; [|reflexivity].
      apply Forall_forall. intros p Hp. apply Is_true_eq_left.
      apply (proj1 (forallb_forall _ _) H). by apply list_elem_of_In.
    + intros [_ ->]. reflexivity.
  - split; [discriminate|]. intros [HF _]. exfalso.
    assert (forallb counts_match df = true) as H'; [|congruence].
    apply forallb_forall. intros p Hp. apply list_elem_of_In in Hp.
    rewrite Forall_forall in HF. apply Is_true_eq_true. by apply HF.
Qed.

(** The guards of the script change nothing: an empty frame is left
    empty by each step. *)
Lemma exploser_eq df d :
  exploser literal_eval df d =
  (df1 ← apply_niveau_gravite lire
          (filter (λ r, cell_gt (date_fin r) d)
                  (filter (λ r, cell_lt (date_debut r) d) df));
   df2 ← apply_type lire df1;
   explode df2).
Proof.
  unfold exploser. rewrite garde_filter.
  destruct (filter _ (filter _ df)); reflexivity.
Qed.

Lemma elem_of_valides (df : list arrete) d (r : arrete) :
  r ∈ filter (λ r, cell_gt (date_fin r) d) (filter (λ r, cell_lt (date_debut r) d) df)
  ↔ r ∈ df ∧ valide_a d r.
Proof. rewrite !list_elem_of_filter. unfold valide_a. tauto. Qed.

Lemma exploser_Ok df d E :
  exploser literal_eval df d = Ok E ↔
  ∃ parsed,
    Forall2 (lu literal_eval)
            (filter (λ r, cell_gt (date_fin r) d)
                    (filter (λ r, cell_lt (date_debut r) d) df)) parsed
    ∧ Forall (λ p, counts_match p) parsed
    ∧ E = parsed ≫= explode_ligne.
Proof.
  rewrite exploser_eq. set (l := filter _ (filter _ df)). split.
  - destruct (apply_niveau_gravite lire l) as [df1|e] eqn:H1; simpl; [|discriminate].
    destruct (apply_type lire df1) as [df2|e] eqn:H2; simpl; [|discriminate].
    intros [HF ->]%explode_Ok. exists df2. split; [|done].
    apply lecture_Ok. rewrite H1. simpl. exact H2.
  - intros (parsed & Hlu & HF & ->).
    apply lecture_Ok in Hlu.
    destruct (apply_niveau_gravite lire l) as [df1|e] eqn:H1; simpl in *; [|discriminate].
    rewrite Hlu. simpl. apply explode_Ok. done.
Qed.

(** The rows after the explosion: one for each zone of each arrêté that
    is valid at the date. *)
Lemma exploser_elem df d E :
  exploser literal_eval df d = Ok E →
  ∀ x, x ∈ E ↔
    ∃ r n t, r ∈ df ∧ valide_a d r ∧ paire literal_eval r n t
             ∧ x = LigneArrete (departement r) (date_debut r) (date_fin r) n t.
Proof.
  intros (parsed & Hlu & _ & ->)%exploser_Ok x.
  rewrite list_elem_of_bind. split.
  - intros (p & Hx & Hp).
    destruct (Forall2_elem_of_r _ _ _ _ Hlu Hp) as (r & Hr & Hrp).
    unfold lu in Hrp. destruct Hrp as (Hn & Ht & Hd & Hb & Hf).
    apply elem_of_valides in Hr as [Hr Hv].
    unfold explode_ligne in Hx.
    apply elem_of_lookup_zip_with in Hx as (i & n & t & -> & Hi & Hj).
    exists r, n, t.
    split; [assumption|]. split; [assumption|]. split; [|congruence].
    exists (zones_alerte_niveau_gravite p), (zones_alerte_type p), i. done.
  - intros (r & n & t & Hr & Hv & (vn & vt & i & Hn & Ht & Hi & Hj) & ->).
    assert (r ∈ filter (λ r, cell_gt (date_fin r) d)
              (filter (λ r, cell_lt (date_debut r) d) df)) as Hr'
      by (by apply elem_of_valides).
    destruct (Forall2_elem_of_l _ _ _ _ Hlu Hr') as (p & Hp & Hrp).
    unfold lu in Hrp. destruct Hrp as (Hn' & Ht' & Hd & Hb & Hf).
    exists p. split; [|assumption].
    unfold explode_ligne. apply elem_of_lookup_zip_with.
    exists i, n, t. rewrite Hd, Hb, Hf.
    assert (vn = zones_alerte_niveau_gravite p) as <- by congruence.
    assert (vt = zones_alerte_type p) as <- by congruence. done.
Qed.

(** The explosion succeeds exactly on the frames whose valid rows have
    paired lists. *)
Lemma exploser_total df d :
  bien_apparie literal_eval df d ↔ ∃ E, exploser literal_eval df d = Ok E.
Proof.
  split.
  - intros H.
    destruct (Forall2_exists (lu literal_eval) (λ p, counts_match p)
                (filter (λ r, cell_gt (date_fin r) d)
                        (filter (λ r, cell_lt (date_debut r) d) df)))
      as (parsed & Hlu & HF).
    { intros r [Hr Hv]%elem_of_valides.
      destruct (H r Hr Hv) as (vn & vt & Hn & Ht & Hlen).
      exists (LigneArrete (departement r) (date_debut r) (date_fin r) vn vt).
      split; [by repeat split|].
      unfold counts_match. simpl. apply Is_true_eq_left. by apply Nat.eqb_eq. }
    exists (parsed ≫= explode_ligne). apply exploser_Ok. by exists parsed.
  - intros (E & (parsed & Hlu & HF & _)%exploser_Ok) r Hr Hv.
    assert (r ∈ filter (λ r, cell_gt (date_fin r) d)
              (filter (λ r, cell_lt (date_debut r) d) df)) as Hr'
      by (by apply elem_of_valides).
    destruct (Forall2_elem_of_l _ _ _ _ Hlu Hr') as (p & Hp & Hrp).
    unfold lu in Hrp. destruct Hrp as (Hn & Ht & _).
    exists (zones_alerte_niveau_gravite p), (zones_alerte_type p).
    repeat split; try assumption.
    rewrite Forall_forall in HF. specialize (HF p Hp).
    unfold counts_match in HF. apply Is_true_eq_true in HF. by apply Nat.eqb_eq.
Qed.
End explosion.

(** ** The count of departments at a date *)

Lemma retenir_filter (E : list arrete) niveaux :
  retenir E niveaux
  = filter (λ r, isin (zones_alerte_niveau_gravite r) niveaux)
           (filter (λ r, est_sup r) E).
Proof.
  unfold retenir. rewrite garde_filter.
  destruct (filter (λ r, est_sup r) E); reflexivity.
Qed.

Lemma compter_departements_length (df : list arrete) :
  compter_departements df = Z.of_nat (length (remove_dups (departement <$> df))).
Proof. destruct df; reflexivity. Qed.

(** The two comparisons raise TypeError or nothing. *)
Lemma comparer_dates_spec df d :
  (dates_comparables df d ∧ comparer_dates df d = Ok tt)
  ∨ (¬ dates_comparables df d ∧ comparer_dates df d = Raise TypeError).
Proof.
  unfold comparer_dates, dates_comparables.
  destruct (dtype_date_debut df); simpl.
  2:{ right. split; [intros [[=] _]|reflexivity]. }
  destruct (filter _ (lignes_arretes df)) as [|r l] eqn:Hl; simpl.
  - left. split; [|reflexivity]. split; [reflexivity|].
    intros (r & Hr & Hlt). exfalso.
    assert (r ∈ filter (λ r, cell_lt (date_debut r) d) (lignes_arretes df)) as Hin
      by (by apply list_elem_of_filter).
    rewrite Hl in Hin. by apply elem_of_nil in Hin.
  - assert (∃ r, r ∈ lignes_arretes df ∧ cell_lt (date_debut r) d) as Hex.
    { exists r. assert (r ∈ filter (λ r, cell_lt (date_debut r) d) (lignes_arretes df)) as Hin
        by (rewrite Hl; left).
      apply list_elem_of_filter in Hin as [? ?]. done. }
    destruct (dtype_date_fin df); simpl.
    + left. done.
    + right. split; [|reflexivity]. intros [_ H]. by specialize (H Hex).
Qed.

Lemma comparer_dates_Ok df d : dates_comparables df d → comparer_dates df d = Ok tt.
Proof. intros H. by destruct (comparer_dates_spec df d) as [[_ ?]|[? _]]. Qed.

Lemma comparer_dates_Raise df d :
  ¬ dates_comparables df d → comparer_dates df d = Raise TypeError.
Proof. intros H. by destruct (comparer_dates_spec df d) as [[? _]|[_ ?]]. Qed.

(** The function is the comparison of the dates, followed by the
    explosion, the two filters and the count. *)
Lemma calculer_dept_arretes_date_eq literal_eval df d niveaux :
  calculer_dept_arretes_date literal_eval df d niveaux
  = (_ ← comparer_dates df d;
     E ← exploser literal_eval (lignes_arretes df) d;
     mret (compter_departements (retenir E niveaux))).
Proof.
  unfold calculer_dept_arretes_date, comparer_dates, exploser.
  destruct (dtype_date_debut df); simpl; [|reflexivity].
  destruct (filter (λ r, cell_lt (date_debut r) d) (lignes_arretes df)) as [|r0 l0];
    simpl.
  - reflexivity.
  - destruct (dtype_date_fin df); simpl; [|reflexivity].
    destruct (if empty_df _ then Ok _ else _) as [E|e]; simpl; [|reflexivity].
    rewrite retenir_filter, compter_departements_length, garde_filter.
    destruct (filter (λ r, est_sup r) E) as [|x L]; [reflexivity|].
    simpl empty_df. cbv iota.
    destruct (filter _ (x :: L)); reflexivity.
Qed.

Lemma calculer_dept_arretes_date_Ok literal_eval df d niveaux E :
  dates_comparables df d →
  exploser literal_eval (lignes_arretes df) d = Ok E →
  calculer_dept_arretes_date literal_eval df d niveaux
  = Ok (Z.of_nat (length (remove_dups
         (departement <$> filter (λ r, isin (zones_alerte_niveau_gravite r) niveaux)
                                 (filter (λ r, est_sup r) E))))).
Proof.
  intros Hc H. rewrite calculer_dept_arretes_date_eq, (comparer_dates_Ok _ _ Hc), H. simpl.
  rewrite retenir_filter, compter_departements_length. reflexivity.
Qed.

(** A count is returned exactly when the dates are compared and the
    explosion is made. *)
Lemma calculer_dept_arretes_date_Ok_iff literal_eval df d niveaux n :
  calculer_dept_arretes_date literal_eval df d niveaux = Ok n ↔
  dates_comparables df d
  ∧ ∃ E, exploser literal_eval (lignes_arretes df) d = Ok E
         ∧ n = compter_departements (retenir E niveaux).
Proof.
  rewrite calculer_dept_arretes_date_eq.
  destruct (comparer_dates_spec df d) as [[Hc ->]|[Hc ->]]; simpl.
  - destruct (exploser literal_eval (lignes_arretes df) d) as [E|e]; simpl.
    + split.
      * intros [= <-]. eauto.
      * intros (_ & E' & [= <-] & ->). reflexivity.
    + split; [discriminate|]. intros (_ & E' & [=] & _).
  - split; [discriminate|]. intros [? _]. contradiction.
Qed.

Lemma isin_AStr a niveaux : isin a niveaux ↔ ∃ s, a = AStr s ∧ s ∈ niveaux.
Proof.
  destruct a; simpl; try (split; [intros []|intros (? & [=] & _)]).
  rewrite bool_decide_spec. split.
  - intros H. eauto.
  - intros (? & [= <-] & H). exact H.
Qed.

(** The departments that are counted are those that the specification
    names. *)
Lemma departements_retenus literal_eval df d niveaux E :
  exploser literal_eval df d = Ok E →
  ∀ dep, dep ∈ remove_dups (departement <$> retenir E niveaux)
         ↔ departement_compte literal_eval df d niveaux dep.
Proof.
  intros HE dep. rewrite elem_of_remove_dups, list_elem_of_fmap, retenir_filter.
  split.
  - intros (x & -> & Hx). apply list_elem_of_filter in Hx as [Hin Hx].
    apply list_elem_of_filter in Hx as [Hsup Hx].
    apply (exploser_elem _ _ _ _ HE) in Hx as (r & n & t & Hr & Hv & Hp & ->).
    simpl in *. apply isin_AStr in Hin as (s & -> & Hs).
    unfold est_sup in Hsup. simpl in Hsup. apply bool_decide_unpack in Hsup as ->.
    exists r, s. done.
  - intros (r & s & Hr & Hv & <- & Hp & Hs).
    exists (LigneArrete (departement r) (date_debut r) (date_fin r) (AStr s) (AStr "SUP")).
    split; [reflexivity|].
    apply list_elem_of_filter. split; [apply isin_AStr; eauto|].
    apply list_elem_of_filter. split; [by apply bool_decide_pack|].
    apply (exploser_elem _ _ _ _ HE). exists r, (AStr s), (AStr "SUP"). done.
Qed.

(** A count is returned exactly on the archives on which it can be
    made. *)
Lemma calculer_dept_arretes_date_total literal_eval df d niveaux :
  calculable literal_eval df d →
  ∃ n, calculer_dept_arretes_date literal_eval df d niveaux = Ok n.
Proof.
  intros [Hc [E HE]%exploser_total].
  rewrite (calculer_dept_arretes_date_Ok _ _ _ _ _ Hc HE). eauto.
Qed.

Lemma calculer_dept_arretes_date_Ok_inv literal_eval df d niveaux n :
  calculer_dept_arretes_date literal_eval df d niveaux = Ok n →
  calculable literal_eval df d.
Proof.
  intros (Hc & E & HE & _)%calculer_dept_arretes_date_Ok_iff.
  split; [exact Hc|]. apply exploser_total. eauto.
Qed.


Lemma calculer_dept_arretes_date_TypeError literal_eval df d niveaux :
  ¬ dates_comparables df d →
  calculer_dept_arretes_date literal_eval df d niveaux = Raise TypeError.
Proof.
  intros H. by rewrite calculer_dept_arretes_date_eq, (comparer_dates_Raise _ _ H).
Qed.

(** A count that is returned is the number of the departments that the
    specification names. *)
Lemma calculer_dept_arretes_date_compte literal_eval df d niveaux n :
  calculer_dept_arretes_date literal_eval df d niveaux = Ok n →
  ∃ deps : list cell,
    NoDup deps
    ∧ (∀ dep, dep ∈ deps ↔
         departement_compte literal_eval (lignes_arretes df) d niveaux dep)
    ∧ n = Z.of_nat (length deps).
Proof.
  intros (_ & E & HE & ->)%calculer_dept_arretes_date_Ok_iff.
  exists (remove_dups (departement <$> retenir E niveaux)).
  split; [apply NoDup_remove_dups|].
  split; [by apply departements_retenus|].
  apply compter_departements_length.
Qed.






(** ** The explosion, row by row *)

Lemma filter_tous {A} (P : A → Prop) `{!∀ x, Decision (P x)} (l : list A) :
  (∀ x, x ∈ l → P x) → filter P l = l.
Proof.
  induction l as [|x l IH]; intros Hl; [reflexivity|].
  rewrite filter_cons_True by (apply Hl; left).
  f_equal. apply IH. intros y Hy. apply Hl. by right.
Qed.








(** ** The layer of zones *)

Lemma first_non_null_const (l : list cell) (v : string) :
  l ≠ [] → (∀ c, c ∈ l → c = Some v) → first_non_null l = Some v.
Proof.
  destruct l as [|c l]; [done|]. intros _ H.
  rewrite (H c) by left. reflexivity.
Qed.

Lemma dissolve_elem (df : list zone_brute) r :
  r ∈ dissolve df →
  ∃ k r0, r0 ∈ df ∧ zb_id r0 = Some k
    ∧ r = let groupe := filter (λ r, zb_id r = Some k) df in
          ZoneBrute (Some k)
                    (first_non_null (zb_type <$> groupe))
                    (first_non_null (zb_departement <$> groupe))
                    (first_non_null (zb_arreteRestriction <$> groupe))
                    (first_non_null (zb_niveauGravite <$> groupe)).
Proof.
  unfold dissolve. rewrite list_elem_of_fmap. intros (k & -> & Hk).
  rewrite merge_sort_Permutation, elem_of_remove_dups, list_elem_of_omap in Hk.
  destruct Hk as (r0 & Hr0 & Hid). exists k, r0. done.
Qed.

Lemma dissolve_type (df : list zone_brute) :
  (∀ r, r ∈ df → zb_type r = Some "SUP") →
  ∀ r, r ∈ dissolve df → zb_type r = Some "SUP".
Proof.
  intros H r (k & r0 & Hr0 & Hid & ->)%dissolve_elem. simpl.
  apply first_non_null_const.
  - intros Hnil. apply fmap_nil_inv in Hnil.
    assert (r0 ∈ filter (λ r, zb_id r = Some k) df) as Hin
      by (by apply list_elem_of_filter).
    rewrite Hnil in Hin. by apply elem_of_nil in Hin.
  - intros c (r & -> & Hr)%list_elem_of_fmap.
    apply list_elem_of_filter in Hr as [_ Hr]. by apply H.
Qed.

Lemma filter_filter_idem {A} (P : A → Prop) `{!∀ x, Decision (P x)} (l : list A) :
  filter P (filter P l) = filter P l.
Proof.
  apply filter_tous. intros x Hx. by apply list_elem_of_filter in Hx as [? _].
Qed.

Lemma zones_sup_type zones_arretes traiter_pmtiles r :
  r ∈ zones_sup zones_arretes traiter_pmtiles → zb_type r = Some "SUP".
Proof.
  unfold zones_sup. destruct traiter_pmtiles.
  - apply dissolve_type. intros r' Hr'. by apply list_elem_of_filter in Hr' as [? _].
  - intros Hr. by apply list_elem_of_filter in Hr as [? _].
Qed.

(** Every row returned comes from a row of that layer, with the code and
    the file read in its two JSON columns. *)
Lemma filtrer_zones_elem json_get zones_arretes traiter_pmtiles out z :
  filtrer_zones json_get zones_arretes traiter_pmtiles = Ok out →
  z ∈ out →
  ∃ r code,
    r ∈ zones_sup zones_arretes traiter_pmtiles
    ∧ json_get (zb_departement r) "code" = Ok code
    ∧ code_court code = Ok true
    ∧ json_get (zb_arreteRestriction r) "fichier" = Ok (chemin_fichier z)
    ∧ z = Zone (zb_id r) (zb_type r) (zb_departement r) (zb_arreteRestriction r)
               (zb_niveauGravite r) code (chemin_fichier z).
Proof.
  unfold filtrer_zones. fold (zones_sup zones_arretes traiter_pmtiles).
  destruct (mapM _ (zones_sup _ _)) as [avec_code|e] eqn:H1; simpl; [|discriminate].
  destruct (mapM _ avec_code) as [gardes|e] eqn:H2; simpl; [|discriminate].
  intros H3 Hz.
  apply mapM_res_Ok in H1. apply mapM_res_Ok in H2. apply mapM_res_Ok in H3.
  destruct (Forall2_elem_of_r _ _ _ _ H3 Hz) as ([r code] & Hrc & Hzrc).
  simpl in Hzrc.
  destruct (json_get (zb_arreteRestriction r) "fichier") as [fichier|e] eqn:Hf;
    simpl in Hzrc; [|discriminate].
  injection Hzrc as <-.
  apply list_elem_of_filter in Hrc as [_ Hrc].
  apply list_elem_of_fmap in Hrc as ([rc b] & Heq & Hrcb). simpl in Heq. subst rc.
  apply list_elem_of_filter in Hrcb as [Hb Hrcb]. simpl in Hb. subst b.
  destruct (Forall2_elem_of_r _ _ _ _ H2 Hrcb) as (rc' & Hrc' & Hcourt).
  simpl in Hcourt.
  destruct (code_court rc'.2) as [b|e] eqn:Hc; simpl in Hcourt; [|discriminate].
  injection Hcourt as -> ->.
  destruct (Forall2_elem_of_r _ _ _ _ H1 Hrc') as (r0 & Hr0 & Hcode).
  simpl in Hcode.
  destruct (json_get (zb_departement r0) "code") as [code0|e] eqn:Hj;
    simpl in Hcode; [|discriminate].
  injection Hcode as <- <-.
  exists r0, code0. simpl. done.
Qed.

Lemma code_court_true code :
  code_court code = Ok true ↔ ∃ s, code = Some s ∧ (String.length s < 3)%nat.
Proof.
  destruct code as [s|]; simpl.
  - split.
    + intros [= H]. exists s. split; [reflexivity|]. by apply Nat.ltb_lt.
    + intros (? & [= <-] & H). f_equal. by apply Nat.ltb_lt.
  - split; [discriminate|]. intros (? & [=] & _).
Qed.

Lemma get_zones_secheresse_eq json_get lire requete uploaded out :
  get_zones_secheresse json_get lire requete uploaded = Ok out →
  ∃ zones_arretes traiter_pmtiles,
    filtrer_zones json_get zones_arretes traiter_pmtiles = Ok out.
Proof.
  unfold get_zones_secheresse. destruct uploaded as [name|].
  - destruct (lire name) as [zones|e]; simpl; [|discriminate]. eauto.
  - destruct requete as [zones|e]; simpl; [|discriminate]. eauto.
Qed.

(** C9. Every row returned by [get_zones_secheresse] belongs to a
    metropolitan department: its [insee_dept] is the field 'code' read in
    the JSON of its column [departement], this code has less than three
    characters (the rows with a longer code are dropped), and its
    [chemin_fichier] is the field 'fichier' read in the JSON of its column
    [arreteRestriction]. *)
Theorem C9_zones_metropole (json_get : cell → string → res cell)
    (lire_geopandas : string → res (list zone_brute))
    (requete_zones : res (list zone_brute)) (uploaded_file : option string)
    (out : list zone) :
  get_zones_secheresse json_get lire_geopandas requete_zones uploaded_file = Ok out →
  ∀ z, z ∈ out →
    ∃ code,
      json_get (z_departement z) "code" = Ok (Some code)
      ∧ insee_dept z = Some code
      ∧ (String.length code < 3)%nat
      ∧ json_get (z_arreteRestriction z) "fichier" = Ok (chemin_fichier z).
Proof.
  intros (zones_arretes & traiter_pmtiles & H)%get_zones_secheresse_eq z Hz.
  destruct (filtrer_zones_elem _ _ _ _ _ H Hz) as (r & code & _ & Hcode & Hc & Hf & ->).
  apply code_court_true in Hc as (s & -> & Hs). exists s. done.
Qed.

Lemma C9_zones_metropole_witness :
  ∃ out,
    get_zones_secheresse json_get_plat (lire_zones ex_monde) (requete_zones ex_monde) None
    = Ok out
    ∧ length out = 2
    ∧ ∀ z, z ∈ out →
        ∃ code,
          json_get_plat (z_departement z) "code" = Ok (Some code)
          ∧ insee_dept z = Some code
          ∧ (String.length code < 3)%nat
          ∧ json_get_plat (z_arreteRestriction z) "fichier" = Ok (chemin_fichier z).
Proof.
  eexists. split; [vm_compute; reflexivity|]. split; [reflexivity|].
  apply (C9_zones_metropole json_get_plat (lire_zones ex_monde)
           (requete_zones ex_monde) None).
  vm_compute. reflexivity.
Defined.

(** ** The type of water *)

Lemma filtrer_zones_sup json_get zones_arretes traiter_pmtiles :
  filtrer_zones json_get (filter (λ r, zb_type r = Some "SUP") zones_arretes)
                traiter_pmtiles
  = filtrer_zones json_get zones_arretes traiter_pmtiles.
Proof. unfold filtrer_zones. rewrite filter_filter_idem. reflexivity. Qed.

Lemma retenir_type (E : list arrete) niveaux r :
  r ∈ retenir E niveaux → zones_alerte_type r = AStr "SUP".
Proof.
  rewrite retenir_filter. intros [_ Hr]%list_elem_of_filter.
  apply list_elem_of_filter in Hr as [Hsup _]. by apply bool_decide_unpack in Hsup.
Qed.

Lemma retenir_sup (E : list arrete) niveaux :
  retenir (filter (λ r, est_sup r) E) niveaux = retenir E niveaux.
Proof. rewrite !retenir_filter, filter_filter_idem. reflexivity. Qed.

(** C6 (as amended). The type of water is a filter on both sources.
    Every row of the layer returned by [get_zones_secheresse] has the
    type 'SUP', and the layer is the same when the rows of another type
    are taken out of what is read.  When [calculer_dept_arretes_date]
    returns a count, it is the number of departments of the rows kept
    after the explosion; every such row has the type 'SUP', the rows
    kept are the same when the exploded rows of another type are taken
    out, and the count is the same on the archive without the arrêtés
    that have no zone of type 'SUP'.  An arrêté without such a zone is
    still read and exploded before the filter on the type: it is not
    said that the call returns a count when it is there. *)
Theorem C6_type_SUP (literal_eval : atom → res pyval)
    (json_get : cell → string → res cell) :
  (∀ lire_geopandas requete_zones uploaded_file out,
     get_zones_secheresse json_get lire_geopandas requete_zones uploaded_file = Ok out →
     ∀ z, z ∈ out → z_type z = Some "SUP")
  ∧ (∀ lire_geopandas requete_zones uploaded_file,
       get_zones_secheresse json_get
         (λ name, filter (λ r, zb_type r = Some "SUP") <$> lire_geopandas name)
         (filter (λ r, zb_type r = Some "SUP") <$> requete_zones) uploaded_file
       = get_zones_secheresse json_get lire_geopandas requete_zones uploaded_file)
  ∧ (∀ df_arretes date_compar niveaux n,
       calculer_dept_arretes_date literal_eval df_arretes date_compar niveaux = Ok n →
       (∃ E, exploser literal_eval (lignes_arretes df_arretes) date_compar = Ok E
             ∧ n = compter_departements (retenir E niveaux)
             ∧ (∀ r, r ∈ retenir E niveaux → zones_alerte_type r = AStr "SUP")
             ∧ retenir (filter (λ r, est_sup r) E) niveaux = retenir E niveaux)
       ∧ ∀ df_sup,
           dtype_date_debut df_sup = dtype_date_debut df_arretes →
           dtype_date_fin df_sup = dtype_date_fin df_arretes →
           (∀ r, r ∈ lignes_arretes df_sup → r ∈ lignes_arretes df_arretes) →
           (∀ r, r ∈ lignes_arretes df_arretes →
                 r ∈ lignes_arretes df_sup
                 ∨ ¬ ∃ niveau, paire literal_eval r niveau (AStr "SUP")) →
           calculer_dept_arretes_date literal_eval df_sup date_compar niveaux = Ok n).
Proof.
  split; [|split].
  - intros lire requete uploaded out (zones & b & H)%get_zones_secheresse_eq z Hz.
    destruct (filtrer_zones_elem _ _ _ _ _ H Hz) as (r & code & Hr & _ & _ & _ & ->).
    simpl. by apply zones_sup_type in Hr.
  - intros lire requete uploaded. unfold get_zones_secheresse.
    destruct uploaded as [name|].
    + destruct (lire name) as [zones|e]; simpl; [|reflexivity].
      apply filtrer_zones_sup.
    + destruct requete as [zones|e]; simpl; [|reflexivity].
      apply filtrer_zones_sup.
  - intros df d niveaux n Hn. split.
    + apply calculer_dept_arretes_date_Ok_iff in Hn as (_ & E & HE & ->).
      exists E. split; [exact HE|]. split; [reflexivity|].
      split; [apply retenir_type|apply retenir_sup].
    + intros df' Hdd Hdf Hsub Hsup.
      pose proof (calculer_dept_arretes_date_Ok_inv _ _ _ _ _ Hn) as [[Hd Hf] Hb].
      assert (calculable literal_eval df' d) as Hc'.
      { split; [split|].
        - by rewrite Hdd.
        - intros (r & Hr & Hlt). rewrite Hdf. apply Hf. exists r. split; [by apply Hsub|done].
        - intros r Hr Hv. apply Hb; [by apply Hsub|done]. }
      destruct (calculer_dept_arretes_date_total _ _ _ niveaux Hc') as [n' Hn'].
      rewrite Hn'. f_equal.
      apply calculer_dept_arretes_date_compte in Hn as (deps & Hnd & Hdeps & ->).
      apply calculer_dept_arretes_date_compte in Hn' as (deps' & Hnd' & Hdeps' & ->).
      f_equal. apply Permutation_length, NoDup_Permutation; [assumption..|].
      intros dep. rewrite Hdeps, Hdeps'. split.
      * intros (r & s & Hr & Hv & Hdep & Hp & Hs). exists r, s.
        split; [by apply Hsub|done].
      * intros (r & s & Hr & Hv & Hdep & Hp & Hs). exists r, s.
        split; [|done]. destruct (Hsup r Hr) as [?|Hno]; [assumption|].
        exfalso. apply Hno. eauto.
Qed.

Lemma C6_type_SUP_witness :
  (∃ out,
     get_zones_secheresse json_get_plat (lire_zones ex_monde) (requete_zones ex_monde) None
     = Ok out
     ∧ length out = 2
     ∧ ∀ z, z ∈ out → z_type z = Some "SUP")
  ∧ (∃ E, exploser literal_eval_archive ex_arretes "2025-06-01" = Ok E
          ∧ length E = 2
          ∧ length (retenir E ["crise"; "alerte"]) = 1
          ∧ ∀ r, r ∈ retenir E ["crise"; "alerte"] → zones_alerte_type r = AStr "SUP")
  ∧ calculer_dept_arretes_date literal_eval_archive (read_csv [ex_arrete_13])
      "2025-06-01" ["crise"; "alerte"] = Ok 1%Z.
Proof.
  destruct (C6_type_SUP literal_eval_archive json_get_plat) as (Hz & _ & Ha).
  split; [|split].
  - eexists. split; [vm_compute; reflexivity|]. split; [reflexivity|].
    apply (Hz (lire_zones ex_monde) (requete_zones ex_monde) None).
    vm_compute. reflexivity.
  - destruct (Ha (read_csv ex_arretes) "2025-06-01" ["crise"; "alerte"] 1%Z)
      as [(E & HE & _ & Ht & _) _]; [reflexivity|].
    exists E. split; [exact HE|].
    assert (E = [LigneArrete (Some "13") (Some "2025-05-01") (Some "2025-09-30")
                             (AStr "crise") (AStr "SUP");
                 LigneArrete (Some "13") (Some "2025-05-01") (Some "2025-09-30")
                             (AStr "alerte") (AStr "SOU")]) as ->.
    { assert (Ok E = exploser literal_eval_archive ex_arretes "2025-06-01") as HE'
        by (symmetry; exact HE).
      vm_compute in HE'. by injection HE' as ->. }
    split; [reflexivity|]. split; [reflexivity|]. exact Ht.
  - destruct (Ha (read_csv [ex_arrete_13; ex_arrete_sou_apparie]) "2025-06-01"
                ["crise"; "alerte"] 1%Z) as [_ H]; [reflexivity|].
    apply (H (read_csv [ex_arrete_13])); [reflexivity|reflexivity|..].
    + intros r ->%list_elem_of_singleton. left.
    + intros r Hr. simpl in Hr. rewrite !elem_of_cons, elem_of_nil in Hr.
      destruct Hr as [->|[->|[]]].
      * left. left.
      * right. intros (niveau & vn & vt & i & Hvn & Hvt & Hi & Hj).
        injection Hvt as <-. destruct i as [|[|i]]; discriminate Hj.
Defined.

(** C6 (as stated) fails: an arrêté whose zones are all of type 'SOU',
    with two levels for one type, is valid at the date; added to an
    archive on which one department is counted, it makes the explosion
    raise ValueError, and no count is returned. *)
Lemma C6_counterexample :
  calculer_dept_arretes_date literal_eval_archive (read_csv [ex_arrete_13])
    "2025-06-01" ["crise"] = Ok 1%Z
  ∧ (¬ ∃ niveau, paire literal_eval_archive ex_arrete_sou niveau (AStr "SUP"))
  ∧ calculer_dept_arretes_date literal_eval_archive
      (read_csv [ex_arrete_13; ex_arrete_sou]) "2025-06-01" ["crise"]
    = Raise ValueError.
Proof.
  split; [reflexivity|]. split; [|reflexivity].
  intros (niveau & vn & vt & i & Hvn & Hvt & Hi & Hj).
  injection Hvt as <-. destruct i as [|i]; [discriminate Hj|].
  destruct i; discriminate Hj.
Qed.

(** ** The table of indicators *)

Lemma construire_table_indic_inv literal_eval today df zones_arretes dept_iti t :
  construire_table_indic literal_eval today df zones_arretes dept_iti = Ok t →
  ∃ n m0 m1 m2 m3 m4,
    calculer_dept_arretes_an_passe literal_eval today df = Ok n
    ∧ calculer_dept_arretes_date literal_eval df (isoformat (date_mois_precedent today))
        ["alerte"; "alerte_renforcee"; "crise"] = Ok m0
    ∧ calculer_dept_arretes_date literal_eval df (isoformat (date_mois_precedent today))
        ["crise"] = Ok m1
    ∧ calculer_dept_arretes_date literal_eval df (isoformat (date_mois_precedent today))
        ["alerte_renforcee"] = Ok m2
    ∧ calculer_dept_arretes_date literal_eval df (isoformat (date_mois_precedent today))
        ["alerte"] = Ok m3
    ∧ calculer_dept_arretes_date literal_eval df (isoformat (date_mois_precedent today))
        ["vigilance"] = Ok m4
    ∧ t = table_de zones_arretes dept_iti n m0 m1 m2 m3 m4.
Proof.
  unfold construire_table_indic, set_loc. simpl.
  destruct (calculer_dept_arretes_an_passe _ _ _) as [n|e]; simpl; [|discriminate].
  destruct (calculer_dept_arretes_date _ _ _ ["alerte"; "alerte_renforcee"; "crise"])
    as [m0|e]; simpl; [|discriminate].
  destruct (calculer_dept_arretes_date _ _ _ ["crise"]) as [m1|e]; simpl; [|discriminate].
  destruct (calculer_dept_arretes_date _ _ _ ["alerte_renforcee"]) as [m2|e];
    simpl; [|discriminate].
  destruct (calculer_dept_arretes_date _ _ _ ["alerte"]) as [m3|e]; simpl; [|discriminate].
  destruct (calculer_dept_arretes_date _ _ _ ["vigilance"]) as [m4|e]; simpl; [|discriminate].
  intros [= <-]. exists n, m0, m1, m2, m3, m4. done.
Qed.

Lemma construire_table_indic_total literal_eval today df zones_arretes dept_iti :
  calculable literal_eval df (isoformat (date_an_passe today)) →
  calculable literal_eval df (isoformat (date_mois_precedent today)) →
  ∃ t, construire_table_indic literal_eval today df zones_arretes dept_iti = Ok t.
Proof.
  intros Han Hmois.
  unfold construire_table_indic, set_loc, calculer_dept_arretes_an_passe. simpl.
  fold (date_an_passe today).
  destruct (calculer_dept_arretes_date_total _ _ _
              ["alerte"; "alerte renforcée"; "crise"] Han) as [n ->]. simpl.
  destruct (calculer_dept_arretes_date_total _ _ _
              ["alerte"; "alerte_renforcee"; "crise"] Hmois) as [m0 ->]. simpl.
  destruct (calculer_dept_arretes_date_total _ _ _ ["crise"] Hmois) as [m1 ->]. simpl.
  destruct (calculer_dept_arretes_date_total _ _ _ ["alerte_renforcee"] Hmois)
    as [m2 ->]. simpl.
  destruct (calculer_dept_arretes_date_total _ _ _ ["alerte"] Hmois) as [m3 ->]. simpl.
  destruct (calculer_dept_arretes_date_total _ _ _ ["vigilance"] Hmois) as [m4 ->]. simpl.
  eauto.
Qed.




(** C1, on the code.  In every table that is built, the four columns
    of count per level of the row 'annee_precedente' hold the constant 0
    (and the four columns of names the empty text): only [dept_fr] is
    computed on the archive.  On the example, in July 2024 the
    department 59, which is on the VNF network, has a valid arrêté with
    a zone of type 'SUP' in crisis: the count of the crisis at that date
    is 1, and the cell of the table is 0. *)
Theorem C1_annee_precedente :
  (∀ literal_eval today df_arretes zones_arretes dept_iti t,
     construire_table_indic literal_eval today df_arretes zones_arretes dept_iti = Ok t →
     ∃ n, calculer_dept_arretes_an_passe literal_eval today df_arretes = Ok n
          ∧ lignes t !! "annee_precedente"
            = Some [VInt n; VInt 0; VStr ""; VInt 0; VStr ""; VInt 0; VStr "";
                    VInt 0; VStr ""])
  ∧ ∃ t, construire_table_indic literal_eval_archive ex_today (read_csv ex_arretes) []
           ex_dept_iti = Ok t
         ∧ isoformat (date_an_passe ex_today) = "2024-07-01"
         ∧ valeur_de t "annee_precedente" "dept_vnf_crise_code" = Ok (VInt 0)
         ∧ valeur_de t "annee_precedente" "dept_vnf_ar_code" = Ok (VInt 0)
         ∧ valeur_de t "annee_precedente" "dept_vnf_a_code" = Ok (VInt 0)
         ∧ valeur_de t "annee_precedente" "dept_vnf_vg_code" = Ok (VInt 0)
         ∧ departement_compte literal_eval_archive ex_arretes "2024-07-01" ["crise"]
             (Some "59")
         ∧ Some "59" ∈ insee_dep <$> ex_dept_iti
         ∧ calculer_dept_arretes_date literal_eval_archive (read_csv ex_arretes)
             "2024-07-01" ["crise"] = Ok 1%Z.
Proof.
  split.
  - intros literal_eval today df zones dept_iti t
      (n & m0 & m1 & m2 & m3 & m4 & Hn & _ & _ & _ & _ & _ & ->)%construire_table_indic_inv.
    exists n. split; [exact Hn|reflexivity].
  - eexists. split; [vm_compute; reflexivity|].
    do 5 (split; [reflexivity|]).
    split; [|split; [|reflexivity]].
    + exists ex_arrete_59, "crise". split; [set_solver|]. split; [split; exact I|].
      split; [reflexivity|]. split; [|set_solver].
      exists (PSeq KList [AStr "crise"]), (PSeq KList [AStr "SUP"]), 0. done.
    + simpl. left.
Qed.

Lemma ex_valide_2025 : valide_a "2025-06-01" ex_arrete_13.
Proof. split; exact I. Qed.

Lemma ex_compte_13 :
  departement_compte literal_eval_archive ex_arretes "2025-06-01" ["crise"] (Some "13").
Proof.
  exists ex_arrete_13, "crise". split; [set_solver|]. split; [apply ex_valide_2025|].
  split; [reflexivity|]. split; [|set_solver].
  exists (PSeq KList [AStr "crise"; AStr "alerte"]),
         (PSeq KList [AStr "SUP"; AStr "SOU"]), 0. done.
Qed.





(** ** The month before, against the current layer *)

(** The row 'mois_precedent' is a function of the archive and of the
    date: neither the layer of zones nor the departments of the VNF
    network are read. *)
Lemma mois_precedent_sans_reseau literal_eval today df zones zones' dept_iti dept_iti' t t' :
  construire_table_indic literal_eval today df zones dept_iti = Ok t →
  construire_table_indic literal_eval today df zones' dept_iti' = Ok t' →
  lignes t !! "mois_precedent" = lignes t' !! "mois_precedent".
Proof.
  intros (n & m0 & m1 & m2 & m3 & m4 & Hn & H0 & H1 & H2 & H3 & H4 & ->)%construire_table_indic_inv
         (n' & m0' & m1' & m2' & m3' & m4' & Hn' & H0' & H1' & H2' & H3' & H4' & ->)%construire_table_indic_inv.
  unfold table_de. simpl. rewrite !lookup_insert_eq. congruence.
Qed.

(** C4, on the example: no zone is restricted today and the department
    13, which is not on the VNF network, was in crisis on the first of
    June.  The count of crisis of the current row is 0 (departments of
    the network), the count of the month before is 1 (the department 13),
    and the display under "Sur le réseau VNF uniquement" announces one
    department less. *)
Theorem C4_mois_precedent_hors_reseau :
  ∃ t textes,
    construire_table_indic literal_eval_archive ex_today (read_csv ex_arretes) []
      ex_dept_iti = Ok t
    ∧ isoformat (date_mois_precedent ex_today) = "2025-06-01"
    ∧ valeur_de t "annee_courante" "dept_vnf_crise_code" = Ok (VInt 0)
    ∧ valeur_de t "mois_precedent" "dept_vnf_crise_code" = Ok (VInt 1)
    ∧ departement_compte literal_eval_archive ex_arretes "2025-06-01" ["crise"] (Some "13")
    ∧ (Some "13" ∉ insee_dep <$> ex_dept_iti)
    ∧ inserer_indic_dept t = Ok textes
    ∧ (LigneVnf 0, "Sur le réseau VNF uniquement :") ∈ textes
    ∧ (Ligne3 3, "# \- 1") ∈ textes.
Proof.
  eexists. eexists. split; [vm_compute; reflexivity|].
  split; [reflexivity|]. split; [reflexivity|]. split; [reflexivity|].
  split; [apply ex_compte_13|]. split.
  { intros H. simpl in H.
    repeat (apply elem_of_cons in H as [H|H]; [discriminate H|]).
    by apply elem_of_nil in H. }
  split; [vm_compute; reflexivity|].
  split; apply list_elem_of_In; simpl; tauto.
Qed.

(** ** The display of a table that was built *)

Lemma inserer_indic_dept_table (fr crise ar a vg : Z) (crise_nom ar_nom a_nom vg_nom : string)
    (fr_prec p1 p2 p3 p4 p5 p6 p7 p8 : valeur)
    (fr_mois crise_mois ar_mois a_mois vg_mois : Z) (n2 n4 n6 n8 : valeur) :
  inserer_indic_dept
    (table_indic_de
       [VInt fr; VInt crise; VStr crise_nom; VInt ar; VStr ar_nom; VInt a; VStr a_nom;
        VInt vg; VStr vg_nom]
       [fr_prec; p1; p2; p3; p4; p5; p6; p7; p8]
       [VInt fr_mois; VInt crise_mois; n2; VInt ar_mois; n4; VInt a_mois; n6;
        VInt vg_mois; n8])
  = Ok (textes_indic fr crise ar a vg crise_nom ar_nom a_nom fr_prec
                     fr_mois crise_mois ar_mois a_mois vg_mois).
Proof.
  set (t := table_indic_de _ _ _).
  assert (valeur_de t "annee_courante" "dept_fr" = Ok (VInt fr)) as H1
    by (vm_compute; reflexivity).
  assert (valeur_de t "mois_precedent" "dept_fr" = Ok (VInt fr_mois)) as H2
    by (vm_compute; reflexivity).
  assert (valeur_de t "annee_precedente" "dept_fr" = Ok fr_prec) as H3
    by (vm_compute; reflexivity).
  assert (valeur_de t "annee_courante" "dept_vnf_vg_code" = Ok (VInt vg)) as H4
    by (vm_compute; reflexivity).
  assert (valeur_de t "annee_courante" "dept_vnf_a_code" = Ok (VInt a)) as H5
    by (vm_compute; reflexivity).
  assert (valeur_de t "annee_courante" "dept_vnf_ar_code" = Ok (VInt ar)) as H6
    by (vm_compute; reflexivity).
  assert (valeur_de t "annee_courante" "dept_vnf_crise_code" = Ok (VInt crise)) as H7
    by (vm_compute; reflexivity).
  assert (valeur_de t "mois_precedent" "dept_vnf_vg_code" = Ok (VInt vg_mois)) as H8
    by (vm_compute; reflexivity).
  assert (valeur_de t "mois_precedent" "dept_vnf_a_code" = Ok (VInt a_mois)) as H9
    by (vm_compute; reflexivity).
  assert (valeur_de t "mois_precedent" "dept_vnf_ar_code" = Ok (VInt ar_mois)) as H10
    by (vm_compute; reflexivity).
  assert (valeur_de t "mois_precedent" "dept_vnf_crise_code" = Ok (VInt crise_mois)) as H11
    by (vm_compute; reflexivity).
  assert (valeur_de t "annee_courante" "dept_vnf_a_nom" = Ok (VStr a_nom)) as H12
    by (vm_compute; reflexivity).
  assert (valeur_de t "annee_courante" "dept_vnf_ar_nom" = Ok (VStr ar_nom)) as H13
    by (vm_compute; reflexivity).
  assert (valeur_de t "annee_courante" "dept_vnf_crise_nom" = Ok (VStr crise_nom)) as H14
    by (vm_compute; reflexivity).
  unfold inserer_indic_dept, liste_dept.
  rewrite H1, H2, H3, H4, H5, H6, H7, H8, H9, H10, H11, H12, H13, H14.
  cbn [mbind res_bind soustraire positif fmap res_fmap mret res_ret format_valeur].
  unfold textes_indic.
  destruct (0 <? a)%Z, (0 <? ar)%Z, (0 <? crise)%Z; reflexivity.
Qed.

Lemma table_de_table_indic_de zones_arretes dept_iti n m0 m1 m2 m3 m4 :
  table_de zones_arretes dept_iti n m0 m1 m2 m3 m4
  = table_indic_de
      [VInt (calculer_dept_zone_restrict zones_arretes);
       VInt (calculer_dept_zone_vnf_niveau zones_arretes dept_iti "crise").1;
       VStr (calculer_dept_zone_vnf_niveau zones_arretes dept_iti "crise").2;
       VInt (calculer_dept_zone_vnf_niveau zones_arretes dept_iti "alerte_renforcee").1;
       VStr (calculer_dept_zone_vnf_niveau zones_arretes dept_iti "alerte_renforcee").2;
       VInt (calculer_dept_zone_vnf_niveau zones_arretes dept_iti "alerte").1;
       VStr (calculer_dept_zone_vnf_niveau zones_arretes dept_iti "alerte").2;
       VInt (calculer_dept_zone_vnf_niveau zones_arretes dept_iti "vigilance").1;
       VStr (calculer_dept_zone_vnf_niveau zones_arretes dept_iti "vigilance").2]
      [VInt n; VInt 0; VStr ""; VInt 0; VStr ""; VInt 0; VStr ""; VInt 0; VStr ""]
      [VInt m0; VInt m1; VStr ""; VInt m2; VStr ""; VInt m3; VStr ""; VInt m4; VStr ""].
Proof. reflexivity. Qed.

(** The display of a table built by [construire_table_indic]. *)
Lemma inserer_indic_dept_table_de zones_arretes dept_iti n m0 m1 m2 m3 m4 :
  inserer_indic_dept (table_de zones_arretes dept_iti n m0 m1 m2 m3 m4)
  = Ok (textes_indic
          (calculer_dept_zone_restrict zones_arretes)
          (calculer_dept_zone_vnf_niveau zones_arretes dept_iti "crise").1
          (calculer_dept_zone_vnf_niveau zones_arretes dept_iti "alerte_renforcee").1
          (calculer_dept_zone_vnf_niveau zones_arretes dept_iti "alerte").1
          (calculer_dept_zone_vnf_niveau zones_arretes dept_iti "vigilance").1
          (calculer_dept_zone_vnf_niveau zones_arretes dept_iti "crise").2
          (calculer_dept_zone_vnf_niveau zones_arretes dept_iti "alerte_renforcee").2
          (calculer_dept_zone_vnf_niveau zones_arretes dept_iti "alerte").2
          (VInt n) m0 m1 m2 m3 m4).
Proof. rewrite table_de_table_indic_de. apply inserer_indic_dept_table. Qed.

(** The display never raises on a table that was built. *)
Lemma inserer_apres_construire literal_eval today df zones_arretes dept_iti t :
  construire_table_indic literal_eval today df zones_arretes dept_iti = Ok t →
  ∃ textes, inserer_indic_dept t = Ok textes.
Proof.
  intros (n & m0 & m1 & m2 & m3 & m4 & _ & _ & _ & _ & _ & _ & ->)%construire_table_indic_inv.
  eexists. apply inserer_indic_dept_table_de.
Qed.

(** ** The runs of [main] *)

Ltac monade :=
  cbv [mbind M_bind mret M_ret fmap M_fmap emit appel status essayer lire_session
       ecrire_session lift_res journal session_construire_carte
       get_zones_secheresse_journal get_arretes_journal].



(** [get_zones_secheresse] is the reading of the layer followed by its
    filtering, and [get_arretes] returns the frame read without the rows
    that have no [date_fin]. *)
Lemma get_zones_secheresse_charger json_get lire requete uploaded :
  get_zones_secheresse json_get lire requete uploaded
  = ('(zones, b) ← charger_zones lire requete uploaded; filtrer_zones json_get zones b).
Proof.
  unfold get_zones_secheresse, charger_zones.
  destruct uploaded as [name|]; [destruct (lire name)|destruct requete]; reflexivity.
Qed.

Lemma get_zones_secheresse_Ok json_get lire requete uploaded zones_arretes :
  get_zones_secheresse json_get lire requete uploaded = Ok zones_arretes →
  ∃ zones b, charger_zones lire requete uploaded = Ok (zones, b)
             ∧ filtrer_zones json_get zones b = Ok zones_arretes.
Proof.
  rewrite get_zones_secheresse_charger.
  destruct (charger_zones lire requete uploaded) as [[zones b]|e]; simpl; [|discriminate].
  eauto.
Qed.

Lemma get_arretes_Ok requete df :
  get_arretes requete = Ok df ↔
  ∃ lignes, requete = Ok lignes ∧ df = dropna_date_fin (read_csv lignes).
Proof.
  unfold get_arretes. destruct requete as [lignes|e]; simpl.
  - split; [intros [= <-]; eauto|]. by intros (? & [= <-] & ->).
  - split; [discriminate|]. by intros (? & [=] & _).
Qed.

Lemma get_arretes_Raise requete e :
  get_arretes requete = Raise e ↔ requete = Raise e.
Proof.
  unfold get_arretes. destruct requete as [lignes|e']; simpl.
  - split; discriminate.
  - split; intros [= ->]; reflexivity.
Qed.

(** *** The runs, case by case *)

Section runs.
Context {I : Type} (literal_eval : atom → res pyval)
  (json_get : cell → string → res cell) (w : monde I)
  (session : option (option bool)).

Lemma run_echec_itineraire e :
  lire_itineraire w = Raise e →
  run literal_eval json_get w session
  = (Etat (session_initiale session) (take 8 journal_chargement), Raise e).
Proof.
  intros Hi. unfold run, main. monade. rewrite Hi. destruct session; reflexivity.
Qed.

Lemma run_echec_dept_iti itineraire e :
  lire_itineraire w = Ok itineraire →
  lire_dept_iti w = Raise e →
  run literal_eval json_get w session
  = (Etat (session_initiale session) (take 9 journal_chargement), Raise e).
Proof.
  intros Hi Hd. unfold run, main. monade. rewrite Hi, Hd. destruct session; reflexivity.
Qed.

Lemma run_echec_charger_zones itineraire dept_iti e :
  lire_itineraire w = Ok itineraire →
  lire_dept_iti w = Ok dept_iti →
  charger_zones (lire_zones w) (requete_zones w) (uploaded_file w) = Raise e →
  run literal_eval json_get w session
  = (Etat (session_initiale session) (take 11 journal_chargement), Raise e).
Proof.
  intros Hi Hd Hc. unfold run, main. monade. rewrite Hi, Hd, Hc.
  destruct session; reflexivity.
Qed.

Lemma run_echec_filtrer_zones itineraire dept_iti zones b e :
  lire_itineraire w = Ok itineraire →
  lire_dept_iti w = Ok dept_iti →
  charger_zones (lire_zones w) (requete_zones w) (uploaded_file w) = Ok (zones, b) →
  filtrer_zones json_get zones b = Raise e →
  run literal_eval json_get w session
  = (Etat (session_initiale session) (take 12 journal_chargement), Raise e).
Proof.
  intros Hi Hd Hc Hf. unfold run, main. monade. rewrite Hi, Hd, Hc, Hf.
  destruct session; reflexivity.
Qed.

(** A run in which the request of the archive raises. *)
Lemma run_archive_echec itineraire dept_iti zones_arretes e :
  lire_itineraire w = Ok itineraire →
  lire_dept_iti w = Ok dept_iti →
  get_zones_secheresse json_get (lire_zones w) (requete_zones w) (uploaded_file w)
    = Ok zones_arretes →
  get_arretes (requete_arretes w) = Raise e →
  run literal_eval json_get w session
  = (Etat (session_apres session)
          (journal_chargement
           ++ [EvPrint e;
               EvStatus Principal "Echec du téléchargement des données des arrêtés";
               EvStatus Principal "Chargement des données...Terminé !"]
           ++ (if vrai session
               then journal_carte (construire_carte (today w) itineraire zones_arretes
                                                    dept_iti (uploaded_file w))
                    ++ [EvStatus Tab2 "Echec du téléchargement des données des arrêtés"]
               else [])),
     Ok tt).
Proof.
  intros Hi Hd (zones & b & Hc & Hf)%get_zones_secheresse_Ok Ha%get_arretes_Raise.
  unfold run, main. monade. rewrite Hi, Hd, Hc, Hf, Ha.
  destruct session as [[[]|]|]; reflexivity.
Qed.

(** A run in which the archive is obtained and is empty. *)
Lemma run_archive_vide itineraire dept_iti zones_arretes df_arretes :
  lire_itineraire w = Ok itineraire →
  lire_dept_iti w = Ok dept_iti →
  get_zones_secheresse json_get (lire_zones w) (requete_zones w) (uploaded_file w)
    = Ok zones_arretes →
  get_arretes (requete_arretes w) = Ok df_arretes →
  lignes_arretes df_arretes = [] →
  run literal_eval json_get w session
  = (Etat (session_apres session)
          (journal_chargement
           ++ [EvFiltrer Arretes;
               EvStatus Principal "Chargement des données...Terminé !"]
           ++ (if vrai session
               then journal_carte (construire_carte (today w) itineraire zones_arretes
                                                    dept_iti (uploaded_file w))
                    ++ [EvStatus Tab2 "Echec du téléchargement des données des arrêtés"]
               else [])),
     Ok tt).
Proof.
  intros Hi Hd (zones & b & Hc & Hf)%get_zones_secheresse_Ok
         (lu & Ha & ->)%get_arretes_Ok Hv.
  unfold run, main. monade. rewrite Hi, Hd, Hc, Hf, Ha, Hv.
  destruct session as [[[]|]|]; reflexivity.
Qed.

(** A run in which the table cannot be built. *)
Lemma run_echec_table itineraire dept_iti zones_arretes df_arretes e :
  lire_itineraire w = Ok itineraire →
  lire_dept_iti w = Ok dept_iti →
  get_zones_secheresse json_get (lire_zones w) (requete_zones w) (uploaded_file w)
    = Ok zones_arretes →
  get_arretes (requete_arretes w) = Ok df_arretes →
  lignes_arretes df_arretes ≠ [] →
  construire_table_indic literal_eval (today w) df_arretes zones_arretes dept_iti
    = Raise e →
  run literal_eval json_get w session
  = (Etat (session_initiale session)
          (journal_chargement
           ++ [EvFiltrer Arretes;
               EvStatus Principal "Chargement des données...Terminé !";
               EvTableIndic]),
     Raise e).
Proof.
  intros Hi Hd (zones & b & Hc & Hf)%get_zones_secheresse_Ok
         (lu & Ha & ->)%get_arretes_Ok Hne Ht.
  unfold run, main. monade. rewrite Hi, Hd, Hc, Hf, Ha.
  destruct (lignes_arretes (dropna_date_fin (read_csv lu))) as [|r l] eqn:Hl; [done|].
  cbn [negb empty_df]. rewrite Ht. destruct session; reflexivity.
Qed.

(** A run in which the archive is there and the table is built. *)
Lemma run_nominal itineraire dept_iti zones_arretes df_arretes t textes :
  lire_itineraire w = Ok itineraire →
  lire_dept_iti w = Ok dept_iti →
  get_zones_secheresse json_get (lire_zones w) (requete_zones w) (uploaded_file w)
    = Ok zones_arretes →
  get_arretes (requete_arretes w) = Ok df_arretes →
  lignes_arretes df_arretes ≠ [] →
  construire_table_indic literal_eval (today w) df_arretes zones_arretes dept_iti = Ok t →
  inserer_indic_dept t = Ok textes →
  run literal_eval json_get w session
  = (Etat (session_apres session)
          (journal_chargement
           ++ [EvFiltrer Arretes;
               EvStatus Principal "Chargement des données...Terminé !"; EvTableIndic]
           ++ (if vrai session
               then journal_carte (construire_carte (today w) itineraire zones_arretes
                                                    dept_iti (uploaded_file w))
                    ++ [EvStatus Tab2 "Visualisation indicateurs...";
                        EvIndic Tab2 textes;
                        EvStatus Tab2 ""]
               else [])),
     Ok tt).
Proof.
  intros Hi Hd (zones & b & Hc & Hf)%get_zones_secheresse_Ok
         (lu & Ha & ->)%get_arretes_Ok Hne Ht Htx.
  unfold run, main. monade. rewrite Hi, Hd, Hc, Hf, Ha.
  destruct (lignes_arretes (dropna_date_fin (read_csv lu))) as [|r l] eqn:Hl; [done|].
  cbn [negb empty_df]. rewrite Ht.
  destruct session as [[[]|]|]; cbn [vrai]; rewrite ?Htx; reflexivity.
Qed.

End runs.

(** Every run is one of the runs above. *)
Lemma run_cas {I : Type} (literal_eval : atom → res pyval)
    (json_get : cell → string → res cell) (w : monde I)
    (session : option (option bool)) :
  (∃ k e, (k = 8 ∨ k = 9 ∨ k = 11 ∨ k = 12)%nat
          ∧ run literal_eval json_get w session
            = (Etat (session_initiale session) (take k journal_chargement), Raise e))
  ∨ (∃ df_arretes e,
       get_arretes (requete_arretes w) = Ok df_arretes
       ∧ lignes_arretes df_arretes ≠ []
       ∧ run literal_eval json_get w session
         = (Etat (session_initiale session)
                 (journal_chargement
                  ++ [EvFiltrer Arretes;
                      EvStatus Principal "Chargement des données...Terminé !";
                      EvTableIndic]),
            Raise e))
  ∨ (∃ c e,
       get_arretes (requete_arretes w) = Raise e
       ∧ run literal_eval json_get w session
         = (Etat (session_apres session)
                 (journal_chargement
                  ++ [EvPrint e;
                      EvStatus Principal "Echec du téléchargement des données des arrêtés";
                      EvStatus Principal "Chargement des données...Terminé !"]
                  ++ (if vrai session
                      then journal_carte c
                           ++ [EvStatus Tab2
                                 "Echec du téléchargement des données des arrêtés"]
                      else [])),
            Ok tt))
  ∨ (∃ c df_arretes,
       get_arretes (requete_arretes w) = Ok df_arretes
       ∧ lignes_arretes df_arretes = []
       ∧ run literal_eval json_get w session
         = (Etat (session_apres session)
                 (journal_chargement
                  ++ [EvFiltrer Arretes;
                      EvStatus Principal "Chargement des données...Terminé !"]
                  ++ (if vrai session
                      then journal_carte c
                           ++ [EvStatus Tab2
                                 "Echec du téléchargement des données des arrêtés"]
                      else [])),
            Ok tt))
  ∨ (∃ c df_arretes textes,
       get_arretes (requete_arretes w) = Ok df_arretes
       ∧ lignes_arretes df_arretes ≠ []
       ∧ run literal_eval json_get w session
         = (Etat (session_apres session)
                 (journal_chargement
                  ++ [EvFiltrer Arretes;
                      EvStatus Principal "Chargement des données...Terminé !";
                      EvTableIndic]
                  ++ (if vrai session
                      then journal_carte c
                           ++ [EvStatus Tab2 "Visualisation indicateurs...";
                               EvIndic Tab2 textes;
                               EvStatus Tab2 ""]
                      else [])),
            Ok tt)).
Proof.
  destruct (lire_itineraire w) as [iti|e] eqn:Hi.
  2:{ left. exists 8%nat, e. split; [tauto|]. by apply run_echec_itineraire. }
  destruct (lire_dept_iti w) as [d|e] eqn:Hd.
  2:{ left. exists 9%nat, e. split; [tauto|]. by apply (run_echec_dept_iti _ _ _ _ iti). }
  destruct (charger_zones (lire_zones w) (requete_zones w) (uploaded_file w))
    as [[zones b]|e] eqn:Hc.
  2:{ left. exists 11%nat, e. split; [tauto|].
      by apply (run_echec_charger_zones _ _ _ _ iti d). }
  destruct (filtrer_zones json_get zones b) as [z|e] eqn:Hf.
  2:{ left. exists 12%nat, e. split; [tauto|].
      by apply (run_echec_filtrer_zones _ _ _ _ iti d zones b). }
  assert (get_zones_secheresse json_get (lire_zones w) (requete_zones w) (uploaded_file w)
          = Ok z) as Hz by (by rewrite get_zones_secheresse_charger, Hc).
  right.
  destruct (get_arretes (requete_arretes w)) as [df|e] eqn:Ha.
  2:{ right. left. eexists _, e. split; [reflexivity|].
      by apply (run_archive_echec _ _ _ _ iti d z). }
  destruct (lignes_arretes df) as [|r l] eqn:Hl.
  { right. right. left. eexists _, df. split; [reflexivity|]. split; [exact Hl|].
    by apply (run_archive_vide _ _ _ _ iti d z df). }
  assert (lignes_arretes df ≠ []) as Hne by (by rewrite Hl).
  destruct (construire_table_indic literal_eval (today w) df z d) as [t|e] eqn:Ht.
  - destruct (inserer_apres_construire _ _ _ _ _ _ Ht) as [textes Htx].
    right. right. right. eexists _, df, textes. split; [reflexivity|].
    split; [exact Hne|]. by apply (run_nominal _ _ _ _ iti d z df t).
  - left. exists df, e. split; [reflexivity|]. split; [exact Hne|].
    by apply (run_echec_table _ _ _ _ iti d z df).
Qed.

(** *** The order of the steps *)








(** C5 (as amended). [main] handles one failure, that of [get_arretes].
    In every run in which it raises: the exception is printed and the
    fallback message is shown, then replaced by the message of the end of
    the loading; the archive is the empty frame and the table of
    indicators is not built; the run returns.  When the display is asked
    for ([st.session_state.construire_carte] is true) the map is built and
    shown, and the block of the indicators tab sets the failure message;
    when it is not asked for, nothing more is shown.  The events of the
    map are those of the run in which the archive is there.  The failure
    of any other call (the reading of the two local layers, the request
    or the reading of the zones, the construction of the table) is not
    caught: it ends the run. *)
Theorem C5_echec_get_arretes {I : Type} (literal_eval : atom → res pyval)
    (json_get : cell → string → res cell) (w : monde I)
    (session : option (option bool)) :
  (∀ e itineraire dept_iti zones_arretes,
     lire_itineraire w = Ok itineraire →
     lire_dept_iti w = Ok dept_iti →
     get_zones_secheresse json_get (lire_zones w) (requete_zones w) (uploaded_file w)
       = Ok zones_arretes →
     get_arretes (requete_arretes w) = Raise e →
     (run literal_eval json_get w session).2 = Ok tt
     ∧ journal (run literal_eval json_get w session).1
       = journal_chargement
         ++ [EvPrint e;
             EvStatus Principal "Echec du téléchargement des données des arrêtés";
             EvStatus Principal "Chargement des données...Terminé !"]
         ++ (if vrai session
             then journal_carte (construire_carte (today w) itineraire zones_arretes
                                                  dept_iti (uploaded_file w))
                  ++ [EvStatus Tab2 "Echec du téléchargement des données des arrêtés"]
             else [])
     ∧ EvTableIndic ∉ journal (run literal_eval json_get w session).1)
  ∧ (∀ e df,
       get_arretes (requete_arretes w) = Raise e →
       (run literal_eval json_get (avec_archive w df) session).2 = Ok tt →
       filter (λ ev, est_carte ev) (journal (run literal_eval json_get w session).1)
       = filter (λ ev, est_carte ev)
                (journal (run literal_eval json_get (avec_archive w df) session).1))
  ∧ (∀ e, lire_itineraire w = Raise e →
       (run literal_eval json_get w session).2 = Raise e)
  ∧ (∀ e itineraire,
       lire_itineraire w = Ok itineraire → lire_dept_iti w = Raise e →
       (run literal_eval json_get w session).2 = Raise e)
  ∧ (∀ e itineraire dept_iti,
       lire_itineraire w = Ok itineraire → lire_dept_iti w = Ok dept_iti →
       get_zones_secheresse json_get (lire_zones w) (requete_zones w) (uploaded_file w)
         = Raise e →
       (run literal_eval json_get w session).2 = Raise e)
  ∧ (∀ e, uploaded_file w = None → requete_zones w = Raise e →
       get_zones_secheresse json_get (lire_zones w) (requete_zones w) (uploaded_file w)
         = Raise e)
  ∧ (∀ e itineraire dept_iti zones_arretes df_arretes,
       lire_itineraire w = Ok itineraire → lire_dept_iti w = Ok dept_iti →
       get_zones_secheresse json_get (lire_zones w) (requete_zones w) (uploaded_file w)
         = Ok zones_arretes →
       get_arretes (requete_arretes w) = Ok df_arretes →
       lignes_arretes df_arretes ≠ [] →
       construire_table_indic literal_eval (today w) df_arretes zones_arretes dept_iti
         = Raise e →
       (run literal_eval json_get w session).2 = Raise e).
Proof.
  split; [|split; [|split; [|split; [|split; [|split]]]]].
  - intros e iti d zones Hi Hd Hz Ha.
    rewrite (run_archive_echec _ _ _ _ _ _ _ _ Hi Hd Hz Ha). cbn [fst snd journal].
    split; [reflexivity|]. split; [reflexivity|].
    unfold journal_chargement, journal_carte.
    intros H. destruct (vrai session); simpl in H;
      repeat (apply elem_of_cons in H as [H|H]; [discriminate H|]);
      by apply elem_of_nil in H.
  - intros e df Ha Hr.
    destruct (lire_itineraire w) as [iti|e1] eqn:Hi.
    2:{ rewrite (run_echec_itineraire _ _ (avec_archive w df) _ e1) in Hr by exact Hi.
        discriminate Hr. }
    destruct (lire_dept_iti w) as [d|e1] eqn:Hd.
    2:{ rewrite (run_echec_dept_iti _ _ (avec_archive w df) _ iti e1) in Hr
          by assumption.
        discriminate Hr. }
    destruct (get_zones_secheresse json_get (lire_zones w) (requete_zones w)
                (uploaded_file w)) as [z|e1] eqn:Hz.
    2:{ rewrite get_zones_secheresse_charger in Hz.
        destruct (charger_zones (lire_zones w) (requete_zones w) (uploaded_file w))
          as [[zones b]|e2] eqn:Hc; simpl in Hz.
        - rewrite (run_echec_filtrer_zones _ _ (avec_archive w df) _ iti d zones b e1)
            in Hr by assumption.
          discriminate Hr.
        - rewrite (run_echec_charger_zones _ _ (avec_archive w df) _ iti d e2)
            in Hr by assumption.
          discriminate Hr. }
    rewrite (run_archive_echec _ _ _ _ _ _ _ _ Hi Hd Hz Ha).
    set (df' := dropna_date_fin (read_csv df)).
    assert (get_arretes (requete_arretes (avec_archive w df)) = Ok df') as Ha'
      by reflexivity.
    destruct (lignes_arretes df') as [|r l] eqn:Hl.
    + rewrite (run_archive_vide _ _ (avec_archive w df) _ iti d z df')
        by assumption.
      cbn [fst snd journal today uploaded_file avec_archive].
      destruct (vrai session); reflexivity.
    + assert (lignes_arretes df' ≠ []) as Hne by (by rewrite Hl).
      destruct (construire_table_indic literal_eval (today w) df' z d) as [t|e1] eqn:Ht.
      * destruct (inserer_apres_construire _ _ _ _ _ _ Ht) as [textes Htx].
        rewrite (run_nominal _ _ (avec_archive w df) _ iti d z df' t textes)
          by assumption.
        cbn [fst snd journal today uploaded_file avec_archive].
        destruct (vrai session); reflexivity.
      * rewrite (run_echec_table _ _ (avec_archive w df) _ iti d z df' e1) in Hr
          by assumption.
        discriminate Hr.
  - intros e Hi. by rewrite (run_echec_itineraire _ _ _ _ e Hi).
  - intros e iti Hi Hd. by rewrite (run_echec_dept_iti _ _ _ _ iti e Hi Hd).
  - intros e iti d Hi Hd Hz. rewrite get_zones_secheresse_charger in Hz.
    destruct (charger_zones (lire_zones w) (requete_zones w) (uploaded_file w))
      as [[zones b]|e2] eqn:Hc; simpl in Hz.
    + by rewrite (run_echec_filtrer_zones _ _ _ _ iti d zones b e Hi Hd Hc Hz).
    + injection Hz as ->. by rewrite (run_echec_charger_zones _ _ _ _ iti d e Hi Hd Hc).
  - intros e -> ->. reflexivity.
  - intros e iti d zones df Hi Hd Hz Ha Hne Ht.
    by rewrite (run_echec_table _ _ _ _ iti d zones df e Hi Hd Hz Ha Hne Ht).
Qed.

Lemma C5_echec_get_arretes_witness :
  (run literal_eval_archive json_get_plat ex_monde_echec (Some (Some true))).2 = Ok tt
  ∧ last (journal (run literal_eval_archive json_get_plat ex_monde_echec
                       (Some (Some true))).1)
    = Some (EvStatus Tab2 "Echec du téléchargement des données des arrêtés")
  ∧ EvTableIndic ∉ journal (run literal_eval_archive json_get_plat ex_monde_echec
                                (Some (Some true))).1.
Proof.
  destruct (C5_echec_get_arretes literal_eval_archive json_get_plat ex_monde_echec
              (Some (Some true))) as [H _].
  destruct (H ConnectionError tt ex_dept_iti
              [Zone (Some 1%Z) (Some "SUP")
                    (Some (json_objet [("code", Some "2A"); ("nom", Some "Corse-du-Sud")]))
                    (Some (json_objet [("fichier", None)])) (Some "vigilance")
                    (Some "2A") None;
               Zone (Some 7%Z) (Some "SUP")
                    (Some (json_objet [("code", Some "59"); ("nom", Some "Nord")]))
                    (Some (json_objet [("fichier", Some "arrete_59.pdf")])) (Some "crise")
                    (Some "59") (Some "arrete_59.pdf")])
    as (Hr & Hj & Hn); try reflexivity.
  split; [exact Hr|]. split; [|exact Hn].
  rewrite Hj. reflexivity.
Defined.

(** C5 (as stated) fails: in the first run of a session the display is
    not asked for; when the request of the archive fails in such a run,
    nothing is written in the block of the indicators tab, and the last
    message is that of the end of the loading. *)
Lemma C5_counterexample :
  get_arretes (requete_arretes ex_monde_echec) = Raise ConnectionError
  ∧ (run literal_eval_archive json_get_plat ex_monde_echec None).2 = Ok tt
  ∧ filter (λ ev, dans_tab2 ev)
           (journal (run literal_eval_archive json_get_plat ex_monde_echec None).1) = []
  ∧ last (journal (run literal_eval_archive json_get_plat ex_monde_echec None).1)
    = Some (EvStatus Principal "Chargement des données...Terminé !").
Proof. repeat split; vm_compute; reflexivity. Qed.

(** * Further properties *)

(** ** More on the count of departments *)

Lemma filter_ext_elem {A} (P Q : A → Prop) `{!∀ x, Decision (P x)} `{!∀ x, Decision (Q x)}
    (l : list A) :
  (∀ x, x ∈ l → (P x ↔ Q x)) → filter P l = filter Q l.
Proof.
  induction l as [|x l IH]; intros Hl; [reflexivity|].
  rewrite !filter_cons. rewrite IH by (intros y Hy; apply Hl; by right).
  destruct (decide (P x)) as [HP|HP], (decide (Q x)) as [HQ|HQ]; try reflexivity.
  - exfalso. apply HQ, (Hl x); [left|assumption].
  - exfalso. apply HP, (Hl x); [left|assumption].
Qed.

Lemma valides_nil (df : list arrete) d :
  (∀ r, r ∈ df → ¬ valide_a d r) →
  filter (λ r, cell_gt (date_fin r) d) (filter (λ r, cell_lt (date_debut r) d) df) = [].
Proof.
  intros H. destruct (filter _ (filter _ df)) as [|r l] eqn:Hl; [reflexivity|].
  exfalso. assert (r ∈ filter (λ r, cell_gt (date_fin r) d)
                     (filter (λ r, cell_lt (date_debut r) d) df)) as Hr
    by (rewrite Hl; left).
  apply elem_of_valides in Hr as [Hr Hv]. by apply (H r).
Qed.

(** X1. When no arrêté of the archive is valid at the date, the list
    columns are not read, so that the rows outside the date range may
    hold anything in them: the count is 0 when the dates of the archive
    can be compared with the date, and the call raises TypeError when
    they cannot (a date column of the file holds no text). *)
Theorem X1_aucun_arrete_valide (literal_eval : atom → res pyval)
    (df_arretes : archive) (date_compar : string) (niveaux : list string) :
  (∀ r, r ∈ lignes_arretes df_arretes → ¬ valide_a date_compar r) →
  (dates_comparables df_arretes date_compar →
   calculer_dept_arretes_date literal_eval df_arretes date_compar niveaux = Ok 0%Z)
  ∧ (¬ dates_comparables df_arretes date_compar →
     calculer_dept_arretes_date literal_eval df_arretes date_compar niveaux
     = Raise TypeError).
Proof.
  intros H. split; [|apply calculer_dept_arretes_date_TypeError].
  intros Hc.
  rewrite calculer_dept_arretes_date_eq, (comparer_dates_Ok _ _ Hc), exploser_eq,
    (valides_nil _ _ H).
  reflexivity.
Qed.

Lemma X1_aucun_arrete_valide_witness :
  calculer_dept_arretes_date literal_eval_archive (read_csv ex_arretes_mal_apparie)
    "2030-01-01" ["crise"] = Ok 0%Z.
Proof.
  apply X1_aucun_arrete_valide.
  - intros r ->%list_elem_of_singleton [_ H]. exact H.
  - split; [reflexivity|]. intros _. reflexivity.
Defined.

Lemma bien_apparie_memes_valides literal_eval (df df' : list arrete) d :
  (∀ r, valide_a d r → (r ∈ df ↔ r ∈ df')) →
  bien_apparie literal_eval df d → bien_apparie literal_eval df' d.
Proof. intros H Hb r Hr Hv. apply Hb; [by apply H|assumption]. Qed.

Lemma departement_compte_memes_valides literal_eval (df df' : list arrete) d niveaux dep :
  (∀ r, valide_a d r → (r ∈ df ↔ r ∈ df')) →
  departement_compte literal_eval df d niveaux dep →
  departement_compte literal_eval df' d niveaux dep.
Proof.
  intros H (r & s & Hr & Hv & Hd & Hp & Hs). exists r, s.
  split; [by apply H|done].
Qed.

(** Two counts that name the same departments are equal. *)
Lemma memes_departements (deps deps' : list cell) :
  NoDup deps → NoDup deps' → (∀ dep, dep ∈ deps ↔ dep ∈ deps') →
  length deps = length deps'.
Proof. intros H1 H2 H. apply Permutation_length. by apply NoDup_Permutation. Qed.

(** X2. A count that is returned depends on the arrêtés valid at the
    date, as a set: it is returned again on every archive that has the
    same arrêtés valid at the date and whose dates can be compared with
    the date, whatever the order of the rows, the rows given twice and
    the rows that are not valid at the date. *)
Theorem X2_memes_arretes_valides (literal_eval : atom → res pyval)
    (df_arretes df_arretes' : archive) (date_compar : string)
    (niveaux : list string) (n : Z) :
  (∀ r, valide_a date_compar r →
        (r ∈ lignes_arretes df_arretes ↔ r ∈ lignes_arretes df_arretes')) →
  dates_comparables df_arretes' date_compar →
  calculer_dept_arretes_date literal_eval df_arretes date_compar niveaux = Ok n →
  calculer_dept_arretes_date literal_eval df_arretes' date_compar niveaux = Ok n.
Proof.
  intros H Hc' Hn.
  pose proof (calculer_dept_arretes_date_Ok_inv _ _ _ _ _ Hn) as [_ Hb].
  apply (bien_apparie_memes_valides _ _ _ _ H) in Hb.
  destruct (calculer_dept_arretes_date_total _ df_arretes' _ niveaux (conj Hc' Hb))
    as [n' Hn'].
  rewrite Hn'. f_equal.
  apply calculer_dept_arretes_date_compte in Hn as (deps & Hnd & Hdeps & ->).
  apply calculer_dept_arretes_date_compte in Hn' as (deps' & Hnd' & Hdeps' & ->).
  f_equal. apply memes_departements; try assumption.
  intros dep. rewrite Hdeps, Hdeps'. split.
  - apply departement_compte_memes_valides. intros r Hv. symmetry. by apply H.
  - by apply departement_compte_memes_valides.
Qed.

Lemma X2_memes_arretes_valides_witness :
  calculer_dept_arretes_date literal_eval_archive
    (read_csv [ex_arrete_59; ex_arrete_13; ex_arrete_13]) "2025-06-01" ["crise"]
  = Ok 1%Z.
Proof.
  apply (X2_memes_arretes_valides literal_eval_archive (read_csv ex_arretes));
    [| |reflexivity].
  - intros r _. simpl. unfold ex_arretes. rewrite !elem_of_cons, !elem_of_nil. tauto.
  - split; [reflexivity|]. intros _. reflexivity.
Defined.

(** A department counted for a list of levels is counted for every
    list that holds these levels. *)
Lemma departement_compte_niveaux literal_eval (df : list arrete) d nv nv' dep :
  (∀ s, s ∈ nv → s ∈ nv') →
  departement_compte literal_eval df d nv dep →
  departement_compte literal_eval df d nv' dep.
Proof.
  intros Hsub (r & s & Hr & Hv & Hd & Hp & Hs).
  exists r, s. split; [assumption|]. split; [assumption|]. split; [assumption|].
  split; [assumption|]. by apply Hsub.
Qed.

Lemma compte_niveaux_inclus literal_eval (df : archive) d nv nv' n n' :
  calculer_dept_arretes_date literal_eval df d nv = Ok n →
  calculer_dept_arretes_date literal_eval df d nv' = Ok n' →
  (∀ s, s ∈ nv → s ∈ nv') → (n ≤ n')%Z.
Proof.
  intros (deps & Hnd & Hdeps & ->)%calculer_dept_arretes_date_compte
         (deps' & Hnd' & Hdeps' & ->)%calculer_dept_arretes_date_compte Hsub.
  apply inj_le, submseteq_length, NoDup_submseteq; [assumption|].
  intros dep Hdep. apply Hdeps', (departement_compte_niveaux _ _ _ nv); [assumption|].
  by apply Hdeps.
Qed.

Lemma compte_niveaux_union literal_eval (df : archive) d nv nv' n n' m :
  calculer_dept_arretes_date literal_eval df d nv = Ok n →
  calculer_dept_arretes_date literal_eval df d nv' = Ok n' →
  calculer_dept_arretes_date literal_eval df d (nv ++ nv') = Ok m →
  (m ≤ n + n')%Z.
Proof.
  intros (deps & Hnd & Hdeps & ->)%calculer_dept_arretes_date_compte
         (deps' & Hnd' & Hdeps' & ->)%calculer_dept_arretes_date_compte
         (depsm & Hndm & Hdepsm & ->)%calculer_dept_arretes_date_compte.
  rewrite <- Nat2Z.inj_add, <- length_app.
  apply inj_le, submseteq_length, NoDup_submseteq; [assumption|].
  intros dep (r & s & Hr & Hv & Hd & Hp & Hs)%Hdepsm.
  apply elem_of_app. apply elem_of_app in Hs as [Hs|Hs].
  - left. apply Hdeps. exists r, s. done.
  - right. apply Hdeps'. exists r, s. done.
Qed.

(** X3. More levels never give a lesser count, and the count for two
    lists of levels together lies between the greater of the two counts
    and their sum. *)
Theorem X3_niveaux_croissant (literal_eval : atom → res pyval)
    (df_arretes : archive) (date_compar : string)
    (niveaux niveaux' : list string) (n n' : Z) :
  calculer_dept_arretes_date literal_eval df_arretes date_compar niveaux = Ok n →
  calculer_dept_arretes_date literal_eval df_arretes date_compar niveaux' = Ok n' →
  ((∀ s, s ∈ niveaux → s ∈ niveaux') → (n ≤ n')%Z)
  ∧ ∃ m, calculer_dept_arretes_date literal_eval df_arretes date_compar
           (niveaux ++ niveaux') = Ok m
         ∧ (n ≤ m)%Z ∧ (n' ≤ m)%Z ∧ (m ≤ n + n')%Z.
Proof.
  intros Hn Hn'.
  pose proof (calculer_dept_arretes_date_Ok_inv _ _ _ _ _ Hn) as Hb.
  destruct (calculer_dept_arretes_date_total _ _ _ (niveaux ++ niveaux') Hb) as [m Hm].
  split; [by apply (compte_niveaux_inclus _ _ _ _ _ _ _ Hn Hn')|].
  exists m. split; [exact Hm|]. split; [|split].
  - apply (compte_niveaux_inclus _ _ _ _ _ _ _ Hn Hm).
    intros s Hs. apply elem_of_app. by left.
  - apply (compte_niveaux_inclus _ _ _ _ _ _ _ Hn' Hm).
    intros s Hs. apply elem_of_app. by right.
  - by apply (compte_niveaux_union _ _ _ _ _ _ _ _ Hn Hn' Hm).
Qed.

Lemma X3_niveaux_croissant_witness :
  ∃ m, calculer_dept_arretes_date literal_eval_archive (read_csv ex_arretes) "2025-06-01"
         (["crise"] ++ ["alerte"]) = Ok m
       ∧ (1 ≤ m)%Z ∧ (0 ≤ m)%Z ∧ (m ≤ 1 + 0)%Z.
Proof.
  apply (X3_niveaux_croissant literal_eval_archive (read_csv ex_arretes) "2025-06-01"
           ["crise"] ["alerte"] 1 0); reflexivity.
Defined.

Lemma compte_borne literal_eval (df_arretes : archive) d niveaux n :
  let df := lignes_arretes df_arretes in
  calculer_dept_arretes_date literal_eval df_arretes d niveaux = Ok n →
  (0 ≤ n ≤ Z.of_nat (length (remove_dups (departement <$> df))))%Z
  ∧ (length (remove_dups (departement <$> df)) ≤ length df)%nat.
Proof.
  intros df (deps & Hnd & Hdeps & ->)%calculer_dept_arretes_date_compte.
  assert (length deps ≤ length (remove_dups (departement <$> df)))%nat as H1.
  { apply submseteq_length, NoDup_submseteq; [assumption|].
    intros dep (r & s & Hr & _ & <- & _)%Hdeps.
    apply elem_of_remove_dups, list_elem_of_fmap. eauto. }
  assert (length (remove_dups (departement <$> df)) ≤ length df)%nat as H2.
  { rewrite <- (length_fmap departement df).
    apply submseteq_length, NoDup_submseteq; [apply NoDup_remove_dups|].
    intros x. by rewrite elem_of_remove_dups. }
  lia.
Qed.

(** X4. The count is at least 0, at most the number of distinct values
    of [departement] in the archive, hence at most the number of rows. *)
Theorem X4_borne_departements (literal_eval : atom → res pyval)
    (df_arretes : archive) (date_compar : string) (niveaux : list string) (n : Z) :
  calculer_dept_arretes_date literal_eval df_arretes date_compar niveaux = Ok n →
  (0 ≤ n ≤ Z.of_nat (length (remove_dups
                               (departement <$> lignes_arretes df_arretes))))%Z
  ∧ (n ≤ Z.of_nat (length (lignes_arretes df_arretes)))%Z.
Proof.
  intros H%compte_borne. cbv zeta in H. lia.
Qed.

Lemma X4_borne_departements_witness :
  (0 ≤ 1 ≤ Z.of_nat (length (remove_dups (departement <$> ex_arretes))))%Z
  ∧ (1 ≤ Z.of_nat (length ex_arretes))%Z.
Proof.
  apply (X4_borne_departements literal_eval_archive (read_csv ex_arretes)
           "2025-06-01" ["crise"]).
  reflexivity.
Defined.

Lemma valides_avec_date_fin (df : list arrete) d :
  filter (λ r, cell_gt (date_fin r) d)
         (filter (λ r, cell_lt (date_debut r) d) (filter (λ r, is_Some (date_fin r)) df))
  = filter (λ r, cell_gt (date_fin r) d) (filter (λ r, cell_lt (date_debut r) d) df).
Proof.
  induction df as [|r df IH]; [reflexivity|].
  rewrite (filter_cons (λ r, is_Some (date_fin r))).
  destruct (decide (is_Some (date_fin r))) as [Hs|Hs].
  - rewrite !(filter_cons (λ r, cell_lt (date_debut r) d)).
    destruct (decide (cell_lt (date_debut r) d)); [|exact IH].
    rewrite !(filter_cons (λ r, cell_gt (date_fin r) d)).
    destruct (decide (cell_gt (date_fin r) d)); [|exact IH]. by rewrite IH.
  - rewrite IH. rewrite (filter_cons (λ r, cell_lt (date_debut r) d)).
    destruct (decide (cell_lt (date_debut r) d)); [|reflexivity].
    rewrite (filter_cons (λ r, cell_gt (date_fin r) d)).
    destruct (decide (cell_gt (date_fin r) d)) as [Hg|Hg]; [|reflexivity].
    exfalso. apply Hs. destruct (date_fin r); [eauto|destruct Hg].
Qed.

(** The dtype of a column read is [object] exactly when the file has no
    row or the column holds a text. *)
Lemma dtype_de_object (colonne : list cell) :
  dtype_de colonne = dt_object ↔ colonne = [] ∨ ∃ c, c ∈ colonne ∧ is_Some c.
Proof.
  unfold dtype_de. destruct colonne as [|c0 l]; [tauto|].
  destruct (forallb _ (c0 :: l)) eqn:Hf.
  - split; [discriminate|]. intros [[=]|(c & Hc & [x ->])].
    rewrite forallb_forall in Hf. rewrite list_elem_of_In in Hc.
    specialize (Hf _ Hc). by apply bool_decide_eq_true_1 in Hf.
  - split; [|reflexivity]. intros _. right.
    assert (¬ ∀ c, c ∈ c0 :: l → c = None) as Hn.
    { intros Hall. assert (forallb (λ c : cell, bool_decide (c = None)) (c0 :: l) = true)
        as Ht; [|congruence].
      apply forallb_forall. intros c Hc%list_elem_of_In.
      apply bool_decide_eq_true_2. by apply Hall. }
    clear Hf. induction (c0 :: l) as [|c l' IH].
    + exfalso. apply Hn. intros c Hc. by apply elem_of_nil in Hc.
    + destruct c as [x|].
      * exists (Some x). split; [left|eauto].
      * destruct IH as (c & Hc & Hs).
        { intros Hall. apply Hn. intros c [->|Hc]%elem_of_cons; [reflexivity|].
          by apply Hall. }
        exists c. split; [by right|assumption].
Qed.

(** X5. [get_arretes] returns rows that all have a [date_fin], and
    dropping again changes nothing.  A count that is returned on the
    archive as it was read is returned on what [get_arretes] returns.
    When the file has no row, or has an arrêté with a [date_fin], every
    count on what is returned is the one taken on the archive as it was
    read, exceptions included.  (In a file with rows of which none has a
    [date_fin], the column is float64: the frame returned is empty and
    the comparison of [date_fin], which raises on the archive as read,
    is not made.) *)
Theorem X5_get_arretes_date_fin (literal_eval : atom → res pyval)
    (requete_arretes : res (list arrete)) (df_arretes : archive) :
  get_arretes requete_arretes = Ok df_arretes →
  (∀ r, r ∈ lignes_arretes df_arretes → is_Some (date_fin r))
  ∧ dropna_date_fin df_arretes = df_arretes
  ∧ ∃ lu, requete_arretes = Ok lu
          ∧ (∀ date_compar niveaux n,
               calculer_dept_arretes_date literal_eval (read_csv lu) date_compar niveaux
               = Ok n →
               calculer_dept_arretes_date literal_eval df_arretes date_compar niveaux
               = Ok n)
          ∧ (lu = [] ∨ (∃ r, r ∈ lu ∧ is_Some (date_fin r)) →
             ∀ date_compar niveaux,
               calculer_dept_arretes_date literal_eval df_arretes date_compar niveaux
               = calculer_dept_arretes_date literal_eval (read_csv lu) date_compar
                   niveaux).
Proof.
  intros (lu & -> & ->)%get_arretes_Ok. split; [|split].
  - intros r Hr. by apply list_elem_of_filter in Hr as [? _].
  - unfold dropna_date_fin. simpl. by rewrite filter_filter_idem.
  - exists lu. split; [reflexivity|].
    assert (∀ d, exploser literal_eval (lignes_arretes (dropna_date_fin (read_csv lu))) d
                 = exploser literal_eval (lignes_arretes (read_csv lu)) d) as HE.
    { intros d. simpl. by rewrite !exploser_eq, valides_avec_date_fin. }
    split.
    + intros d niveaux n (Hc & E & HEx & ->)%calculer_dept_arretes_date_Ok_iff.
      apply calculer_dept_arretes_date_Ok_iff. split.
      * destruct Hc as [Hd Hf]. split; [exact Hd|].
        intros (r & Hr & Hlt). apply Hf. exists r. split; [|exact Hlt].
        simpl in Hr. by apply list_elem_of_filter in Hr as [_ ?].
      * exists E. by rewrite HE.
    + intros Hlu d niveaux.
      assert (dtype_date_fin (read_csv lu) = dt_object) as Hfin.
      { simpl. apply dtype_de_object. destruct Hlu as [->|(r & Hr & Hs)]; [by left|].
        right. exists (date_fin r). split; [|exact Hs]. apply list_elem_of_fmap. eauto. }
      rewrite !calculer_dept_arretes_date_eq, HE. f_equal.
      unfold comparer_dates. simpl dtype_date_debut. simpl dtype_date_fin.
      simpl in Hfin. rewrite Hfin.
      destruct (dtype_de (date_debut <$> lu)); simpl; [|reflexivity].
      by do 2 destruct (empty_df _).
Qed.

Lemma X5_get_arretes_date_fin_witness :
  get_arretes (Ok (ex_arrete_sans_fin :: ex_arretes))
  = Ok (dropna_date_fin (read_csv (ex_arrete_sans_fin :: ex_arretes)))
  ∧ calculer_dept_arretes_date literal_eval_archive
      (dropna_date_fin (read_csv (ex_arrete_sans_fin :: ex_arretes)))
      "2025-06-01" ["crise"]
    = calculer_dept_arretes_date literal_eval_archive
        (read_csv (ex_arrete_sans_fin :: ex_arretes)) "2025-06-01" ["crise"].
Proof.
  split; [reflexivity|].
  destruct (X5_get_arretes_date_fin literal_eval_archive
              (Ok (ex_arrete_sans_fin :: ex_arretes))
              (dropna_date_fin (read_csv (ex_arrete_sans_fin :: ex_arretes))))
    as (_ & _ & lu & Hlu & _ & H); [reflexivity|].
  injection Hlu as <-. apply H. right. exists ex_arrete_13.
  split; [right; left|]. by eexists.
Defined.

Lemma retenir_niveaux (E : list arrete) niveaux niveaux' :
  (∀ r s, r ∈ E → zones_alerte_type r = AStr "SUP" →
          zones_alerte_niveau_gravite r = AStr s → (s ∈ niveaux ↔ s ∈ niveaux')) →
  retenir E niveaux = retenir E niveaux'.
Proof.
  intros H. rewrite !retenir_filter. apply filter_ext_elem.
  intros r [Hsup Hr]%list_elem_of_filter.
  apply bool_decide_unpack in Hsup.
  rewrite !isin_AStr. split; intros (s & Hs & Hin); exists s;
    (split; [assumption|]); by apply (H r s Hr Hsup Hs).
Qed.

(** X6. The count of the year before searches the level under the text
    'alerte renforcée'.  On an archive where no valid zone of type 'SUP'
    carries this text (the layer and the counts of the month before
    write 'alerte_renforcee') it is the count of the levels 'alerte' and
    'crise' alone. *)
Theorem X6_an_passe_alerte_crise (literal_eval : atom → res pyval) (today : date)
    (df_arretes : archive) :
  (∀ r, r ∈ lignes_arretes df_arretes → valide_a (isoformat (date_an_passe today)) r →
        ¬ paire literal_eval r (AStr "alerte renforcée") (AStr "SUP")) →
  calculer_dept_arretes_an_passe literal_eval today df_arretes
  = calculer_dept_arretes_date literal_eval df_arretes
      (isoformat (date_an_passe today)) ["alerte"; "crise"].
Proof.
  intros H. unfold calculer_dept_arretes_an_passe. fold (date_an_passe today).
  rewrite !calculer_dept_arretes_date_eq.
  destruct (comparer_dates df_arretes (isoformat (date_an_passe today))) as [[]|e];
    [|reflexivity].
  simpl.
  destruct (exploser literal_eval (lignes_arretes df_arretes)
              (isoformat (date_an_passe today))) as [E|e] eqn:HE; [|reflexivity].
  simpl. do 2 f_equal. apply retenir_niveaux.
  intros x s Hx Hsup Hs.
  apply (exploser_elem _ _ _ _ HE) in Hx as (r & n & t & Hr & Hv & Hp & ->).
  simpl in *. subst n t.
  rewrite !elem_of_cons, !elem_of_nil. split; [|tauto].
  intros [->|[->|[->|[]]]]; [tauto| |tauto].
  exfalso. by apply (H r Hr Hv).
Qed.

Lemma X6_an_passe_alerte_crise_witness :
  calculer_dept_arretes_an_passe literal_eval_archive ex_today (read_csv [ex_arrete_ar])
  = calculer_dept_arretes_date literal_eval_archive (read_csv [ex_arrete_ar])
      (isoformat (date_an_passe ex_today)) ["alerte"; "crise"]
  ∧ calculer_dept_arretes_an_passe literal_eval_archive ex_today (read_csv [ex_arrete_ar])
    = Ok 0%Z
  ∧ calculer_dept_arretes_date literal_eval_archive (read_csv [ex_arrete_ar])
      (isoformat (date_an_passe ex_today)) ["alerte"; "alerte_renforcee"; "crise"]
    = Ok 1%Z.
Proof.
  split; [|split; reflexivity].
  apply X6_an_passe_alerte_crise.
  intros r ->%list_elem_of_singleton _ (vn & vt & i & Hn & Ht & Hi & Hj).
  injection Hn as <-. destruct i as [|i]; [discriminate Hi|]. destruct i; discriminate Hi.
Defined.

(** ** More on the layer of zones *)

Lemma dissolve_ids (df : list zone_brute) :
  zb_id <$> dissolve df = Some <$> merge_sort Z.le (remove_dups (omap zb_id df)).
Proof.
  unfold dissolve. rewrite <- list_fmap_compose. apply list_fmap_ext.
  intros i k _. reflexivity.
Qed.

Lemma length_remove_dups_le {A} `{EqDecision A} (l : list A) :
  (length (remove_dups l) ≤ length l)%nat.
Proof.
  apply submseteq_length, NoDup_submseteq; [apply NoDup_remove_dups|].
  intros x. by rewrite elem_of_remove_dups.
Qed.

Lemma length_omap_le {A B} (f : A → option B) (l : list A) :
  (length (omap f l) ≤ length l)%nat.
Proof. induction l as [|x l IH]; csimpl; [lia|]. destruct (f x); csimpl; lia. Qed.

Lemma length_dissolve (df : list zone_brute) : (length (dissolve df) ≤ length df)%nat.
Proof.
  rewrite <- (length_fmap zb_id (dissolve df)), dissolve_ids, length_fmap.
  rewrite merge_sort_Permutation.
  etransitivity; [apply length_remove_dups_le|apply length_omap_le].
Qed.

(** [dissolve] gives one row for each [id] of the layer: the [id]s
    of its rows are those of the layer, without the missing ones, each
    once and in increasing order; there are no more rows than before. *)
Lemma dissolve_un_par_id (df : list zone_brute) :
  NoDup (zb_id <$> dissolve df)
  ∧ Sorted Z.le (omap zb_id (dissolve df))
  ∧ (∀ i, i ∈ zb_id <$> dissolve df ↔ ∃ k, i = Some k ∧ Some k ∈ zb_id <$> df)
  ∧ (length (dissolve df) ≤ length df)%nat.
Proof.
  assert (omap zb_id (dissolve df) = merge_sort Z.le (remove_dups (omap zb_id df))) as Ho.
  { unfold dissolve. induction (merge_sort _ _) as [|k l IH]; [reflexivity|].
    simpl. f_equal. exact IH. }
  split; [|split; [|split]].
  - rewrite dissolve_ids. apply NoDup_fmap_2; [apply _|].
    rewrite merge_sort_Permutation. apply NoDup_remove_dups.
  - rewrite Ho. apply Sorted_merge_sort. apply _.
  - intros i. rewrite dissolve_ids, list_elem_of_fmap. split.
    + intros (k & -> & Hk). exists k. split; [reflexivity|].
      rewrite merge_sort_Permutation, elem_of_remove_dups, list_elem_of_omap in Hk.
      destruct Hk as (r & Hr & Hid). apply list_elem_of_fmap. eauto.
    + intros (k & -> & (r & Hid & Hr)%list_elem_of_fmap). exists k.
      split; [reflexivity|].
      rewrite merge_sort_Permutation, elem_of_remove_dups, list_elem_of_omap. eauto.
  - apply length_dissolve.
Qed.

(** The three passes of [filtrer_zones] on a layer. *)
Lemma filtrer_zones_passes json_get zones_arretes traiter_pmtiles out :
  filtrer_zones json_get zones_arretes traiter_pmtiles = Ok out ↔
  ∃ avec_code gardes,
    Forall2 (λ r rc, json_get (zb_departement r) "code" = Ok rc.2 ∧ rc.1 = r)
            (zones_sup zones_arretes traiter_pmtiles) avec_code
    ∧ Forall2 (λ (rc : zone_brute * cell) rcb, code_court rc.2 = Ok rcb.2 ∧ rcb.1 = rc)
              avec_code gardes
    ∧ Forall2 (λ (rc : zone_brute * cell) z,
                 ∃ fichier, json_get (zb_arreteRestriction rc.1) "fichier" = Ok fichier
                   ∧ z = Zone (zb_id rc.1) (zb_type rc.1) (zb_departement rc.1)
                              (zb_arreteRestriction rc.1) (zb_niveauGravite rc.1)
                              rc.2 fichier)
              (filter (λ rc : zone_brute * cell, is_Some rc.2)
                      (filter (λ rcb : zone_brute * cell * bool, rcb.2 = true) gardes).*1)
              out.
Proof.
  unfold filtrer_zones. fold (zones_sup zones_arretes traiter_pmtiles). split.
  - destruct (mapM _ (zones_sup _ _)) as [avec_code|e] eqn:H1; simpl; [|discriminate].
    destruct (mapM _ avec_code) as [gardes|e] eqn:H2; simpl; [|discriminate].
    intros H3. exists avec_code, gardes.
    apply mapM_res_Ok in H1. apply mapM_res_Ok in H2. apply mapM_res_Ok in H3.
    split; [|split].
    + eapply Forall2_impl; [exact H1|]. intros r rc. simpl.
      destruct (json_get _ _); simpl; [|discriminate]. by intros [= <-].
    + eapply Forall2_impl; [exact H2|]. intros rc rcb. simpl.
      destruct (code_court _); simpl; [|discriminate]. by intros [= <-].
    + eapply Forall2_impl; [exact H3|]. intros rc z. simpl.
      destruct (json_get _ _) as [f|]; simpl; [|discriminate]. intros [= <-]. eauto.
  - intros (avec_code & gardes & H1 & H2 & H3).
    assert (mapM (λ r, code ← json_get (zb_departement r) "code"; mret (r, code))
                 (zones_sup zones_arretes traiter_pmtiles) = Ok avec_code) as ->.
    { apply mapM_res_Ok. eapply Forall2_impl; [exact H1|].
      intros r [r' c] [Hc Hr]. simpl in *. subst. by rewrite Hc. }
    simpl.
    assert (mapM (λ rc : zone_brute * cell, b ← code_court rc.2; mret (rc, b))
                 avec_code = Ok gardes) as ->.
    { apply mapM_res_Ok. eapply Forall2_impl; [exact H2|].
      intros rc [rc' b] [Hc Hr]. simpl in *. subst. by rewrite Hc. }
    simpl. apply mapM_res_Ok. eapply Forall2_impl; [exact H3|].
    intros rc z (f & Hf & ->). simpl. by rewrite Hf.
Qed.

Lemma filtrer_zones_lignes (json_get : cell → string → res cell)
    (zones_arretes : list zone_brute) (traiter_pmtiles : bool) (out : list zone) :
  filtrer_zones json_get zones_arretes traiter_pmtiles = Ok out ↔
  ∃ l, Forall2 (λ r o, zone_de json_get r = Ok o)
               (zones_sup zones_arretes traiter_pmtiles) l
       ∧ out = omap id l.
Proof.
  rewrite filtrer_zones_passes.
  generalize (zones_sup zones_arretes traiter_pmtiles). intros l0. split.
  - intros (avec_code & gardes & H1 & H2 & H3).
    revert gardes out H2 H3.
    induction H1 as [|r [r' c] l0 avec [Hc Hr] _ IH]; intros gardes out H2 H3.
    + inversion H2; subst. inversion H3; subst. exists []. split; constructor.
    + simpl in Hc, Hr. subst r'.
      inversion H2 as [|? [rc b] ? gardes' [Hb Hrc] H2']; subst.
      simpl in Hb, Hrc. subst rc. simpl in Hb.
      rewrite fmap_cons in H3 || idtac.
      destruct b.
      * rewrite filter_cons_True in H3 by reflexivity. rewrite fmap_cons in H3.
        simpl in H3.
        assert (is_Some c) as Hsome.
        { destruct c; [eauto|discriminate Hb]. }
        rewrite filter_cons_True in H3 by exact Hsome.
        inversion H3 as [|? z ? out' (f & Hf & ->) H3']; subst. simpl in Hf.
        destruct (IH _ _ H2' H3') as (l & Hl & ->).
        exists (Some (Zone (zb_id r) (zb_type r) (zb_departement r)
                           (zb_arreteRestriction r) (zb_niveauGravite r) c f) :: l).
        split; [|reflexivity]. constructor; [|exact Hl].
        unfold zone_de. rewrite Hc. simpl. rewrite Hb. simpl. rewrite Hf. reflexivity.
      * rewrite filter_cons_False in H3 by discriminate.
        destruct (IH _ _ H2' H3) as (l & Hl & ->).
        exists (None :: l). split; [|reflexivity]. constructor; [|exact Hl].
        unfold zone_de. rewrite Hc. simpl. rewrite Hb. reflexivity.
  - intros (l & Hl & ->).
    induction Hl as [|r o l0 l Hr _ (avec & gardes & H1 & H2 & H3)].
    + exists [], []. repeat split; constructor.
    + unfold zone_de in Hr.
      destruct (json_get (zb_departement r) "code") as [c|] eqn:Hc; simpl in Hr;
        [|discriminate].
      destruct (code_court c) as [b|] eqn:Hb; simpl in Hr; [|discriminate].
      exists ((r, c) :: avec), ((r, c, b) :: gardes).
      split; [by constructor|]. split; [by constructor|].
      destruct b.
      * destruct (json_get (zb_arreteRestriction r) "fichier") as [f|] eqn:Hf;
          simpl in Hr; [|discriminate].
        injection Hr as <-.
        rewrite filter_cons_True by reflexivity. rewrite fmap_cons. simpl.
        rewrite filter_cons_True by (destruct c; [eauto|discriminate Hb]).
        constructor; [|exact H3]. exists f. done.
      * injection Hr as <-. rewrite filter_cons_False by discriminate. exact H3.
Qed.

(** X7. [get_zones_secheresse] treats the layer in three passes (the
    codes, their lengths, the files); it returns a layer exactly when
    each row of type 'SUP' can be treated on its own, and the layer is
    then made, in the order of the rows, of those whose code is shorter
    than three characters.  For an uploaded file the [id]s of the layer
    are taken to be held exactly by float64 (absolute value at most
    2^53), since [DataFrame.where] turns the column into float64 when it
    masks a row; the merged tiles have [id] as index, which is kept. *)
Theorem X7_filtrer_zones_par_ligne (json_get : cell → string → res cell)
    (zones_arretes : list zone_brute) (traiter_pmtiles : bool) (out : list zone) :
  traiter_pmtiles = true ∨ ids_exacts zones_arretes →
  filtrer_zones json_get zones_arretes traiter_pmtiles = Ok out ↔
  ∃ l, Forall2 (λ r o, zone_de json_get r = Ok o)
               (zones_sup zones_arretes traiter_pmtiles) l
       ∧ out = omap id l.
Proof. intros _. apply filtrer_zones_lignes. Qed.

Lemma X7_filtrer_zones_par_ligne_witness :
  ∃ out, filtrer_zones json_get_plat ex_zones_brutes false = Ok out
         ∧ ∃ l, Forall2 (λ r o, zone_de json_get_plat r = Ok o)
                        (zones_sup ex_zones_brutes false) l
                ∧ out = omap id l.
Proof.
  eexists. split; [reflexivity|].
  apply X7_filtrer_zones_par_ligne; [|reflexivity].
  right. intros r k Hr Hk. unfold ex_zones_brutes in Hr.
  rewrite !elem_of_cons, elem_of_nil in Hr.
  destruct Hr as [-> | [-> | [-> | [-> | [-> | []]]]]]; injection Hk as <-;
    by vm_compute.
Defined.

Lemma zone_de_Ok json_get r :
  (∃ o, zone_de json_get r = Ok o) ↔ code_lisible json_get r.
Proof.
  unfold zone_de, code_lisible. split.
  - intros [o Ho].
    destruct (json_get (zb_departement r) "code") as [[s|]|]; simpl in Ho;
      try discriminate.
    exists s. split; [reflexivity|]. intros Hs%Nat.ltb_lt. rewrite Hs in Ho.
    destruct (json_get (zb_arreteRestriction r) "fichier"); [eauto|discriminate].
  - intros (s & -> & Hf). simpl. destruct (String.length s <? 3)%nat eqn:Hs.
    + destruct Hf as [f ->]; [by apply Nat.ltb_lt|]. simpl. eauto.
    + eauto.
Qed.

(** X8. The errors of [get_zones_secheresse] after the reading: a layer
    is returned exactly when every row of type 'SUP' has a JSON
    [departement] whose 'code' is a string and, if this code is short, a
    JSON [arreteRestriction] with a 'fichier'.  A null or unreadable code
    in any such row raises, even overseas; the file of an overseas zone
    and the columns of the rows of another type are not read.  The layer
    returned has at most as many rows as the layer read. *)
Theorem X8_filtrer_zones_erreurs (json_get : cell → string → res cell)
    (zones_arretes : list zone_brute) (traiter_pmtiles : bool) :
  ((∃ out, filtrer_zones json_get zones_arretes traiter_pmtiles = Ok out)
   ↔ ∀ r, r ∈ zones_sup zones_arretes traiter_pmtiles → code_lisible json_get r)
  ∧ (∀ out, filtrer_zones json_get zones_arretes traiter_pmtiles = Ok out →
       (length out ≤ length zones_arretes)%nat).
Proof.
  split; [split|].
  - intros [out (l & Hl & _)%filtrer_zones_lignes] r Hr.
    destruct (Forall2_elem_of_l _ _ _ _ Hl Hr) as (o & _ & Ho).
    apply zone_de_Ok. eauto.
  - intros H.
    destruct (Forall2_exists (λ r o, zone_de json_get r = Ok o) (λ _, True)
                (zones_sup zones_arretes traiter_pmtiles)) as (l & Hl & _).
    { intros r Hr. destruct (proj2 (zone_de_Ok json_get r) (H r Hr)) as [o Ho]. eauto. }
    exists (omap id l). apply filtrer_zones_lignes. eauto.
  - intros out (l & Hl & ->)%filtrer_zones_lignes.
    etransitivity; [apply length_omap_le|].
    rewrite <- (Forall2_length _ _ _ Hl). unfold zones_sup.
    destruct traiter_pmtiles.
    + etransitivity; [apply length_dissolve|apply length_filter].
    + apply length_filter.
Qed.

(** ** The counts on the current layer *)

Lemma cell_ne_spec (c : cell) s : cell_ne c s ↔ c ≠ Some s.
Proof.
  destruct c as [s'|]; simpl.
  - destruct (decide (s' = s)) as [->|Hne].
    + rewrite bool_decide_eq_true_2 by reflexivity. simpl. split; [intros []|congruence].
    + rewrite bool_decide_eq_false_2 by assumption. simpl. split; [congruence|done].
  - split; [discriminate|done].
Qed.

Lemma cell_eq_spec (c : cell) s : cell_eq c s ↔ c = Some s.
Proof.
  destruct c as [s'|]; simpl.
  - rewrite bool_decide_spec. split; congruence.
  - split; [intros []|discriminate].
Qed.

Lemma calculer_dept_zone_restrict_eq (zones_arretes : list zone) :
  calculer_dept_zone_restrict zones_arretes
  = Z.of_nat (length (remove_dups
      (insee_dept <$> filter (λ z, cell_ne (niveauGravite z) "vigilance") zones_arretes))).
Proof.
  unfold calculer_dept_zone_restrict.
  destruct (filter _ zones_arretes); reflexivity.
Qed.

(** X9. [calculer_dept_zone_restrict] is the number of distinct codes
    of department among the zones whose level is not 'vigilance', a zone
    without level being counted.  It is 0 exactly when every zone is at
    the level 'vigilance', and never more than the number of zones. *)
Theorem X9_calculer_dept_zone_restrict (zones_arretes : list zone) :
  (∃ deps : list cell,
     NoDup deps
     ∧ (∀ d, d ∈ deps ↔
          ∃ z, z ∈ zones_arretes ∧ niveauGravite z ≠ Some "vigilance" ∧ insee_dept z = d)
     ∧ calculer_dept_zone_restrict zones_arretes = Z.of_nat (length deps))
  ∧ (calculer_dept_zone_restrict zones_arretes = 0%Z
     ↔ ∀ z, z ∈ zones_arretes → niveauGravite z = Some "vigilance")
  ∧ (0 ≤ calculer_dept_zone_restrict zones_arretes ≤ Z.of_nat (length zones_arretes))%Z.
Proof.
  rewrite calculer_dept_zone_restrict_eq.
  set (l := filter (λ z, cell_ne (niveauGravite z) "vigilance") zones_arretes).
  assert (∀ z, z ∈ l ↔ z ∈ zones_arretes ∧ niveauGravite z ≠ Some "vigilance") as Hl.
  { intros z. unfold l. rewrite list_elem_of_filter, cell_ne_spec. tauto. }
  split; [|split].
  - exists (remove_dups (insee_dept <$> l)). split; [apply NoDup_remove_dups|].
    split; [|reflexivity]. intros d. rewrite elem_of_remove_dups, list_elem_of_fmap.
    split.
    + intros (z & -> & Hz). exists z. apply Hl in Hz. tauto.
    + intros (z & Hz & Hn & <-). exists z. split; [reflexivity|]. apply Hl. tauto.
  - split.
    + intros H z Hz. destruct (decide (niveauGravite z = Some "vigilance")) as [|Hn];
        [assumption|exfalso].
      assert (insee_dept z ∈ remove_dups (insee_dept <$> l)) as Hin.
      { apply elem_of_remove_dups, list_elem_of_fmap. exists z. split; [reflexivity|].
        apply Hl. tauto. }
      destruct (remove_dups (insee_dept <$> l)); [by apply elem_of_nil in Hin|].
      discriminate H.
    + intros H. destruct l as [|z l']; [reflexivity|exfalso].
      assert (z ∈ z :: l') as Hz by left.
      apply Hl in Hz as [Hz Hn]. by apply Hn, H.
  - split; [lia|]. apply inj_le.
    etransitivity; [apply length_remove_dups_le|].
    rewrite length_fmap. apply length_filter.
Qed.

Lemma calculer_dept_zone_vnf_niveau_eq (zones_arretes : list zone)
    (dept_iti : list dept) (niveau : string) :
  let dept_resultat :=
    filter (λ d, insee_dep d ∈
                 insee_dept <$> filter (λ z, niveauGravite z = Some niveau) zones_arretes)
           dept_iti in
  calculer_dept_zone_vnf_niveau zones_arretes dept_iti niveau
  = (Z.of_nat (length dept_resultat), String.concat ", " (nom <$> dept_resultat)).
Proof.
  intros dept_resultat. subst dept_resultat. unfold calculer_dept_zone_vnf_niveau.
  assert (filter (λ z, cell_eq (niveauGravite z) niveau) zones_arretes
          = filter (λ z, niveauGravite z = Some niveau) zones_arretes) as ->.
  { apply list_filter_iff. intros z. apply cell_eq_spec. }
  set (Z0 := filter (λ z, niveauGravite z = Some niveau) zones_arretes).
  assert (filter (λ d, insee_dep d ∈ remove_dups (insee_dept <$> Z0)) dept_iti
          = filter (λ d, insee_dep d ∈ insee_dept <$> Z0) dept_iti) as ->.
  { apply list_filter_iff. intros d. by rewrite elem_of_remove_dups. }
  destruct Z0 as [|z l].
  - simpl. assert (filter (λ d, insee_dep d ∈ @nil cell) dept_iti = []) as ->;
      [|reflexivity].
    induction dept_iti as [|d dept_iti IH]; [reflexivity|].
    rewrite filter_cons_False; [exact IH|]. apply not_elem_of_nil.
  - set (D := filter (λ d, insee_dep d ∈ insee_dept <$> z :: l) dept_iti).
    change (empty_df (z :: l)) with false. cbv iota.
    destruct D; reflexivity.
Qed.

(** X10. [calculer_dept_zone_vnf_niveau] returns the number and the
    names, joined by ", " in the order of the layer, of the rows of the
    VNF departments whose code is the code of a zone at the level asked
    for.  The number is never more than the number of VNF departments; it
    is 0, and the names are empty, exactly when no VNF department has a
    zone at that level. *)
Theorem X10_calculer_dept_zone_vnf_niveau (zones_arretes : list zone)
    (dept_iti : list dept) (niveau : string) :
  let resultat := calculer_dept_zone_vnf_niveau zones_arretes dept_iti niveau in
  (∃ dept_resultat,
     dept_resultat `sublist_of` dept_iti
     ∧ (∀ d, d ∈ dept_resultat ↔
          d ∈ dept_iti
          ∧ ∃ z, z ∈ zones_arretes ∧ niveauGravite z = Some niveau
                 ∧ insee_dept z = insee_dep d)
     ∧ resultat = (Z.of_nat (length dept_resultat),
                   String.concat ", " (nom <$> dept_resultat)))
  ∧ (0 ≤ resultat.1 ≤ Z.of_nat (length dept_iti))%Z
  ∧ (resultat.1 = 0%Z
     ↔ ∀ d z, d ∈ dept_iti → z ∈ zones_arretes → niveauGravite z = Some niveau →
              insee_dept z ≠ insee_dep d)
  ∧ (resultat.1 = 0%Z → resultat.2 = "").
Proof.
  intros resultat. subst resultat. rewrite calculer_dept_zone_vnf_niveau_eq.
  set (D := filter _ dept_iti).
  assert (∀ d, d ∈ D ↔
            d ∈ dept_iti
            ∧ ∃ z, z ∈ zones_arretes ∧ niveauGravite z = Some niveau
                   ∧ insee_dept z = insee_dep d) as HD.
  { intros d. unfold D. rewrite list_elem_of_filter, list_elem_of_fmap. split.
    - intros [(z & Hc & Hz) Hd]. apply list_elem_of_filter in Hz as [Hn Hz]. eauto 6.
    - intros [Hd (z & Hz & Hn & Hc)]. split; [|assumption].
      exists z. split; [done|]. by apply list_elem_of_filter. }
  simpl. split; [|split; [|split]].
  - exists D. split; [apply sublist_filter|done].
  - split; [lia|]. apply inj_le, length_filter.
  - split.
    + intros H d z Hd Hz Hn Hc. destruct D as [|d' D']; [|discriminate H].
      assert (d ∈ @nil dept) as Hin; [|by apply elem_of_nil in Hin].
      apply HD. eauto 6.
    + intros H. destruct D as [|d D']; [reflexivity|exfalso].
      assert (d ∈ d :: D') as Hin by left.
      apply HD in Hin as (Hd & z & Hz & Hn & Hc). by apply (H d z).
  - intros H. destruct D; [reflexivity|discriminate H].
Qed.

(** ** The table and its display *)

Lemma ecrire_ecart_cas (c : case) (d : Z) (libelle : string) :
  (d = 0%Z → ecrire_ecart c d libelle
             = [(c, "nombre de départements identique par rapport au mois dernier")])
  ∧ ((0 < d)%Z → ecrire_ecart c d libelle = [(c, "# \+ " +:+ pretty d); (c, libelle)])
  ∧ ((d < 0)%Z → ecrire_ecart c d libelle = [(c, "# \- " +:+ pretty (- d)%Z); (c, libelle)]).
Proof.
  unfold ecrire_ecart, _signe_devant. split; [|split].
  - intros ->. reflexivity.
  - intros H. rewrite (proj2 (Z.ltb_lt 0 d) H).
    destruct (Z.ltb_spec d 0); [lia|]. rewrite Z.abs_eq by lia. reflexivity.
  - intros H. rewrite (proj2 (Z.ltb_lt d 0) H).
    rewrite Z.abs_neq by lia. destruct (0 <? d)%Z; reflexivity.
Qed.

Lemma length_ecrire_ecart c d libelle :
  (1 ≤ length (ecrire_ecart c d libelle) ≤ 2)%nat.
Proof.
  unfold ecrire_ecart. destruct (bool_decide _); simpl; lia.
Qed.

(** X11. [inserer_indic_dept] raises nothing on a table returned by
    [construire_table_indic]: every cell it reads is there with the type
    it needs.  It writes between 20 and 25 texts; the first is the number
    of departments beyond vigilance of the current layer, and the line
    of the year before ends with ' en 2024' whatever the date of the
    run. *)
Theorem X11_inserer_indic_dept_table (literal_eval : atom → res pyval) (today : date)
    (df_arretes : archive) (zones_arretes : list zone) (dept_iti : list dept)
    (t : dataframe) :
  construire_table_indic literal_eval today df_arretes zones_arretes dept_iti = Ok t →
  ∃ textes n,
    inserer_indic_dept t = Ok textes
    ∧ (20 ≤ length textes ≤ 25)%nat
    ∧ head textes
      = Some (Ligne1 0, "# :grey-background["
                        +:+ pretty (calculer_dept_zone_restrict zones_arretes) +:+ "]")
    ∧ calculer_dept_arretes_an_passe literal_eval today df_arretes = Ok n
    ∧ (Ligne1 0, ":grey-background[" +:+ pretty n +:+ " en 2024]") ∈ textes
    ∧ (LigneVnf 0, "Sur le réseau VNF uniquement :") ∈ textes.
Proof.
  intros (n & m0 & m1 & m2 & m3 & m4 & Hn & _ & _ & _ & _ & _ & ->)%construire_table_indic_inv.
  eexists. exists n. split; [apply inserer_indic_dept_table_de|].
  split; [|split; [reflexivity|split; [exact Hn|]]].
  - unfold textes_indic. rewrite !length_app. simpl.
    repeat match goal with
    | |- context [length (ecrire_ecart ?c ?d ?l)] =>
        let H := fresh in
        pose proof (length_ecrire_ecart c d l) as H;
        generalize dependent (length (ecrire_ecart c d l)); intros
    end.
    lia.
  - unfold textes_indic. split.
    + rewrite !elem_of_app. right. right. left. simpl. left.
    + rewrite !elem_of_app. right. right. left. simpl. right. left.
Qed.

Lemma X11_inserer_indic_dept_table_witness :
  ∃ textes n,
    inserer_indic_dept (table_de [] ex_dept_iti 1 1 1 0 0 0) = Ok textes
    ∧ (20 ≤ length textes ≤ 25)%nat
    ∧ head textes
      = Some (Ligne1 0, "# :grey-background["
                        +:+ pretty (calculer_dept_zone_restrict []) +:+ "]")
    ∧ calculer_dept_arretes_an_passe literal_eval_archive ex_today (read_csv ex_arretes)
      = Ok n
    ∧ (Ligne1 0, ":grey-background[" +:+ pretty n +:+ " en 2024]") ∈ textes
    ∧ (LigneVnf 0, "Sur le réseau VNF uniquement :") ∈ textes.
Proof.
  apply (X11_inserer_indic_dept_table literal_eval_archive ex_today (read_csv ex_arretes)
           [] ex_dept_iti).
  vm_compute. reflexivity.
Defined.

Lemma valeurs_table_indic_de (c0 c1 c2 c3 c4 c5 c6 c7 c8 : valeur)
    (p0 p1 p2 p3 p4 p5 p6 p7 p8 : valeur) (m0 m1 m2 m3 m4 m5 m6 m7 m8 : valeur) :
  let t := table_indic_de [c0; c1; c2; c3; c4; c5; c6; c7; c8]
             [p0; p1; p2; p3; p4; p5; p6; p7; p8] [m0; m1; m2; m3; m4; m5; m6; m7; m8] in
  (valeur_de t "annee_courante" "dept_fr" = Ok c0
   ∧ valeur_de t "annee_courante" "dept_vnf_crise_code" = Ok c1
   ∧ valeur_de t "annee_courante" "dept_vnf_ar_code" = Ok c3
   ∧ valeur_de t "annee_courante" "dept_vnf_a_code" = Ok c5
   ∧ valeur_de t "annee_courante" "dept_vnf_vg_code" = Ok c7)
  ∧ (valeur_de t "mois_precedent" "dept_fr" = Ok m0
     ∧ valeur_de t "mois_precedent" "dept_vnf_crise_code" = Ok m1
     ∧ valeur_de t "mois_precedent" "dept_vnf_ar_code" = Ok m3
     ∧ valeur_de t "mois_precedent" "dept_vnf_a_code" = Ok m5
     ∧ valeur_de t "mois_precedent" "dept_vnf_vg_code" = Ok m7)
  ∧ valeur_de t "annee_precedente" "dept_fr" = Ok p0.
Proof. vm_compute. done. Qed.

Lemma ecarts_dans_textes fr crise ar a vg crise_nom ar_nom a_nom fr_prec
    fr_mois crise_mois ar_mois a_mois vg_mois (e : ecriture) :
  let textes := textes_indic fr crise ar a vg crise_nom ar_nom a_nom fr_prec
                  fr_mois crise_mois ar_mois a_mois vg_mois in
  let libelle := "départements en arrêté par rapport au mois dernier" in
  e ∈ ecrire_ecart (Ligne1 0) (fr - fr_mois) libelle
  ∨ e ∈ ecrire_ecart (Ligne3 0) (vg - vg_mois) libelle
  ∨ e ∈ ecrire_ecart (Ligne3 1) (a - a_mois) libelle
  ∨ e ∈ ecrire_ecart (Ligne3 2) (ar - ar_mois) libelle
  ∨ e ∈ ecrire_ecart (Ligne3 3) (crise - crise_mois) libelle →
  e ∈ textes.
Proof.
  cbv zeta. unfold textes_indic. rewrite !elem_of_app. tauto.
Qed.

Lemma ecart_affiche_ecrire_ecart c x y libelle textes :
  (∀ e, e ∈ ecrire_ecart c (x - y) libelle → e ∈ textes) →
  ecart_affiche c x y textes.
Proof.
  intros H. destruct (ecrire_ecart_cas c (x - y) libelle) as (H0 & Hp & Hn).
  split; [|split]; intros Hxy; apply H.
  - rewrite H0 by lia. left.
  - rewrite Hp by lia. left.
  - rewrite Hn by lia. replace (- (x - y))%Z with (y - x)%Z by lia. left.
Qed.

(** X12. The five differences with the month before, on a table returned
    by [construire_table_indic]: for the national count and for each
    level, the display compares the cell of row annee_courante with the
    cell of row mois_precedent of the same column; equal counts give the
    text 'nombre de départements identique...', a greater current count
    the text '# \+ ' followed by the difference, a lesser one '# \- '
    followed by the difference without its sign. *)
Theorem X12_ecarts_mois_precedent (literal_eval : atom → res pyval) (today : date)
    (df_arretes : archive) (zones_arretes : list zone) (dept_iti : list dept)
    (t : dataframe) :
  construire_table_indic literal_eval today df_arretes zones_arretes dept_iti = Ok t →
  ∃ textes,
    inserer_indic_dept t = Ok textes
    ∧ ∀ c col, (c, col) ∈ cases_ecart →
        ∃ x y, valeur_de t "annee_courante" col = Ok (VInt x)
               ∧ valeur_de t "mois_precedent" col = Ok (VInt y)
               ∧ ecart_affiche c x y textes.
Proof.
  intros (n & m0 & m1 & m2 & m3 & m4 & _ & _ & _ & _ & _ & _ & ->)%construire_table_indic_inv.
  eexists. split; [apply inserer_indic_dept_table_de|].
  rewrite table_de_table_indic_de.
  match goal with
  | |- context [table_indic_de [?c0; ?c1; ?c2; ?c3; ?c4; ?c5; ?c6; ?c7; ?c8]
                  [?p0; ?p1; ?p2; ?p3; ?p4; ?p5; ?p6; ?p7; ?p8]
                  [?n0; ?n1; ?n2; ?n3; ?n4; ?n5; ?n6; ?n7; ?n8]] =>
      destruct (valeurs_table_indic_de c0 c1 c2 c3 c4 c5 c6 c7 c8
                  p0 p1 p2 p3 p4 p5 p6 p7 p8 n0 n1 n2 n3 n4 n5 n6 n7 n8)
        as ((C0 & C1 & C3 & C5 & C7) & (M0 & M1 & M3 & M5 & M7) & _)
  end.
  intros c col Hc. unfold cases_ecart in Hc.
  rewrite !elem_of_cons, elem_of_nil in Hc.
  destruct Hc as [[= -> ->]|[[= -> ->]|[[= -> ->]|[[= -> ->]|[[= -> ->]|[]]]]]];
    eexists _, _;
    (split; [eassumption|]); (split; [eassumption|]);
    eapply ecart_affiche_ecrire_ecart; intros e He; apply ecarts_dans_textes; eauto 6.
Qed.

Lemma X12_ecarts_mois_precedent_witness :
  ∃ textes,
    inserer_indic_dept (table_de [] ex_dept_iti 1 1 1 0 0 0) = Ok textes
    ∧ ∀ c col, (c, col) ∈ cases_ecart →
        ∃ x y, valeur_de (table_de [] ex_dept_iti 1 1 1 0 0 0) "annee_courante" col
               = Ok (VInt x)
               ∧ valeur_de (table_de [] ex_dept_iti 1 1 1 0 0 0) "mois_precedent" col
                 = Ok (VInt y)
               ∧ ecart_affiche c x y textes.
Proof.
  apply (X12_ecarts_mois_precedent literal_eval_archive ex_today (read_csv ex_arretes) []
           ex_dept_iti).
  vm_compute. reflexivity.
Defined.

(** X13. The rows of the table are computed apart.  Whether the table is
    built, and its rows annee_precedente and mois_precedent, depend on
    the archive and on the date only, not on the layer of zones nor on
    the departments of the network; the row annee_courante depends on
    the zones and the departments only. *)
Theorem X13_lignes_separees (literal_eval : atom → res pyval) (today today' : date)
    (df_arretes df_arretes' : archive) (zones_arretes zones_arretes' : list zone)
    (dept_iti dept_iti' : list dept) (t : dataframe) :
  construire_table_indic literal_eval today df_arretes zones_arretes dept_iti = Ok t →
  (∃ t', construire_table_indic literal_eval today df_arretes zones_arretes' dept_iti'
         = Ok t'
         ∧ lignes t' !! "annee_precedente" = lignes t !! "annee_precedente"
         ∧ lignes t' !! "mois_precedent" = lignes t !! "mois_precedent")
  ∧ (∀ t', construire_table_indic literal_eval today' df_arretes' zones_arretes dept_iti
           = Ok t' →
           lignes t' !! "annee_courante" = lignes t !! "annee_courante").
Proof.
  intros Ht.
  pose proof Ht as (n & m0 & m1 & m2 & m3 & m4 & Hn & H0 & H1 & H2 & H3 & H4 & ->)
    %construire_table_indic_inv.
  split.
  - assert (∃ t', construire_table_indic literal_eval today df_arretes zones_arretes'
                    dept_iti' = Ok t') as [t' Ht'].
    { apply construire_table_indic_total.
      - unfold calculer_dept_arretes_an_passe in Hn.
        by apply calculer_dept_arretes_date_Ok_inv in Hn.
      - by apply calculer_dept_arretes_date_Ok_inv in H0. }
    exists t'. split; [exact Ht'|].
    apply construire_table_indic_inv in Ht'
      as (n' & m0' & m1' & m2' & m3' & m4' & Hn' & H0' & H1' & H2' & H3' & H4' & ->).
    assert (n' = n) as -> by congruence. assert (m0' = m0) as -> by congruence.
    assert (m1' = m1) as -> by congruence. assert (m2' = m2) as -> by congruence.
    assert (m3' = m3) as -> by congruence. assert (m4' = m4) as -> by congruence.
    split; reflexivity.
  - intros t' (n' & m0' & m1' & m2' & m3' & m4' & _ & _ & _ & _ & _ & _ & ->)
      %construire_table_indic_inv.
    reflexivity.
Qed.

Lemma X13_lignes_separees_witness :
  ∃ t', construire_table_indic literal_eval_archive ex_today (read_csv ex_arretes) [] []
        = Ok t'
        ∧ lignes t' !! "annee_precedente"
          = lignes (table_de [] ex_dept_iti 1 1 1 0 0 0) !! "annee_precedente"
        ∧ lignes t' !! "mois_precedent"
          = lignes (table_de [] ex_dept_iti 1 1 1 0 0 0) !! "mois_precedent".
Proof.
  apply (X13_lignes_separees literal_eval_archive ex_today ex_today (read_csv ex_arretes)
           (read_csv ex_arretes) [] [] ex_dept_iti []).
  vm_compute. reflexivity.
Defined.

(** X14. In the row mois_precedent of a built table, the national count
    (levels alerte, alerte_renforcee and crise together) is at least
    each of the three counts by level and at most their sum; every count
    of the row is at least 0 and at most the number of rows of the
    archive. *)
Theorem X14_mois_precedent_bornes (literal_eval : atom → res pyval) (today : date)
    (df_arretes : archive) (zones_arretes : list zone) (dept_iti : list dept)
    (t : dataframe) :
  construire_table_indic literal_eval today df_arretes zones_arretes dept_iti = Ok t →
  ∃ fr crise ar a vg : Z,
    valeur_de t "mois_precedent" "dept_fr" = Ok (VInt fr)
    ∧ valeur_de t "mois_precedent" "dept_vnf_crise_code" = Ok (VInt crise)
    ∧ valeur_de t "mois_precedent" "dept_vnf_ar_code" = Ok (VInt ar)
    ∧ valeur_de t "mois_precedent" "dept_vnf_a_code" = Ok (VInt a)
    ∧ valeur_de t "mois_precedent" "dept_vnf_vg_code" = Ok (VInt vg)
    ∧ (crise ≤ fr ∧ ar ≤ fr ∧ a ≤ fr ∧ fr ≤ crise + ar + a)%Z
    ∧ Forall (λ x, 0 ≤ x ≤ Z.of_nat (length (lignes_arretes df_arretes)))%Z
             [fr; crise; ar; a; vg].
Proof.
  intros (n & m0 & m1 & m2 & m3 & m4 & Hn & H0 & H1 & H2 & H3 & H4 & ->)
    %construire_table_indic_inv.
  exists m0, m1, m2, m3, m4.
  rewrite table_de_table_indic_de.
  match goal with
  | |- context [table_indic_de [?c0; ?c1; ?c2; ?c3; ?c4; ?c5; ?c6; ?c7; ?c8]
                  [?p0; ?p1; ?p2; ?p3; ?p4; ?p5; ?p6; ?p7; ?p8]
                  [?n0; ?n1; ?n2; ?n3; ?n4; ?n5; ?n6; ?n7; ?n8]] =>
      destruct (valeurs_table_indic_de c0 c1 c2 c3 c4 c5 c6 c7 c8
                  p0 p1 p2 p3 p4 p5 p6 p7 p8 n0 n1 n2 n3 n4 n5 n6 n7 n8)
        as (_ & (M0 & M1 & M3 & M5 & M7) & _)
  end.
  do 5 (split; [assumption|]).
  set (d := isoformat (date_mois_precedent today)) in *.
  pose proof (calculer_dept_arretes_date_Ok_inv _ _ _ _ _ H0) as Hb.
  destruct (calculer_dept_arretes_date_total _ _ _ ["alerte_renforcee"; "crise"] Hb)
    as [k Hk].
  split.
  - pose proof (compte_niveaux_inclus _ _ _ _ _ _ _ H1 H0) as L1.
    pose proof (compte_niveaux_inclus _ _ _ _ _ _ _ H2 H0) as L2.
    pose proof (compte_niveaux_inclus _ _ _ _ _ _ _ H3 H0) as L3.
    pose proof (compte_niveaux_union _ _ _ ["alerte"] ["alerte_renforcee"; "crise"]
                  _ _ _ H3 Hk H0) as U1.
    pose proof (compte_niveaux_union _ _ _ ["alerte_renforcee"] ["crise"]
                  _ _ _ H2 H1 Hk) as U2.
    assert (∀ s : string, s ∈ ["crise"] → s ∈ ["alerte"; "alerte_renforcee"; "crise"]) as S1
      by (intros s; rewrite !elem_of_cons; tauto).
    assert (∀ s : string, s ∈ ["alerte_renforcee"]
                          → s ∈ ["alerte"; "alerte_renforcee"; "crise"]) as S2
      by (intros s; rewrite !elem_of_cons; tauto).
    assert (∀ s : string, s ∈ ["alerte"] → s ∈ ["alerte"; "alerte_renforcee"; "crise"]) as S3
      by (intros s; rewrite !elem_of_cons; tauto).
    specialize (L1 S1). specialize (L2 S2). specialize (L3 S3). lia.
  - repeat apply Forall_cons_2; try apply Forall_nil_2.
    + pose proof (compte_borne _ _ _ _ _ H0) as B. cbv zeta in B. lia.
    + pose proof (compte_borne _ _ _ _ _ H1) as B. cbv zeta in B. lia.
    + pose proof (compte_borne _ _ _ _ _ H2) as B. cbv zeta in B. lia.
    + pose proof (compte_borne _ _ _ _ _ H3) as B. cbv zeta in B. lia.
    + pose proof (compte_borne _ _ _ _ _ H4) as B. cbv zeta in B. lia.
Qed.

Lemma X14_mois_precedent_bornes_witness :
  ∃ fr crise ar a vg : Z,
    valeur_de (table_de [] ex_dept_iti 1 1 1 0 0 0) "mois_precedent" "dept_fr"
    = Ok (VInt fr)
    ∧ valeur_de (table_de [] ex_dept_iti 1 1 1 0 0 0) "mois_precedent"
        "dept_vnf_crise_code" = Ok (VInt crise)
    ∧ valeur_de (table_de [] ex_dept_iti 1 1 1 0 0 0) "mois_precedent"
        "dept_vnf_ar_code" = Ok (VInt ar)
    ∧ valeur_de (table_de [] ex_dept_iti 1 1 1 0 0 0) "mois_precedent"
        "dept_vnf_a_code" = Ok (VInt a)
    ∧ valeur_de (table_de [] ex_dept_iti 1 1 1 0 0 0) "mois_precedent"
        "dept_vnf_vg_code" = Ok (VInt vg)
    ∧ (crise ≤ fr ∧ ar ≤ fr ∧ a ≤ fr ∧ fr ≤ crise + ar + a)%Z
    ∧ Forall (λ x, 0 ≤ x ≤ Z.of_nat (length ex_arretes))%Z [fr; crise; ar; a; vg].
Proof.
  apply (X14_mois_precedent_bornes literal_eval_archive ex_today (read_csv ex_arretes) []
           ex_dept_iti).
  vm_compute. reflexivity.
Defined.

(** ** Runs of [main] *)

(** X16. The flag [st.session_state.construire_carte] after a run.  The
    key is always there after a run.  A run that returns leaves a flag
    that is not true: the map is shown once for a click.  A run that
    raises leaves the truth value of the flag as it was: the click is
    not used up.  A run without a request of display only creates the
    key, with [None], when it was absent. *)
Theorem X16_session_apres_run {I : Type} (literal_eval : atom → res pyval)
    (json_get : cell → string → res cell) (w : monde I)
    (session : option (option bool)) :
  let apres := run literal_eval json_get w session in
  session_construire_carte apres.1 ≠ None
  ∧ (apres.2 = Ok tt → vrai (session_construire_carte apres.1) = false)
  ∧ (apres.2 = Ok tt → vrai session = true →
     session_construire_carte apres.1 = Some (Some false))
  ∧ (∀ e, apres.2 = Raise e →
          vrai (session_construire_carte apres.1) = vrai session)
  ∧ (vrai session = false →
     session_construire_carte apres.1
     = match session with None => Some None | Some v => Some v end).
Proof.
  cbv zeta.
  destruct (run_cas literal_eval json_get w session)
    as [(k & e & _ & ->)|[(df & e & _ & _ & ->)|[(c & e & _ & ->)
       |[(c & df & _ & _ & ->)|(c & df & tx & _ & _ & ->)]]]];
    cbn [fst snd session_construire_carte];
    destruct session as [[[]|]|]; repeat split; try discriminate; reflexivity.
Qed.

(** X18. An archive without any end date.  [get_arretes] returns a
    dataframe without rows exactly when the archive was read and no row
    has a [date_fin].  In such a run nothing fails and nothing is
    printed, the table is not built, and when the display is requested
    the map is shown and the block of the indicators tab sets the
    message of a failed download. *)
Theorem X18_archive_sans_date_fin {I : Type} (literal_eval : atom → res pyval)
    (json_get : cell → string → res cell) (w : monde I)
    (session : option (option bool)) itineraire dept_iti zones_arretes :
  lire_itineraire w = Ok itineraire →
  lire_dept_iti w = Ok dept_iti →
  get_zones_secheresse json_get (lire_zones w) (requete_zones w) (uploaded_file w)
    = Ok zones_arretes →
  ((∃ df_arretes, get_arretes (requete_arretes w) = Ok df_arretes
                  ∧ lignes_arretes df_arretes = []) ↔
   ∃ lu, requete_arretes w = Ok lu ∧ ∀ r, r ∈ lu → date_fin r = None)
  ∧ (∀ df_arretes,
     get_arretes (requete_arretes w) = Ok df_arretes →
     lignes_arretes df_arretes = [] →
     let fin := run literal_eval json_get w session in
     fin.2 = Ok tt
     ∧ journal fin.1
       = journal_chargement
         ++ [EvFiltrer Arretes;
             EvStatus Principal "Chargement des données...Terminé !"]
         ++ (if vrai session
             then journal_carte (construire_carte (today w) itineraire zones_arretes
                                                  dept_iti (uploaded_file w))
                  ++ [EvStatus Tab2 "Echec du téléchargement des données des arrêtés"]
             else [])
     ∧ (∀ e, EvPrint e ∉ journal fin.1)
     ∧ EvTableIndic ∉ journal fin.1).
Proof.
  intros Hi Hd Hz. split.
  - split.
    + intros (df & (lu & Hlu & ->)%get_arretes_Ok & H). exists lu.
      split; [exact Hlu|]. intros r Hr.
      destruct (date_fin r) as [x|] eqn:Hx; [|reflexivity].
      assert (r ∈ filter (λ r : arrete, is_Some (date_fin r)) lu) as Hin
        by (apply list_elem_of_filter; rewrite Hx; eauto).
      simpl in H. rewrite H in Hin. by apply elem_of_nil in Hin.
    + intros (lu & Hlu & H). exists (dropna_date_fin (read_csv lu)).
      split; [apply get_arretes_Ok; eauto|]. simpl. clear Hlu.
      induction lu as [|r lu IH]; [reflexivity|].
      rewrite filter_cons. destruct (decide (is_Some (date_fin r))) as [[x Hx]|_].
      * rewrite (H r) in Hx by left. discriminate.
      * apply IH. intros r' Hr'. apply H. by right.
  - intros df Ha Hv. cbv zeta.
    rewrite (run_archive_vide _ _ _ _ _ _ _ _ Hi Hd Hz Ha Hv).
    cbn [fst snd journal]. split; [reflexivity|]. split; [reflexivity|].
    unfold journal_chargement, journal_carte.
    split; [intros e|]; intros H; destruct (vrai session); simpl in H;
      repeat (apply elem_of_cons in H as [H|H]; [discriminate H|]);
      by apply elem_of_nil in H.
Qed.

Lemma X18_archive_sans_date_fin_witness :
  (∃ df_arretes,
     get_arretes (requete_arretes
                    (Monde ex_today None (Ok tt) (Ok ex_dept_iti)
                           (λ _, Raise (OtherError "FileNotFoundError"))
                           (Ok []) (Ok [ex_arrete_sans_fin]))) = Ok df_arretes
     ∧ lignes_arretes df_arretes = [])
  ∧ last (journal
            (run literal_eval_archive json_get_plat
               (Monde ex_today None (Ok tt) (Ok ex_dept_iti)
                      (λ _, Raise (OtherError "FileNotFoundError"))
                      (Ok []) (Ok [ex_arrete_sans_fin]))
               (Some (Some true))).1)
    = Some (EvStatus Tab2 "Echec du téléchargement des données des arrêtés").
Proof.
  destruct (X18_archive_sans_date_fin literal_eval_archive json_get_plat
              (Monde ex_today None (Ok tt) (Ok ex_dept_iti)
                     (λ _, Raise (OtherError "FileNotFoundError"))
                     (Ok []) (Ok [ex_arrete_sans_fin]))
              (Some (Some true)) tt ex_dept_iti [])
    as [_ H]; [reflexivity|reflexivity|reflexivity|].
  split; [eexists; split; reflexivity|].
  destruct (H _ eq_refl eq_refl) as (_ & Hj & _). rewrite Hj. reflexivity.
Defined.

(** X19. The run in which everything is there: the two local layers,
    the zones, an archive that is not empty, the table.  The run
    returns; the table is computed in every such run, asked for or not;
    when the display is requested the map is built and shown, then the
    texts that [inserer_indic_dept] gives for the table are written in
    the block of the indicators tab, and the last message is the empty
    text. *)
Theorem X19_run_nominal {I : Type} (literal_eval : atom → res pyval)
    (json_get : cell → string → res cell) (w : monde I)
    (session : option (option bool)) itineraire dept_iti zones_arretes df_arretes t :
  lire_itineraire w = Ok itineraire →
  lire_dept_iti w = Ok dept_iti →
  get_zones_secheresse json_get (lire_zones w) (requete_zones w) (uploaded_file w)
    = Ok zones_arretes →
  get_arretes (requete_arretes w) = Ok df_arretes →
  lignes_arretes df_arretes ≠ [] →
  construire_table_indic literal_eval (today w) df_arretes zones_arretes dept_iti = Ok t →
  let fin := run literal_eval json_get w session in
  ∃ textes,
    inserer_indic_dept t = Ok textes
    ∧ fin.2 = Ok tt
    ∧ journal fin.1
      = journal_chargement
        ++ [EvFiltrer Arretes;
            EvStatus Principal "Chargement des données...Terminé !"; EvTableIndic]
        ++ (if vrai session
            then journal_carte (construire_carte (today w) itineraire zones_arretes
                                                 dept_iti (uploaded_file w))
                 ++ [EvStatus Tab2 "Visualisation indicateurs...";
                     EvIndic Tab2 textes;
                     EvStatus Tab2 ""]
            else [])
    ∧ (∀ e, EvPrint e ∉ journal fin.1)
    ∧ (∀ b, EvStatus b "Echec du téléchargement des données des arrêtés" ∉ journal fin.1).
Proof.
  intros Hi Hd Hz Ha Hdf Ht. cbv zeta.
  destruct (inserer_apres_construire _ _ _ _ _ _ Ht) as [textes Htx].
  exists textes. split; [exact Htx|].
  rewrite (run_nominal _ _ _ _ _ _ _ _ _ _ Hi Hd Hz Ha Hdf Ht Htx).
  cbn [fst snd journal]. split; [reflexivity|]. split; [reflexivity|].
  unfold journal_chargement, journal_carte.
  split; intros x H; destruct (vrai session); simpl in H;
    repeat (apply elem_of_cons in H as [H|H]; [discriminate H|]);
    by apply elem_of_nil in H.
Qed.

Lemma X19_run_nominal_witness :
  ∃ textes,
    inserer_indic_dept (table_de [] ex_dept_iti 1 1 1 0 0 0) = Ok textes
    ∧ (run literal_eval_archive json_get_plat
         (Monde ex_today None (Ok tt) (Ok ex_dept_iti)
                (λ _, Raise (OtherError "FileNotFoundError")) (Ok []) (Ok ex_arretes))
         (Some (Some true))).2 = Ok tt
    ∧ last (journal
              (run literal_eval_archive json_get_plat
                 (Monde ex_today None (Ok tt) (Ok ex_dept_iti)
                        (λ _, Raise (OtherError "FileNotFoundError")) (Ok []) (Ok ex_arretes))
                 (Some (Some true))).1)
      = Some (EvStatus Tab2 "").
Proof.
  destruct (X19_run_nominal literal_eval_archive json_get_plat
              (Monde ex_today None (Ok tt) (Ok ex_dept_iti)
                     (λ _, Raise (OtherError "FileNotFoundError")) (Ok []) (Ok ex_arretes))
              (Some (Some true)) tt ex_dept_iti [] (dropna_date_fin (read_csv ex_arretes))
              (table_de [] ex_dept_iti 1 1 1 0 0 0))
    as (textes & Htx & Hr & Hj & _);
    [reflexivity|reflexivity|vm_compute; reflexivity|reflexivity|discriminate
    |vm_compute; reflexivity|].
  exists textes. split; [exact Htx|]. split; [exact Hr|].
  rewrite Hj. reflexivity.
Defined.

(** ** The zones of a run without an uploaded file *)

Lemma sublist_StronglySorted {A} (R : relation A) (l1 l2 : list A) :
  l1 `sublist_of` l2 → StronglySorted R l2 → StronglySorted R l1.
Proof.
  induction 1 as [|x l1 l2 Hs IH|x l1 l2 Hs IH]; intros H2.
  - constructor.
  - apply StronglySorted_cons in H2 as [Hx H2]. apply StronglySorted_cons.
    split; [|by apply IH]. apply Forall_forall. intros y Hy.
    apply (proj1 (Forall_forall _ _) Hx). by apply (elem_of_sublist l1).
  - apply StronglySorted_cons in H2 as [_ H2]. by apply IH.
Qed.

(** The rows that [filtrer_zones] keeps are rows of the layer, in the
    order of the layer. *)
Lemma zone_de_lignes json_get (rows : list zone_brute) (l : list (option zone)) :
  Forall2 (λ r o, zone_de json_get r = Ok o) rows l →
  z_id <$> omap id l `sublist_of` zb_id <$> rows.
Proof.
  induction 1 as [|r o rows l Hr _ IH]; [constructor|].
  destruct o as [z|]; csimpl.
  - assert (z_id z = zb_id r) as ->.
    { unfold zone_de in Hr.
      destruct (json_get (zb_departement r) "code") as [code|]; simpl in Hr; [|discriminate].
      destruct (code_court code) as [[]|]; simpl in Hr; try discriminate.
      destruct (json_get (zb_arreteRestriction r) "fichier"); simpl in Hr; [|discriminate].
      by injection Hr as <-. }
    by constructor.
  - by constructor.
Qed.

(** X20. Without an uploaded file the tiles are merged: the layer that
    [get_zones_secheresse] returns has at most one zone for an [id],
    every zone has an [id], the zones come sorted by [id], and every
    [id] is that of a row of type 'SUP' of the layer requested. *)
Theorem X20_zones_une_par_id (json_get : cell → string → res cell)
    (lire_geopandas : string → res (list zone_brute))
    (requete_zones : res (list zone_brute)) (zones_arretes : list zone) :
  get_zones_secheresse json_get lire_geopandas requete_zones None = Ok zones_arretes →
  NoDup (z_id <$> zones_arretes)
  ∧ StronglySorted Z.lt (omap z_id zones_arretes)
  ∧ ∀ z, z ∈ zones_arretes →
      ∃ k lu r, z_id z = Some k ∧ requete_zones = Ok lu ∧ r ∈ lu
                ∧ zb_id r = Some k ∧ zb_type r = Some "SUP".
Proof.
  unfold get_zones_secheresse.
  destruct requete_zones as [lu|e]; cbn [mbind res_bind mret res_ret]; [|discriminate].
  intros (l & Hl & ->)%filtrer_zones_lignes.
  apply zone_de_lignes in Hl. unfold zones_sup in Hl.
  set (sup := filter (λ r, zb_type r = Some "SUP") lu) in *.
  rewrite dissolve_ids in Hl.
  set (ids := merge_sort Z.le (remove_dups (omap zb_id sup))) in *.
  assert (NoDup ids) as Hnd.
  { unfold ids. rewrite merge_sort_Permutation. apply NoDup_remove_dups. }
  assert (StronglySorted Z.le ids) as Hs.
  { apply Sorted_StronglySorted; [apply _|]. apply Sorted_merge_sort. apply _. }
  assert (StronglySorted Z.lt ids) as Hlt.
  { clear Hl. induction ids as [|k ids IH]; [constructor|].
    apply StronglySorted_cons in Hs as [Hk Hs]. apply NoDup_cons in Hnd as [Hnk Hnd].
    apply StronglySorted_cons. split; [|by apply IH].
    apply Forall_forall. intros k' Hk'.
    pose proof (proj1 (Forall_forall _ _) Hk k' Hk').
    assert (k ≠ k') by (intros ->; contradiction). lia. }
  split; [|split].
  - eapply sublist_NoDup; [|exact Hl]. apply NoDup_fmap_2; [apply _|exact Hnd].
  - apply (sublist_StronglySorted _ _ ids); [|exact Hlt].
    assert (omap z_id (omap id l) = omap id (z_id <$> omap id l)) as ->.
    { generalize (omap id l). intros zs. induction zs as [|z zs IH]; [reflexivity|].
      csimpl. destruct (z_id z); csimpl; by rewrite IH. }
    assert (ids = omap id (Some <$> ids)) as Hids.
    { clear. induction ids as [|k ids IH]; [reflexivity|]. csimpl. by rewrite <- IH. }
    rewrite Hids. clear Hids. revert Hl. generalize (z_id <$> omap id l), (Some <$> ids).
    intros l1 l2. induction 1 as [|x l1 l2 _ IH|x l1 l2 _ IH]; [constructor|..].
    + csimpl. destruct x; csimpl; [by constructor|exact IH].
    + csimpl. destruct x; csimpl; [by constructor|exact IH].
  - intros z Hz.
    assert (z_id z ∈ Some <$> ids) as (k & Hk & Hin)%list_elem_of_fmap.
    { eapply elem_of_sublist; [|exact Hl]. apply list_elem_of_fmap. eauto. }
    unfold ids in Hin.
    rewrite merge_sort_Permutation, elem_of_remove_dups, list_elem_of_omap in Hin.
    destruct Hin as (r & Hr & Hid). unfold sup in Hr.
    apply list_elem_of_filter in Hr as [Ht Hr].
    exists k, lu, r. done.
Qed.

Lemma X20_zones_une_par_id_witness :
  NoDup (z_id <$> [Zone (Some 1%Z) (Some "SUP")
                     (Some (json_objet [("code", Some "2A"); ("nom", Some "Corse-du-Sud")]))
                     (Some (json_objet [("fichier", None)])) (Some "vigilance")
                     (Some "2A") None;
                   Zone (Some 7%Z) (Some "SUP")
                     (Some (json_objet [("code", Some "59"); ("nom", Some "Nord")]))
                     (Some (json_objet [("fichier", Some "arrete_59.pdf")])) (Some "crise")
                     (Some "59") (Some "arrete_59.pdf")]).
Proof.
  apply (X20_zones_une_par_id json_get_plat (λ _, Raise (OtherError "FileNotFoundError"))
           (Ok ex_zones_brutes)).
  vm_compute. reflexivity.
Defined.

(** ** The two dates of comparison *)

(** X21. For a date of the calendar (month from 1 to 12) the two dates
    of comparison are first days of a month of the calendar; the date of
    the month before is one month before the month of the run, over the
    change of year in January, the date of the year before is twelve
    months before, so eleven months before the other. *)
Theorem X21_dates_de_comparaison (today : date) :
  (1 ≤ month today ≤ 12)%Z →
  let mois := date_mois_precedent today in
  let an := date_an_passe today in
  day mois = 1%Z ∧ day an = 1%Z
  ∧ (1 ≤ month mois ≤ 12)%Z ∧ (1 ≤ month an ≤ 12)%Z
  ∧ (12 * year mois + month mois = 12 * year today + month today - 1)%Z
  ∧ (12 * year an + month an = 12 * year today + month today - 12)%Z
  ∧ (month today = 1%Z → year mois = (year today - 1)%Z ∧ month mois = 12%Z).
Proof.
  intros Hm. cbv zeta. unfold date_mois_precedent, date_an_passe.
  destruct (Z.ltb_spec (month today - 1) 1); cbn [year month day]; repeat split; lia.
Qed.

Lemma X21_dates_de_comparaison_witness :
  day (date_mois_precedent (Date 2025 1 15)) = 1%Z
  ∧ day (date_an_passe (Date 2025 1 15)) = 1%Z
  ∧ (1 ≤ month (date_mois_precedent (Date 2025 1 15)) ≤ 12)%Z
  ∧ (1 ≤ month (date_an_passe (Date 2025 1 15)) ≤ 12)%Z
  ∧ (12 * year (date_mois_precedent (Date 2025 1 15))
     + month (date_mois_precedent (Date 2025 1 15))
     = 12 * year (Date 2025 1 15) + month (Date 2025 1 15) - 1)%Z
  ∧ (12 * year (date_an_passe (Date 2025 1 15)) + month (date_an_passe (Date 2025 1 15))
     = 12 * year (Date 2025 1 15) + month (Date 2025 1 15) - 12)%Z
  ∧ (month (Date 2025 1 15) = 1%Z →
     year (date_mois_precedent (Date 2025 1 15)) = (year (Date 2025 1 15) - 1)%Z
     ∧ month (date_mois_precedent (Date 2025 1 15)) = 12%Z).
Proof.
  apply (X21_dates_de_comparaison (Date 2025 1 15)). simpl. lia.
Defined.

(** ** The network counts against the national count *)

(** X22. On the current layer, when no code is given twice in the layer
    of the departments of the network, the count of the network at a
    level beyond vigilance is at most the national count of the
    departments beyond vigilance; a department that has zones at two
    levels is counted at both. *)
Theorem X22_vnf_dans_national (zones_arretes : list zone) (dept_iti : list dept)
    (niveau : string) :
  NoDup (insee_dep <$> dept_iti) →
  niveau ≠ "vigilance" →
  ((calculer_dept_zone_vnf_niveau zones_arretes dept_iti niveau).1
   ≤ calculer_dept_zone_restrict zones_arretes)%Z.
Proof.
  intros Hnd Hniv.
  pose proof (calculer_dept_zone_vnf_niveau_eq zones_arretes dept_iti niveau) as Hv.
  cbv zeta in Hv. rewrite Hv, calculer_dept_zone_restrict_eq. cbn [fst].
  set (res := filter _ dept_iti).
  rewrite <- (length_fmap insee_dep res).
  apply inj_le, submseteq_length, NoDup_submseteq.
  - eapply sublist_NoDup; [exact Hnd|]. apply fmap_sublist, sublist_filter.
  - intros c (d & -> & Hd)%list_elem_of_fmap.
    apply list_elem_of_filter in Hd as [(z & Hc & Hz)%list_elem_of_fmap _].
    apply list_elem_of_filter in Hz as [Hn Hz].
    apply elem_of_remove_dups, list_elem_of_fmap. exists z. split; [exact Hc|].
    apply list_elem_of_filter. split; [|exact Hz].
    apply cell_ne_spec. rewrite Hn. congruence.
Qed.

Lemma X22_vnf_dans_national_witness :
  ((calculer_dept_zone_vnf_niveau
      [Zone (Some 7%Z) (Some "SUP") None None (Some "crise") (Some "59") None;
       Zone (Some 8%Z) (Some "SUP") None None (Some "alerte") (Some "13") None]
      ex_dept_iti "crise").1
   ≤ calculer_dept_zone_restrict
       [Zone (Some 7%Z) (Some "SUP") None None (Some "crise") (Some "59") None;
        Zone (Some 8%Z) (Some "SUP") None None (Some "alerte") (Some "13") None])%Z.
Proof.
  apply X22_vnf_dans_national; [|discriminate].
  apply (bool_decide_unpack _). vm_compute. reflexivity.
Defined.
